(** * ConnectWise API gateway: endpoint resolution, tiered search and the
      saved-query store

    A shallow embedding of [api_gateway/api_db_utils.py] (class
    [APIDatabase]) and [api_gateway/cached_queries_db.py] (class
    [CachedQueriesDB]), with the tables of [api_gateway/schema.py].

    Conventions of the model.
    - Python [str] values are Rocq [string]s; the character tables
      (whitespace, letters, digits, case folding) are the ASCII ones.
    - A table is the list of its rows in storage-scan order (the catalog),
      or a finite map from primary key to row (saved queries).
    - A method that can raise returns a [result]; a method that mutates
      its object returns the new object next to its result.
    - PostgreSQL's text-search machinery ([tsvector], [ts_rank], ...) is
      not part of the repository: the ranked statements are fields of the
      database object, and each may fail.
    - The model is exact on ASCII text without NUL ([Spec.ascii_text]).
      Outside ASCII, Python's white space, [\w], [\d] and letter case
      are those of Unicode; a bound string with a NUL character makes the
      database driver raise [ValueError]; and a [LIKE] pattern that ends
      in the escape character fails in PostgreSQL only when the matcher
      reaches its end, where the model fails the statement.  Statements
      that word a character class, or say that a call does not fail,
      carry these conditions as hypotheses. *)

From Stdlib Require Import ZArith Ascii String DecimalString List Sorted Lia Bool.
From stdpp Require Import base option list strings gmap fin_maps.

Local Open Scope string_scope.
Local Open Scope Z_scope.

(** ** Python strings *)

Module Py.

Definition code (c : ascii) : N := N_of_ascii c.

Definition in_range (lo hi : N) (c : ascii) : bool :=
  ((lo <=? code c) && (code c <=? hi))%N.

(** The character classes of Python on ASCII characters.  Outside ASCII
    [str.isdigit], [\d] and the like also hold of the digits and letters
    of other scripts. *)
Definition is_digit (c : ascii) : bool := in_range 48 57 c.
Definition is_upper (c : ascii) : bool := in_range 65 90 c.
Definition is_lower (c : ascii) : bool := in_range 97 122 c.
Definition is_alpha (c : ascii) : bool := is_upper c || is_lower c.
Definition is_alnum (c : ascii) : bool := is_alpha c || is_digit c.

(** [str.isspace] on one ASCII character: TAB, LF, VT, FF, CR, FS, GS,
    RS, US and the blank.  ([str.strip] also removes the white space
    outside ASCII, such as U+00A0.) *)
Definition is_space (c : ascii) : bool :=
  in_range 9 13 c || in_range 28 32 c.

Definition char_is (d : ascii) (c : ascii) : bool := Ascii.eqb c d.

Definition lower_char (c : ascii) : ascii :=
  if is_upper c then ascii_of_N (code c + 32) else c.

(** [s.lower()] *)
Fixpoint lower (s : string) : string :=
  match s with
  | "" => ""
  | String c rest => String (lower_char c) (lower rest)
  end.

(** [not s] *)
Definition is_empty (s : string) : bool :=
  match s with "" => true | _ => false end.

Definition len (s : string) : Z := Z.of_nat (String.length s).

Fixpoint all_chars (p : ascii -> bool) (s : string) : bool :=
  match s with
  | "" => true
  | String c rest => p c && all_chars p rest
  end.

Fixpoint any_char (p : ascii -> bool) (s : string) : bool :=
  match s with
  | "" => false
  | String c rest => p c || any_char p rest
  end.

(** [s.lstrip(chars)] and [s.rstrip(chars)], the character set given as
    a predicate. *)
Fixpoint lstrip (p : ascii -> bool) (s : string) : string :=
  match s with
  | "" => ""
  | String c rest => if p c then lstrip p rest else s
  end.

Fixpoint rstrip (p : ascii -> bool) (s : string) : string :=
  match s with
  | "" => ""
  | String c rest =>
      match rstrip p rest with
      | "" => if p c then "" else String c ""
      | r => String c r
      end
  end.

(** [s.strip()] *)
Definition strip (s : string) : string := rstrip is_space (lstrip is_space s).

(** [s.startswith(c)] and [s.endswith(c)] for a one-character argument. *)
Definition startswith (d : ascii) (s : string) : bool :=
  match s with
  | String c _ => char_is d c
  | "" => false
  end.

Fixpoint endswith (d : ascii) (s : string) : bool :=
  match s with
  | "" => false
  | String c "" => char_is d c
  | String _ rest => endswith d rest
  end.

(** [s.split(sep)] for a one-character separator: empty pieces are kept,
    and the empty string splits into one empty piece. *)
Fixpoint split_on (sep : ascii) (s : string) : list string :=
  match s with
  | "" => [""]
  | String c rest =>
      if char_is sep c then "" :: split_on sep rest
      else match split_on sep rest with
           | seg :: segs => String c seg :: segs
           | [] => [String c ""]
           end
  end.

(** [s.split()]: the maximal runs of non-whitespace characters. *)
Fixpoint split_ws_aux (cur : option string) (s : string) : list string :=
  match s with
  | "" => match cur with Some w => [w] | None => [] end
  | String c rest =>
      if is_space c then
        match cur with
        | Some w => w :: split_ws_aux None rest
        | None => split_ws_aux None rest
        end
      else
        match cur with
        | Some w => split_ws_aux (Some (w ++ String c "")) rest
        | None => split_ws_aux (Some (String c "")) rest
        end
  end.

Definition split_ws (s : string) : list string := split_ws_aux None s.

(** [sep.join(pieces)] *)
Definition join (sep : string) (pieces : list string) : string :=
  String.concat sep pieces.

End Py.

(** ** The path normalizer *)

(** [re.sub(r'/+', '/', s)]: every maximal run of slashes becomes one
    slash. *)
Fixpoint collapse_slashes (s : string) : string :=
  match s with
  | "" => ""
  | String c rest =>
      if Py.char_is "/" c then
        if Py.startswith "/" rest then collapse_slashes rest
        else String c (collapse_slashes rest)
      else String c (collapse_slashes rest)
  end.

Definition _normalize_path (path : string) : string :=
  if Py.is_empty path then "/"
  else
    let normalized := collapse_slashes (Py.strip path) in
    let normalized :=
      if negb (Py.startswith "/" normalized) then String "/" normalized
      else normalized in
    if (1 <? Py.len normalized) && Py.endswith "/" normalized
    then Py.rstrip (Py.char_is "/") normalized
    else normalized.

(** The route components of a path: its non-empty pieces between slashes. *)
Definition segments (s : string) : list string :=
  List.filter (fun seg => negb (Py.is_empty seg)) (Py.split_on "/" s).

(** Two slashes in a row somewhere in the string. *)
Fixpoint has_double_slash (s : string) : bool :=
  match s with
  | "" => false
  | String c rest =>
      (Py.char_is "/" c && Py.startswith "/" rest) || has_double_slash rest
  end.

(** ** Exceptions and results *)

Inductive exn :=
| DataError (what : string)        (* sqlalchemy.exc.DataError *)
| IntegrityError (what : string)   (* sqlalchemy.exc.IntegrityError *)
| OperationalError (what : string) (* sqlalchemy.exc.OperationalError *)
| RuntimeError (what : string)
| Exception (msg : string).

(** [isinstance(e, SQLAlchemyError)] *)
Definition is_SQLAlchemyError (e : exn) : bool :=
  match e with
  | DataError _ | IntegrityError _ | OperationalError _ => true
  | RuntimeError _ | Exception _ => false
  end.

Inductive result (A : Type) :=
| Ok (a : A)
| Raise (e : exn).
Arguments Ok {A} a.
Arguments Raise {A} e.

#[global] Instance result_bind : MBind result :=
  fun A B (k : A -> result B) (r : result A) =>
    match r with
    | Ok a => k a
    | Raise e => Raise e
    end.

(** [except SQLAlchemyError as e: raise Exception(msg)]: any other
    exception passes through. *)
Definition except_SQLAlchemyError {A} (msg : string) (r : result A) : result A :=
  match r with
  | Ok a => Ok a
  | Raise e => if is_SQLAlchemyError e then Raise (Exception msg) else Raise e
  end.

(** ** The SQL fragments the statements use *)

Module Sql.

(** A [LIKE] pattern: [%] is any run of characters, [_] any one
    character, and the backslash makes the next character literal. *)
Inductive like_tok := AnySeq | AnyOne | Lit (c : ascii).

(** The pattern as tokens; [None] for a pattern that ends in the escape
    character, which PostgreSQL rejects. *)
Fixpoint like_parse (p : string) : option (list like_tok) :=
  match p with
  | "" => Some []
  | String c rest =>
      if Py.char_is "\" c then
        match rest with
        | "" => None
        | String d rest' => cons (Lit d) <$> like_parse rest'
        end
      else if Py.char_is "%" c then cons AnySeq <$> like_parse rest
      else if Py.char_is "_" c then cons AnyOne <$> like_parse rest
      else cons (Lit c) <$> like_parse rest
  end.

Fixpoint like_toks (p : list like_tok) (s : string) : bool :=
  match p with
  | [] => Py.is_empty s
  | AnyOne :: p' =>
      match s with
      | String _ r => like_toks p' r
      | "" => false
      end
  | Lit c :: p' =>
      match s with
      | String d r => Ascii.eqb c d && like_toks p' r
      | "" => false
      end
  | AnySeq :: p' =>
      (fix skip (s : string) : bool :=
         like_toks p' s
         || match s with
            | String _ r => skip r
            | "" => false
            end) s
  end.

(** A compiled pattern applied to a nullable column: [NULL LIKE p] is
    not true. *)
Definition matches (p : list like_tok) (column : option string) : bool :=
  match column with
  | Some s => like_toks p s
  | None => false
  end.

(** [ILIKE] folds the case of both sides. *)
Definition imatches (p : list like_tok) (column : option string) : bool :=
  matches p (Py.lower <$> column).

(** The pattern of a [LIKE] / an [ILIKE] condition.  PostgreSQL reports a
    trailing escape when the matcher reaches it; here the statement
    that carries such a pattern fails as a whole. *)
Definition like_pattern (p : string) : result (list like_tok) :=
  match like_parse p with
  | Some toks => Ok toks
  | None => Raise (DataError "LIKE pattern must not end with escape character")
  end.

Definition ilike_pattern (p : string) : result (list like_tok) :=
  like_pattern (Py.lower p).

(** [LIMIT n]: the count is a [bigint] and must not be negative. *)
Definition limit {A} (n : Z) (rows : list A) : result (list A) :=
  if (0 <=? n) && (n <=? 9223372036854775807)
  then Ok (take (Z.to_nat n) rows)
  else Raise (DataError "LIMIT must be a non-negative bigint").

(** [ORDER BY]: a stable insertion sort on [leb].  PostgreSQL leaves the
    order of ties open; nothing below depends on it. *)
Fixpoint insert_by {A} (leb : A -> A -> bool) (x : A) (l : list A) : list A :=
  match l with
  | [] => [x]
  | y :: l' => if leb x y then x :: y :: l' else y :: insert_by leb x l'
  end.

Definition order_by {A} (leb : A -> A -> bool) (rows : list A) : list A :=
  foldr (insert_by leb) [] rows.

(** Ascending order on an integer sort key, as a test and as a relation. *)
Definition by_key_leb {A} (key : A -> Z) (a b : A) : bool := key a <=? key b.

Definition by_key_le {A} (key : A -> Z) (a b : A) : Prop := key a <= key b.

(** Text ascending with [NULL]s last. *)
Definition text_leb (a b : option string) : bool :=
  match a, b with
  | Some x, Some y => String.leb x y
  | Some _, None => true
  | None, Some _ => false
  | None, None => true
  end.

Definition text_eqb (a b : option string) : bool :=
  match a, b with
  | Some x, Some y => String.eqb x y
  | None, None => true
  | _, _ => false
  end.

(** A result cursor: the rows not fetched yet. *)
Definition cursor (A : Type) := list A.

Definition fetchone {A} (c : cursor A) : option A * cursor A :=
  match c with
  | [] => (None, [])
  | row :: c' => (Some row, c')
  end.

Definition fetchall {A} (c : cursor A) : list A * cursor A := (c, []).

End Sql.

(** ** The catalog ([schema.py]) *)

Record Endpoint := {
  endpoint_id_ : Z;
  endpoint_path : string;
  endpoint_method : string;
  endpoint_description : option string;
  endpoint_category : option string;
  endpoint_summary : option string;
  endpoint_tags : option string;
  endpoint_keywords : option string;
  endpoint_search_vector : option string
}.

Record Parameter_ := {
  parameter_id : Z;
  parameter_endpoint_id : Z;
  parameter_name : string;
  parameter_location : string;
  parameter_required : option bool;
  parameter_type : option string;
  parameter_description : option string
}.

Record RequestBody := {
  request_body_id : Z;
  request_body_endpoint_id : Z;
  request_body_schema : option string;
  request_body_example : option string
}.

Record ResponseBody := {
  response_body_id : Z;
  response_body_endpoint_id : Z;
  response_body_status_code : option string;
  response_body_description : option string;
  response_body_schema : option string;
  response_body_example : option string
}.

(** The three ranked statements of the module, told apart by their query
    parser and rank function. *)
Inductive ranked_statement :=
| WebsearchRank      (* websearch_to_tsquery, ts_rank, then category, path *)
| WebsearchRankCd    (* websearch_to_tsquery, ts_rank_cd *)
| PlaintoRank.       (* plainto_tsquery, ts_rank *)

Record APIDatabase := {
  endpoints : list Endpoint;
  parameters : list Parameter_;
  request_bodies : list RequestBody;
  response_bodies : list ResponseBody;
  (** whether [endpoints] has the [search_vector] column *)
  search_vector_column : bool;
  (** the rows a ranked statement selects for a query text, in rank
      order and before its [LIMIT], or the error it ends in *)
  ranked_rows : ranked_statement -> string -> result (list Endpoint);
  _known_segments_cache : gmap string bool
}.

Definition with_cache (self : APIDatabase) (cache : gmap string bool) : APIDatabase :=
  {| endpoints := endpoints self;
     parameters := parameters self;
     request_bodies := request_bodies self;
     response_bodies := response_bodies self;
     search_vector_column := search_vector_column self;
     ranked_rows := ranked_rows self;
     _known_segments_cache := cache |}.

(** ** The parameterizer *)

(** The regular expressions of [_convert_segment_to_parameter], each read
    off its pattern. *)
Module Re.

Definition LF : ascii := "010"%char.

Fixpoint drop_last (s : string) : string :=
  match s with
  | "" => ""
  | String c "" => ""
  | String c rest => String c (drop_last rest)
  end.

(** [re.match(r'^P$', s)], where [full] decides whether [P] matches a
    whole string: [$] stands at the end of the string and also just
    before a line feed that ends it. *)
Definition anchored (full : string -> bool) (s : string) : bool :=
  full s || (Py.endswith LF s && full (drop_last s)).

(** [X+] against a whole string. *)
Definition plus (class : ascii -> bool) (s : string) : bool :=
  negb (Py.is_empty s) && Py.all_chars class s.

(** [X{n}] at the start of the string: the text left after it. *)
Fixpoint exactly (n : nat) (class : ascii -> bool) (s : string) : option string :=
  match n with
  | O => Some s
  | S k =>
      match s with
      | String c rest => if class c then exactly k class rest else None
      | "" => None
      end
  end.

(** Counted classes one after the other. *)
Fixpoint sequence (items : list (nat * (ascii -> bool))) (s : string)
  : option string :=
  match items with
  | [] => Some s
  | (n, class) :: items' =>
      match exactly n class s with
      | Some rest => sequence items' rest
      | None => None
      end
  end.

(** [[a-f0-9]] under [re.IGNORECASE] *)
Definition is_hex (c : ascii) : bool :=
  Py.is_digit c || Py.in_range 97 102 c || Py.in_range 65 70 c.

(** [\w] on ASCII characters; on a [str] pattern it also matches the
    word characters outside ASCII. *)
Definition is_word (c : ascii) : bool := Py.is_alnum c || Py.char_is "_" c.

(** [[\w\-]] *)
Definition is_word_or_hyphen (c : ascii) : bool := is_word c || Py.char_is "-" c.

(** [[A-Za-z0-9+/=_-]] *)
Definition is_base64_like (c : ascii) : bool :=
  Py.is_alnum c || Py.char_is "+" c || Py.char_is "/" c || Py.char_is "=" c
  || Py.char_is "_" c || Py.char_is "-" c.

(** [^\d+$] *)
Definition numeric_id (s : string) : bool := anchored (plus Py.is_digit) s.

(** [^[a-f0-9]{8}-[a-f0-9]{4}-[a-f0-9]{4}-[a-f0-9]{4}-[a-f0-9]{12}$],
    [re.IGNORECASE] *)
Definition uuid_full (s : string) : bool :=
  match
    sequence [(8, is_hex); (1, Py.char_is "-"); (4, is_hex); (1, Py.char_is "-");
              (4, is_hex); (1, Py.char_is "-"); (4, is_hex); (1, Py.char_is "-");
              (12, is_hex)]%nat s
  with
  | Some rest => Py.is_empty rest
  | None => false
  end.

Definition uuid (s : string) : bool := anchored uuid_full s.

(** [^[A-Z]{2,4}-[\w\-]+$], [re.IGNORECASE]: the counted prefix is
    tried at 4, 3 and 2 letters. *)
Definition prefixed_full (s : string) : bool :=
  existsb
    (fun n =>
       match sequence [(n, Py.is_alpha); (1%nat, Py.char_is "-")] s with
       | Some suffix => plus is_word_or_hyphen suffix
       | None => false
       end)
    [4; 3; 2]%nat.

Definition prefixed_id (s : string) : bool := anchored prefixed_full s.

(** [^[a-zA-Z0-9]+$] *)
Definition alnum_only (s : string) : bool := anchored (plus Py.is_alnum) s.

(** [^[A-Za-z0-9+/=_-]+$] *)
Definition base64_like (s : string) : bool := anchored (plus is_base64_like) s.

(** [re.search(r'\d', s)] and [re.search(r'[a-zA-Z]', s)] *)
Definition has_digit (s : string) : bool := Py.any_char Py.is_digit s.
Definition has_letter (s : string) : bool := Py.any_char Py.is_alpha s.

End Re.

Definition _is_known_path_segment (self : APIDatabase) (segment : string)
  : bool * APIDatabase :=
  if Py.is_empty segment then (false, self)
  else
    match _known_segments_cache self !! segment with
    | Some known => (known, self)
    | None =>
        match Sql.like_pattern ("%/" ++ segment ++ "%") with
        | Ok segment_pattern =>
            let count :=
              length (List.filter
                        (fun e => Sql.matches segment_pattern (Some (endpoint_path e)))
                        (endpoints self)) in
            let exists_ := (0 <? count)%nat in
            (exists_,
             with_cache self (<[segment := exists_]> (_known_segments_cache self)))
        | Raise _ => (false, self)
        end
    end.

(** The five heuristics, in the order the function tries them. *)
Definition looks_like_parameter (segment : string) : bool :=
  Re.numeric_id segment
  || Re.uuid segment
  || Re.prefixed_id segment
  || ((8 <=? Py.len segment) && Re.alnum_only segment
      && Re.has_digit segment && Re.has_letter segment)
  || ((10 <=? Py.len segment) && Re.base64_like segment).

Definition _convert_segment_to_parameter (self : APIDatabase) (segment : string)
  : string * APIDatabase :=
  if Py.is_empty segment then (segment, self)
  else
    let '(known, self) := _is_known_path_segment self segment in
    if known then (segment, self)
    else if Re.numeric_id segment then ("{id}", self)
    else if Re.uuid segment then ("{id}", self)
    else if Re.prefixed_id segment then ("{id}", self)
    else if (8 <=? Py.len segment) && Re.alnum_only segment
            && Re.has_digit segment && Re.has_letter segment then ("{id}", self)
    else if (10 <=? Py.len segment) && Re.base64_like segment then ("{id}", self)
    else (segment, self).

(** The loop of [_convert_to_parameterized_path] over the pieces of the
    path. *)
Fixpoint convert_segments (self : APIDatabase) (segs : list string)
  : list string * APIDatabase :=
  match segs with
  | [] => ([], self)
  | segment :: rest =>
      let '(converted_segment, self) :=
        if Py.is_empty segment then (segment, self)
        else _convert_segment_to_parameter self segment in
      let '(converted_segments, self) := convert_segments self rest in
      (converted_segment :: converted_segments, self)
  end.

Definition _convert_to_parameterized_path (self : APIDatabase) (path : string)
  : string * APIDatabase :=
  if Py.is_empty path || String.eqb path "/" then (path, self)
  else
    let normalized_path := Py.rstrip (Py.char_is "/") path in
    let normalized_path :=
      if negb (Py.startswith "/" normalized_path) then String "/" normalized_path
      else normalized_path in
    let '(converted_segments, self) :=
      convert_segments self (Py.split_on "/" normalized_path) in
    (Py.join "/" converted_segments, self).

(** The text before the first closing brace, when there is one. *)
Fixpoint until_rbrace (s : string) : option string :=
  match s with
  | "" => None
  | String c rest =>
      if Py.char_is "}" c then Some "" else String c <$> until_rbrace rest
  end.

(** [re.sub(r'\{[^}]+\}', '{param}', s)], left to right; [skip] counts the
    characters of a placeholder that has just been replaced. *)
Fixpoint sub_placeholders (skip : nat) (s : string) : string :=
  match s with
  | "" => ""
  | String c rest =>
      match skip with
      | S k => sub_placeholders k rest
      | O =>
          if Py.char_is "{" c then
            match until_rbrace rest with
            | Some (String _ _ as name) =>
                "{param}" ++ sub_placeholders (S (String.length name)) rest
            | _ => String c (sub_placeholders 0 rest)
            end
          else String c (sub_placeholders 0 rest)
      end
  end.

Definition _convert_to_generic_pattern (path : string) : string :=
  if Py.is_empty path then path else sub_placeholders 0 path.

(** ** Hydration: [get_endpoint_details] *)

(** A parsed JSON document; numbers keep their literal text. *)
#[local] Unset Elimination Schemes.
Inductive json :=
| JNull
| JBool (b : bool)
| JNumber (literal : string)
| JString (s : string)
| JArray (items : list json)
| JObject (members : list (string * json)).
#[local] Set Elimination Schemes.

(** A [schema] or [example] entry of a hydrated body: the column as
    stored, or the document parsed from it. *)
Inductive document :=
| Stored (column : option string)
| Parsed (value : json).

Record RequestBodyDict := {
  rb_id : Z;
  rb_endpoint_id : Z;
  rb_schema : document;
  rb_example : document
}.

Record ResponseBodyDict := {
  resp_id : Z;
  resp_endpoint_id : Z;
  resp_status_code : option string;
  resp_description : option string;
  resp_schema : document;
  resp_example : document
}.

(** What [get_endpoint_details] returns: the empty dictionary, or the
    endpoint row with its [parameters], [request_body] (a key that is
    absent without a request-body row) and [response_bodies]. *)
Inductive EndpointDict :=
| EmptyDict
| EndpointDetails (endpoint : Endpoint) (parameters_ : list Parameter_)
    (request_body : option RequestBodyDict)
    (response_bodies_ : list ResponseBodyDict).

Section Hydration.

(** [json.loads]; [None] stands for [json.JSONDecodeError].  Another
    exception of [json.loads] (RecursionError, a plain ValueError) is not
    caught by the hydration; [loads_outcome] and [documents_load] below
    say when there is none. *)
Variable json_loads : string -> option json.

(** [if d.get(key): try: d[key] = json.loads(d[key]) except
    json.JSONDecodeError: pass] *)
Definition load_document (column : option string) : document :=
  match column with
  | Some text =>
      if Py.is_empty text then Stored column
      else match json_loads text with
           | Some value => Parsed value
           | None => Stored column
           end
  | None => Stored column
  end.

Definition request_body_dict (row : RequestBody) : RequestBodyDict :=
  {| rb_id := request_body_id row;
     rb_endpoint_id := request_body_endpoint_id row;
     rb_schema := load_document (request_body_schema row);
     rb_example := load_document (request_body_example row) |}.

Definition response_body_dict (row : ResponseBody) : ResponseBodyDict :=
  {| resp_id := response_body_id row;
     resp_endpoint_id := response_body_endpoint_id row;
     resp_status_code := response_body_status_code row;
     resp_description := response_body_description row;
     resp_schema := load_document (response_body_schema row);
     resp_example := load_document (response_body_example row) |}.

Definition get_endpoint_details (self : APIDatabase) (endpoint_id : Z)
  : EndpointDict :=
  let result := List.filter (fun e => endpoint_id_ e =? endpoint_id) (endpoints self) in
  match fst (Sql.fetchone result) with
  | None => EmptyDict
  | Some endpoint_row =>
      let params_result :=
        List.filter (fun p => parameter_endpoint_id p =? endpoint_id)
          (parameters self) in
      let request_result :=
        List.filter (fun b => request_body_endpoint_id b =? endpoint_id)
          (request_bodies self) in
      let request_body_row := fst (Sql.fetchone request_result) in
      let responses_result :=
        List.filter (fun b => response_body_endpoint_id b =? endpoint_id)
          (response_bodies self) in
      EndpointDetails endpoint_row
        (fst (Sql.fetchall params_result))
        (request_body_dict <$> request_body_row)
        (response_body_dict <$> fst (Sql.fetchall responses_result))
  end.

(** ** The resolver: [find_endpoint_by_path_method] *)

(** [SELECT id FROM endpoints WHERE path ilike :path AND method = :method].
    The bound strings are taken to have no NUL character, which the
    driver rejects with [ValueError] before the statement runs. *)
Definition exact_match_statement (self : APIDatabase) (path method : string)
  : result (Sql.cursor Endpoint) :=
  pattern ← Sql.ilike_pattern path;
  Ok (List.filter
        (fun e => Sql.imatches pattern (Some (endpoint_path e))
                  && String.eqb (endpoint_method e) method)
        (endpoints self)).

(** [SELECT id, path FROM endpoints WHERE method = :method] *)
Definition same_method_statement (self : APIDatabase) (method : string)
  : Sql.cursor Endpoint :=
  List.filter (fun e => String.eqb (endpoint_method e) method) (endpoints self).

Definition find_endpoint_by_path_method (self : APIDatabase) (path method : string)
  : result (option EndpointDict) * APIDatabase :=
  let normalized_path := _normalize_path path in
  match exact_match_statement self normalized_path (Py.lower method) with
  | Raise e =>
      (except_SQLAlchemyError "Database error finding endpoint" (Raise e), self)
  | Ok result =>
      let '(endpoint_row, result) := Sql.fetchone result in
      match endpoint_row with
      | Some row => (Ok (Some (get_endpoint_details self (endpoint_id_ row))), self)
      | None =>
          let '(parameterized_path, self) :=
            _convert_to_parameterized_path self normalized_path in
          let generic_pattern := _convert_to_generic_pattern parameterized_path in
          let '(found, result) :=
            if negb (String.eqb generic_pattern parameterized_path) then
              let result := same_method_statement self (Py.lower method) in
              let '(rows, result) := Sql.fetchall result in
              (List.find
                 (fun row =>
                    String.eqb (_convert_to_generic_pattern (endpoint_path row))
                      generic_pattern)
                 rows,
               result)
            else (None, result) in
          match found with
          | Some row => (Ok (Some (get_endpoint_details self (endpoint_id_ row))), self)
          | None =>
              let '(endpoint_row, _) := Sql.fetchone result in
              match endpoint_row with
              | Some row =>
                  (Ok (Some (get_endpoint_details self (endpoint_id_ row))), self)
              | None => (Ok None, self)
              end
          end
      end
  end.

End Hydration.

(** ** The tiered search *)

Definition has_fulltext_search (self : APIDatabase) : bool :=
  let column_exists := search_vector_column self in
  if negb column_exists then false
  else
    let total := length (endpoints self) in
    let with_vector :=
      length (List.filter (fun e => bool_decide (is_Some (endpoint_search_vector e)))
                (endpoints self)) in
    ((0 <? total) && (0 <? with_vector))%nat.

(** A ranked statement with its [LIMIT]. *)
Definition ranked_statement_rows (self : APIDatabase) (statement : ranked_statement)
    (query : string) (limit_val : Z) : result (list Endpoint) :=
  rows ← ranked_rows self statement query;
  Sql.limit limit_val rows.

(** [try: ...; if results: return results / except Exception: pass]:
    the rows to return, or nothing when the statement failed or selected
    no row. *)
Definition results_or_pass (attempt : result (list Endpoint)) : option (list Endpoint) :=
  match attempt with
  | Ok (row :: rows) => Some (row :: rows)
  | Ok [] => None
  | Raise _ => None
  end.

(** The four columns a substring pattern is tried on. *)
Definition any_column_ilike (pattern : list Sql.like_tok) (e : Endpoint) : bool :=
  Sql.imatches pattern (Some (endpoint_path e))
  || Sql.imatches pattern (endpoint_description e)
  || Sql.imatches pattern (endpoint_tags e)
  || Sql.imatches pattern (endpoint_summary e).

(** [ORDER BY category, path] *)
Definition category_path_leb (a b : Endpoint) : bool :=
  if Sql.text_eqb (endpoint_category a) (endpoint_category b)
  then String.leb (endpoint_path a) (endpoint_path b)
  else Sql.text_leb (endpoint_category a) (endpoint_category b).

Definition search_endpoints (self : APIDatabase) (query : string)
  : result (list Endpoint) :=
  let ranked :=
    if has_fulltext_search self
    then results_or_pass (ranked_statement_rows self WebsearchRank query 50)
    else None in
  match ranked with
  | Some results => Ok results
  | None =>
      except_SQLAlchemyError "Database error searching endpoints"
        (search_pattern ← Sql.ilike_pattern ("%" ++ query ++ "%");
         Ok (Sql.order_by category_path_leb
               (List.filter (any_column_ilike search_pattern) (endpoints self))))
  end.

Definition stopwords : list string :=
  ["the"; "a"; "an"; "and"; "or"; "but"; "in"; "on"; "at"; "to"; "for"; "with"; "by";
   "about"; "like"; "from"; "of"; "as"; "is"; "are"; "was"; "were"; "be"; "been"; "being";
   "have"; "has"; "had"; "do"; "does"; "did"; "will"; "would"; "should"; "could"; "can";
   "i"; "you"; "he"; "she"; "it"; "we"; "they"; "this"; "that"; "these"; "those";
   "get"; "find"; "show"; "list"; "give"; "me"; "all"; "some"; "any"; "how"; "what";
   "when"; "where"; "why"].

(** [[word for word in keywords if word not in stopwords and len(word) >= 3]] *)
Definition filter_keywords (keywords : list string) : list string :=
  List.filter
    (fun word => negb (existsb (String.eqb word) stopwords) && (3 <=? Py.len word))
    keywords.

(** The bound patterns [pattern_0], [pattern_1], ... *)
Fixpoint keyword_patterns (keywords : list string) : result (list (list Sql.like_tok)) :=
  match keywords with
  | [] => Ok []
  | keyword :: rest =>
      pattern ← Sql.ilike_pattern ("%" ++ keyword ++ "%");
      patterns ← keyword_patterns rest;
      Ok (pattern :: patterns)
  end.

(** The [CASE] of the keyword statement's [ORDER BY]. *)
Definition field_priority (first_pattern : list Sql.like_tok) (e : Endpoint) : Z :=
  if Sql.imatches first_pattern (endpoint_summary e) then 1
  else if Sql.imatches first_pattern (endpoint_description e) then 2
  else if Sql.imatches first_pattern (Some (endpoint_path e)) then 3
  else if Sql.imatches first_pattern (endpoint_tags e) then 4
  else 5.

(** The keyword statement: the [OR] of the four columns over every
    pattern, ordered by the priority of the first, with its [LIMIT]. *)
Definition keyword_statement (self : APIDatabase) (filtered_keywords : list string)
    (first_keyword : string) (limit_val : Z) : result (list Endpoint) :=
  search_params ← keyword_patterns filtered_keywords;
  first_pattern ← Sql.ilike_pattern ("%" ++ first_keyword ++ "%");
  Sql.limit limit_val
    (Sql.order_by (Sql.by_key_leb (field_priority first_pattern))
       (List.filter
          (fun e => existsb (fun pattern => any_column_ilike pattern e) search_params)
          (endpoints self))).

(** The part of [search_by_natural_language] after the ranked tiers. *)
Definition keyword_fallback (self : APIDatabase) (query_lower : string) (limit : Z)
  : result (list Endpoint) :=
  let keywords := Py.split_ws query_lower in
  let filtered_keywords := filter_keywords keywords in
  match filtered_keywords with
  | [] => Ok []
  | first_keyword :: _ =>
      except_SQLAlchemyError "Database error in natural language search"
        (keyword_statement self filtered_keywords first_keyword limit)
  end.

Definition search_by_natural_language (self : APIDatabase) (query : string) (limit : Z)
  : result (list Endpoint) :=
  let query_lower := Py.strip (Py.lower query) in
  if Py.is_empty query_lower then Ok []
  else
    let ranked :=
      if has_fulltext_search self then
        match results_or_pass
                (ranked_statement_rows self WebsearchRankCd query_lower limit) with
        | Some results => Some results
        | None =>
            results_or_pass (ranked_statement_rows self PlaintoRank query_lower limit)
        end
      else None in
    match ranked with
    | Some results => Ok results
    | None => keyword_fallback self query_lower limit
    end.

(** ** The saved-query store ([cached_queries_db.py]) *)

(** A row of [saved_queries]; its [id] is the key it is stored under. *)
Record SavedQuery := {
  query_description : string;
  query_path : string;
  query_method : string;
  query_params : option json;
  query_data : option json;
  query_timestamp : Z;
  query_usage_count : Z
}.

(** The table, keyed by primary key, and the sequence its [id]s are drawn
    from.  A statement that fails is rolled back; a value drawn from the
    sequence is not given back. *)
Record CachedQueriesDB := {
  saved_queries : gmap Z SavedQuery;
  saved_queries_id_seq : Z
}.

(** [usage_count] is an [Integer] column. *)
Definition integer_max : Z := 2147483647.

(** What a Python function hands back when its declared result is a
    [bool]: a boolean, or [None] when no [return] statement was reached. *)
Inductive py_bool :=
| PyNone
| PyBool (b : bool).

(** [if value:] *)
Definition truthy (value : py_bool) : bool :=
  match value with
  | PyNone => false
  | PyBool b => b
  end.

(** The dictionary the read operations build from a row. *)
Definition SavedQueryDict : Type := Z * SavedQuery.

(** [SavedQuery.path == path, SavedQuery.method == method] on one entry of
    the table. *)
Definition same_path_method (path method : string) (entry : Z * SavedQuery) : bool :=
  let '(_, q) := entry in
  String.eqb (query_path q) path && String.eqb (query_method q) method.

(** [session.query(SavedQuery).filter(SavedQuery.path == path,
    SavedQuery.method == method).first()] *)
Definition first_by_path_method (self : CachedQueriesDB) (path method : string)
  : option (Z * SavedQuery) :=
  List.find (same_path_method path method) (map_to_list (saved_queries self)).

Definition save_query (self : CachedQueriesDB) (current_timestamp : Z)
    (description path method : string) (params data : option json)
  : result Z * CachedQueriesDB :=
  match first_by_path_method self path method with
  | Some (query_id, existing_query) =>
      if query_usage_count existing_query + 1 <=? integer_max then
        (Ok query_id,
         {| saved_queries :=
              <[query_id :=
                  {| query_description := description;
                     query_path := query_path existing_query;
                     query_method := query_method existing_query;
                     query_params := params;
                     query_data := data;
                     query_timestamp := current_timestamp;
                     query_usage_count := query_usage_count existing_query + 1 |}]>
                (saved_queries self);
            saved_queries_id_seq := saved_queries_id_seq self |})
      else (Raise (DataError "integer out of range"), self)
  | None =>
      let query_id := saved_queries_id_seq self + 1 in
      match saved_queries self !! query_id with
      | Some _ =>
          (Raise (IntegrityError "duplicate key value violates unique constraint"),
           {| saved_queries := saved_queries self; saved_queries_id_seq := query_id |})
      | None =>
          (Ok query_id,
           {| saved_queries :=
                <[query_id :=
                    {| query_description := description;
                       query_path := path;
                       query_method := method;
                       query_params := params;
                       query_data := data;
                       query_timestamp := current_timestamp;
                       query_usage_count := 1 |}]>
                  (saved_queries self);
              saved_queries_id_seq := query_id |})
      end
  end.

Definition find_query (self : CachedQueriesDB) (path method : string)
  : result (option SavedQueryDict) * CachedQueriesDB :=
  (Ok (first_by_path_method self path method), self).

(** [ORDER BY usage_count DESC, timestamp DESC] *)
Definition usage_then_recency_leb (a b : SavedQueryDict) : bool :=
  if query_usage_count (snd a) =? query_usage_count (snd b)
  then query_timestamp (snd b) <=? query_timestamp (snd a)
  else query_usage_count (snd b) <=? query_usage_count (snd a).

Definition search_queries (self : CachedQueriesDB) (search_term : string)
  : result (list SavedQueryDict) * CachedQueriesDB :=
  (search_pattern ← Sql.ilike_pattern ("%" ++ search_term ++ "%");
   Ok (Sql.order_by usage_then_recency_leb
         (List.filter
            (fun '(_, q) =>
               Sql.imatches search_pattern (Some (query_description q))
               || Sql.imatches search_pattern (Some (query_path q)))
            (map_to_list (saved_queries self)))),
   self).

Definition get_all_queries (self : CachedQueriesDB)
  : result (list SavedQueryDict) * CachedQueriesDB :=
  (Ok (Sql.order_by usage_then_recency_leb (map_to_list (saved_queries self))), self).

Definition increment_usage (self : CachedQueriesDB) (current_timestamp : Z) (query_id : Z)
  : result unit * CachedQueriesDB :=
  match saved_queries self !! query_id with
  | Some q =>
      if query_usage_count q + 1 <=? integer_max then
        (Ok (),
         {| saved_queries :=
              <[query_id :=
                  {| query_description := query_description q;
                     query_path := query_path q;
                     query_method := query_method q;
                     query_params := query_params q;
                     query_data := query_data q;
                     query_timestamp := current_timestamp;
                     query_usage_count := query_usage_count q + 1 |}]>
                (saved_queries self);
            saved_queries_id_seq := saved_queries_id_seq self |})
      else (Raise (DataError "integer out of range"), self)
  | None => (Ok (), self)
  end.

(** The body logs whether a row was deleted and ends without a [return]
    statement. *)
Definition delete_query (self : CachedQueriesDB) (query_id : Z)
  : result py_bool * CachedQueriesDB :=
  (Ok PyNone,
   {| saved_queries := delete query_id (saved_queries self);
      saved_queries_id_seq := saved_queries_id_seq self |}).

Definition clear_all (self : CachedQueriesDB) : result Z * CachedQueriesDB :=
  let count := Z.of_nat (size (saved_queries self)) in
  (Ok count, {| saved_queries := ∅; saved_queries_id_seq := saved_queries_id_seq self |}).

(** One call on the store, and the store it leaves. *)
Inductive store_call :=
| SaveQuery (current_timestamp : Z) (description path method : string)
    (params data : option json)
| FindQuery (path method : string)
| SearchQueries (search_term : string)
| GetAllQueries
| IncrementUsage (current_timestamp : Z) (query_id : Z)
| DeleteQuery (query_id : Z)
| ClearAll.

Definition store_after (self : CachedQueriesDB) (call : store_call) : CachedQueriesDB :=
  match call with
  | SaveQuery now description path method params data =>
      snd (save_query self now description path method params data)
  | FindQuery path method => snd (find_query self path method)
  | SearchQueries search_term => snd (search_queries self search_term)
  | GetAllQueries => snd (get_all_queries self)
  | IncrementUsage now query_id => snd (increment_usage self now query_id)
  | DeleteQuery query_id => snd (delete_query self query_id)
  | ClearAll => snd (clear_all self)
  end.

(** The sequence is ahead of every key in the table: what the database
    keeps when keys are only ever drawn from the sequence. *)
Definition sequence_ahead (self : CachedQueriesDB) : Prop :=
  forall i q, saved_queries self !! i = Some q -> i <= saved_queries_id_seq self.

Definition empty_store : CachedQueriesDB :=
  {| saved_queries := ∅; saved_queries_id_seq := 0 |}.

(** ** The specification's wording, for comparison with the code *)

Module Spec.

Definition chars (s : string) : list ascii := list_ascii_of_string s.

Definition all_in (class : ascii -> bool) (l : list ascii) : Prop :=
  Forall (fun c => class c = true) l.




(** "pure digits" *)
Definition pure_digits (s : string) : Prop :=
  chars s <> [] /\ all_in Py.is_digit (chars s).








(** [t] occurs in [s] *)
Definition substring (t s : string) : Prop :=
  exists pre post, s = pre ++ t ++ post.

(** [t] occurs in a nullable column, letter case aside *)
Definition contains (column : option string) (t : string) : Prop :=
  exists s, column = Some s /\ substring (Py.lower t) (Py.lower s).

(** "some surviving token is a substring of path, description, tags, or
    summary" *)
Definition token_in_columns (e : Endpoint) (token : string) : Prop :=
  contains (Some (endpoint_path e)) token
  \/ contains (endpoint_description e) token
  \/ contains (endpoint_tags e) token
  \/ contains (endpoint_summary e) token.

(** No character of the string has a meaning in a [LIKE] pattern. *)
Definition plain_char (c : ascii) : bool :=
  negb (Py.char_is "%" c || Py.char_is "_" c || Py.char_is "\" c).

Definition wildcard_free (s : string) : Prop := all_in plain_char (chars s).

Definition no_backslash (s : string) : Prop :=
  Forall (fun c => c <> "\"%char) (chars s).

(** Text on which the model is exact: ASCII characters other than NUL. *)
Definition ascii_text (s : string) : Prop :=
  Forall (fun c => (0 < Py.code c < 128)%N) (chars s).

(** The segment agrees with a text: character for character, an
    underscore of the segment standing for any character. *)
Definition agrees (segment text : string) : Prop :=
  Forall2 (fun p c => p = "_"%char \/ p = c) (chars segment) (chars text).

(** A "known" segment: some catalog path has a slash followed by a text
    that the segment agrees with.  The text need not be a whole
    component of the path. *)
Definition known_segment (rows : list Endpoint) (segment : string) : Prop :=
  exists e pre text post,
    In e rows /\ endpoint_path e = pre ++ "/" ++ text ++ post /\ agrees segment text.

(** "drops stopwords and tokens shorter than 3 characters" *)
Definition survives (token : string) : Prop :=
  ~ In token stopwords /\ 3 <= Py.len token.

(** The tokens that survive, in the order of the query. *)
Inductive surviving : list string -> list string -> Prop :=
| surviving_nil : surviving [] []
| surviving_keep token tokens kept :
    survives token -> surviving tokens kept ->
    surviving (token :: tokens) (token :: kept)
| surviving_drop token tokens kept :
    ~ survives token -> surviving tokens kept ->
    surviving (token :: tokens) kept.

(** "some surviving token [selects] path, description, tags, or summary" *)
Definition selected_by (selects : option string -> Prop) (e : Endpoint) : Prop :=
  selects (Some (endpoint_path e))
  \/ selects (endpoint_description e)
  \/ selects (endpoint_tags e)
  \/ selects (endpoint_summary e).

(** "summary match before description match before path match before
    tag match before none": the rank of a row, 1 to 5. *)
Definition field_rank (selects : option string -> Prop) (e : Endpoint) (rank : Z)
  : Prop :=
  (selects (endpoint_summary e) /\ rank = 1)
  \/ (~ selects (endpoint_summary e)
      /\ selects (endpoint_description e) /\ rank = 2)
  \/ (~ selects (endpoint_summary e) /\ ~ selects (endpoint_description e)
      /\ selects (Some (endpoint_path e)) /\ rank = 3)
  \/ (~ selects (endpoint_summary e) /\ ~ selects (endpoint_description e)
      /\ ~ selects (Some (endpoint_path e))
      /\ selects (endpoint_tags e) /\ rank = 4)
  \/ (~ selects (endpoint_summary e) /\ ~ selects (endpoint_description e)
      /\ ~ selects (Some (endpoint_path e))
      /\ ~ selects (endpoint_tags e) /\ rank = 5).

(** A row that may stand before another: its rank is not the greater. *)
Definition ranked_before (selects : option string -> Prop) (a b : Endpoint) : Prop :=
  exists rank_a rank_b,
    field_rank selects a rank_a /\ field_rank selects b rank_b /\ rank_a <= rank_b.

End Spec.

(** ** Notions the statements use *)

Definition nonempty_piece (seg : string) : bool := negb (Py.is_empty seg).

(** The literal tokens of a text. *)
Definition literals (t : string) : list Sql.like_tok :=
  List.map Sql.Lit (Spec.chars t).

(** A decision procedure for [Spec.substring]. *)
Fixpoint starts_with (t s : string) : bool :=
  match t, s with
  | "", _ => true
  | String a t', String b s' => Ascii.eqb a b && starts_with t' s'
  | String _ _, "" => false
  end.

Fixpoint occurs (t s : string) : bool :=
  starts_with t s
  || match s with
     | "" => false
     | String _ s' => occurs t s'
     end.

(** Two states of the database object on which the known-segment check
    gives the same answers: the conversions depend on nothing else. *)
Definition same_answers (self self' : APIDatabase) : Prop :=
  forall segment,
    fst (_is_known_path_segment self' segment) = fst (_is_known_path_segment self segment).

(** The same database with every failing ranked statement replaced by
    one that selects no row. *)
Definition failures_as_no_rows (self : APIDatabase) : APIDatabase :=
  {| endpoints := endpoints self;
     parameters := parameters self;
     request_bodies := request_bodies self;
     response_bodies := response_bodies self;
     search_vector_column := search_vector_column self;
     ranked_rows :=
       fun statement query =>
         match ranked_rows self statement query with
         | Ok rows => Ok rows
         | Raise _ => Ok []
         end;
     _known_segments_cache := _known_segments_cache self |}.

(** ** Example data *)

(** A catalog row with only the columns the importer always fills. *)
Definition endpoint (id : Z) (path method : string) (summary : option string)
  : Endpoint :=
  {| endpoint_id_ := id;
     endpoint_path := path;
     endpoint_method := method;
     endpoint_description := None;
     endpoint_category := Some "service";
     endpoint_summary := summary;
     endpoint_tags := None;
     endpoint_keywords := None;
     endpoint_search_vector := None |}.

(** A database holding a catalog and nothing else: no search vectors, no
    parameters or bodies, an empty segment cache. *)
Definition catalog_only (rows : list Endpoint) : APIDatabase :=
  {| endpoints := rows;
     parameters := [];
     request_bodies := [];
     response_bodies := [];
     search_vector_column := false;
     ranked_rows := fun _ _ => Raise (OperationalError "column search_vector does not exist");
     _known_segments_cache := ∅ |}.

(** A service catalog: the ticket list, the company contacts, the
    callbacks. *)
Definition service_catalog : APIDatabase :=
  catalog_only [endpoint 1 "/service/tickets" "get" None;
                endpoint 2 "/company/companies/{id}/contacts/{contactId}" "get" None;
                endpoint 3 "/system/callbacks/{id}" "get" None].

(** A finance catalog: the invoice list and the invoice by id. *)
Definition finance_catalog : APIDatabase :=
  catalog_only [endpoint 1 "/finance/invoices" "get" None;
                endpoint 2 "/finance/invoices/{id}" "get" None].

(** A catalog whose one path was imported with a trailing slash. *)
Definition trailing_slash_catalog : APIDatabase :=
  catalog_only [endpoint 1 "/service/tickets/" "get" None].

(** A catalog with the time-entries endpoint only. *)
Definition time_entries_catalog : APIDatabase :=
  catalog_only [endpoint 1 "/time/entries" "get" None].

(** Fifty-one report endpoints, [/service/report1] to [/service/report51]. *)
Definition report_endpoint (n : nat) : Endpoint :=
  endpoint (Z.of_nat n)
    ("/service/report" ++ NilEmpty.string_of_uint (Nat.to_uint n)) "get" None.

Definition report_catalog : APIDatabase :=
  catalog_only (List.map report_endpoint (seq 1 51)).

(** Two ticket endpoints with search vectors, in a database whose ranked
    statements all fail. *)
Definition ticket_endpoint (id : Z) (path summary vector : string) : Endpoint :=
  {| endpoint_id_ := id;
     endpoint_path := path;
     endpoint_method := "get";
     endpoint_description := None;
     endpoint_category := Some "Tickets";
     endpoint_summary := Some summary;
     endpoint_tags := Some "Tickets";
     endpoint_keywords := None;
     endpoint_search_vector := Some vector |}.

Definition failing_ranked_db : APIDatabase :=
  {| endpoints :=
       [ticket_endpoint 1 "/service/tickets" "Get List of Ticket" "'get':1 'ticket':4";
        ticket_endpoint 2 "/service/tickets/{id}" "Get Ticket" "'get':1 'ticket':2"];
     parameters := [];
     request_bodies := [];
     response_bodies := [];
     search_vector_column := true;
     ranked_rows := fun _ _ => Raise (OperationalError "server closed the connection");
     _known_segments_cache := ∅ |}.

(** The same catalog when the ranked statements run and select nothing. *)
Definition silent_ranked_db : APIDatabase :=
  failures_as_no_rows failing_ranked_db.

(** A [json.loads] that rejects every text. *)
Definition no_json : string -> option json := fun _ => None.

(** A store with one saved query, under id 1. *)
Definition tickets_query : SavedQuery :=
  {| query_description := "Get all open tickets";
     query_path := "/service/tickets";
     query_method := "GET";
     query_params := None;
     query_data := None;
     query_timestamp := 1700000000;
     query_usage_count := 1 |}.

Definition one_query_store : CachedQueriesDB :=
  {| saved_queries := {[ 1 := tickets_query ]}; saved_queries_id_seq := 1 |}.

(** ** Invariants of the saved-query table *)

(** No two rows for one pair (path, method): the unique index
    [idx_saved_queries_path_method]. *)
Definition unique_pairs (self : CachedQueriesDB) : Prop :=
  forall i j q q',
    saved_queries self !! i = Some q -> saved_queries self !! j = Some q' ->
    query_path q = query_path q' -> query_method q = query_method q' -> i = j.

(** Every row has been used at least once and its counter fits the
    [Integer] column. *)
Definition usage_in_range (self : CachedQueriesDB) : Prop :=
  forall i q, saved_queries self !! i = Some q ->
              1 <= query_usage_count q <= integer_max.

Definition store_ok (self : CachedQueriesDB) : Prop :=
  sequence_ahead self /\ unique_pairs self /\ usage_in_range self.

(** [ORDER BY usage_count DESC, timestamp DESC] as a relation: [a] may
    stand before [b]. *)
Definition usage_then_recency_le (a b : SavedQueryDict) : Prop :=
  query_usage_count (snd b) < query_usage_count (snd a)
  \/ (query_usage_count (snd b) = query_usage_count (snd a)
      /\ query_timestamp (snd b) <= query_timestamp (snd a)).

(** The entries of the table: what a statement without [WHERE] reads. *)
Definition table_entries (self : CachedQueriesDB) : list SavedQueryDict :=
  map_to_list (saved_queries self).

(** ** Notions for the further properties of the path functions *)

(** The character [d] does not occur in [s]. *)
Definition lacks (d : ascii) (s : string) : Prop :=
  Forall (fun c => c <> d) (Spec.chars s).

(** No white space in [s]. *)
Definition no_space (s : string) : Prop :=
  Forall (fun c => Py.is_space c = false) (Spec.chars s).

(** A path template cut into literal text and placeholders. *)
Inductive piece :=
| Literal (text : string)
| Placeholder (name : string).

Definition render_piece (p : piece) : string :=
  match p with
  | Literal text => text
  | Placeholder name => "{" ++ name ++ "}"
  end.

Fixpoint render (pieces : list piece) : string :=
  match pieces with
  | [] => ""
  | p :: rest => render_piece p ++ render rest
  end.

(** Literal text has no opening brace; a placeholder has a name, without
    closing brace. *)
Definition well_formed_piece (p : piece) : Prop :=
  match p with
  | Literal text => lacks "{" text
  | Placeholder name => name <> "" /\ lacks "}" name
  end.

Definition generic_piece (p : piece) : piece :=
  match p with
  | Literal text => Literal text
  | Placeholder _ => Placeholder "param"
  end.

(** The path [_convert_to_parameterized_path] splits: trailing slashes
    removed, a leading slash added when there is none. *)
Definition split_form (path : string) : string :=
  let stripped := Py.rstrip (Py.char_is "/") path in
  if negb (Py.startswith "/" stripped) then String "/" stripped else stripped.

(** What the catalog answers to the statement of
    [_is_known_path_segment]. *)
Definition catalog_has_segment (rows : list Endpoint) (segment : string) : bool :=
  match Sql.like_pattern ("%/" ++ segment ++ "%") with
  | Ok segment_pattern =>
      (0 <? length (List.filter
                      (fun e => Sql.matches segment_pattern (Some (endpoint_path e)))
                      rows))%nat
  | Raise _ => false
  end.

(** Every answer in the cache is the catalog's. *)
Definition cache_consistent (self : APIDatabase) : Prop :=
  forall segment known,
    _known_segments_cache self !! segment = Some known ->
    known = catalog_has_segment (endpoints self) segment.

(** The tables and the ranked statements of two states of the object are
    the same: they differ in the segment cache at most. *)
Definition same_tables (self self' : APIDatabase) : Prop :=
  endpoints self' = endpoints self
  /\ parameters self' = parameters self
  /\ request_bodies self' = request_bodies self
  /\ response_bodies self' = response_bodies self
  /\ search_vector_column self' = search_vector_column self
  /\ ranked_rows self' = ranked_rows self.

(** ** The catalog listings of [api_db_utils.py] *)

(** [SELECT DISTINCT category]: every value once, [NULL] among them. *)
Fixpoint distinct (values : list (option string)) : list (option string) :=
  match values with
  | [] => []
  | v :: rest =>
      if existsb (Sql.text_eqb v) rest then distinct rest else v :: distinct rest
  end.

(** [SELECT DISTINCT category FROM endpoints ORDER BY category]; a
    [NULL] category comes back as [None]. *)
Definition get_categories (self : APIDatabase) : list (option string) :=
  let result :=
    Sql.order_by Sql.text_leb
      (distinct (List.map endpoint_category (endpoints self))) in
  fst (Sql.fetchall result).

(** [SELECT * FROM endpoints WHERE category = :category ORDER BY path] *)
Definition get_endpoints_by_category (self : APIDatabase) (category : string)
  : list Endpoint :=
  let result :=
    Sql.order_by (fun a b => String.leb (endpoint_path a) (endpoint_path b))
      (List.filter (fun e => Sql.text_eqb (endpoint_category e) (Some category))
         (endpoints self)) in
  fst (Sql.fetchall result).

(** [SELECT * FROM parameters WHERE endpoint_id = :endpoint_id AND name =
    :param_name], first row. *)
Definition get_parameter_details (self : APIDatabase) (endpoint_id : Z)
    (param_name : string) : option Parameter_ :=
  let result :=
    List.filter
      (fun p => (parameter_endpoint_id p =? endpoint_id)
                && String.eqb (parameter_name p) param_name)
      (parameters self) in
  fst (Sql.fetchone result).

(** ** The tools of [server.py] over the two databases

    The tools are modelled with their database initialised. *)

(** [str(n)] for an integer, [str(e)] for an exception, and the text an
    f-string gives a nullable column. *)
Definition str_int (n : Z) : string := NilZero.string_of_int (Z.to_int n).

Definition str_exn (e : exn) : string :=
  match e with
  | DataError what | IntegrityError what | OperationalError what
  | RuntimeError what | Exception what => what
  end.

Definition str_column (column : option string) : string :=
  match column with
  | Some s => s
  | None => "None"
  end.

Definition upper_char (c : ascii) : ascii :=
  if Py.is_lower c then ascii_of_N (Py.code c - 32) else c.

Fixpoint upper (s : string) : string :=
  match s with
  | "" => ""
  | String c rest => String (upper_char c) (upper rest)
  end.

Definition newline : string := String (ascii_of_nat 10) "".

(** [check_cached_queries]: the answer, the flag
    [current_query_from_cached_queries] and the store after the call.
    An exception leaves the flag as the function had set it. *)
Definition check_cached_queries (cached_queries_db : CachedQueriesDB)
    (current_timestamp : Z) (current_query_from_cached_queries : bool)
    (path method : string)
  : result (option SavedQueryDict) * bool * CachedQueriesDB :=
  match find_query cached_queries_db path method with
  | (Raise e, cached_queries_db) =>
      (Raise e, current_query_from_cached_queries, cached_queries_db)
  | (Ok (Some query), cached_queries_db) =>
      let current_query_from_cached_queries := true in
      match increment_usage cached_queries_db current_timestamp (fst query) with
      | (Raise e, cached_queries_db) =>
          (Raise e, current_query_from_cached_queries, cached_queries_db)
      | (Ok _, cached_queries_db) =>
          (Ok (Some query), current_query_from_cached_queries, cached_queries_db)
      end
  | (Ok None, cached_queries_db) => (Ok None, false, cached_queries_db)
  end.

Definition delete_from_cached_queries (cached_queries_db : CachedQueriesDB)
    (query_id : Z) : string * CachedQueriesDB :=
  match delete_query cached_queries_db query_id with
  | (Ok success, cached_queries_db) =>
      (if truthy success
       then "Successfully deleted query with ID " ++ str_int query_id
            ++ " from cached queries."
       else "No query found with ID " ++ str_int query_id ++ ".",
       cached_queries_db)
  | (Raise e, cached_queries_db) =>
      ("Error deleting query from cached queries: " ++ str_exn e, cached_queries_db)
  end.

(** The loop of [natural_language_api_search] over the rows found, from
    index [i] on. *)
Fixpoint formatted_results (i : Z) (results : list Endpoint) : list string :=
  match results with
  | [] => []
  | endpoint :: rest =>
      let method := upper (endpoint_method endpoint) in
      let path := endpoint_path endpoint in
      let description := str_column (endpoint_description endpoint) in
      let category := str_column (endpoint_category endpoint) in
      (str_int i ++ ". " ++ method ++ " " ++ path ++ newline
       ++ "   Category: " ++ category ++ newline
       ++ "   Description: " ++ description)
      :: formatted_results (i + 1) rest
  end.

(** The limit [natural_language_api_search] passes on. *)
Definition checked_max_results (max_results : Z) : Z :=
  if (max_results <? 1) || (20 <? max_results)
  then Z.min (Z.max 1 max_results) 50
  else max_results.

Definition natural_language_api_search (api_db : APIDatabase) (query : string)
    (max_results : Z) : string :=
  if Py.is_empty query then "Error: Please provide a valid search query."
  else
    let query := Py.strip query in
    if Py.is_empty query then "Error: Search query cannot be empty."
    else if 500 <? Py.len query then
      "Error: Search query too long. Please keep it under 500 characters."
    else
      let max_results := checked_max_results max_results in
      match search_by_natural_language api_db query max_results with
      | Ok [] => "No API endpoints found matching your query."
      | Ok results =>
          "Based on your query, here are the most relevant API endpoints:"
          ++ newline ++ newline
          ++ Py.join (newline ++ newline) (formatted_results 1 results)
          ++ newline ++ newline
          ++ "To get more details about a specific endpoint, use get_api_endpoint_details with the path and method."
      | Raise e => "Error searching API endpoints: " ++ str_exn e
      end.



(** What [json.loads] does with a text: it returns a document, raises
    [json.JSONDecodeError], or raises something else ([RecursionError],
    a plain [ValueError]), which [get_endpoint_details] does not catch. *)
Inductive loads_outcome :=
| Loaded (value : json)
| DecodeError
| OtherError.

(** [json.loads] as the hydration sees it, for the texts on which it
    raises nothing but [JSONDecodeError]. *)
Definition decoded (loads : string -> loads_outcome) (text : string) : option json :=
  match loads text with
  | Loaded value => Some value
  | DecodeError | OtherError => None
  end.

(** The column is not loaded, or [json.loads] raises nothing but
    [JSONDecodeError] on it. *)
Definition loads_safely (loads : string -> loads_outcome) (column : option string)
  : Prop :=
  match column with
  | Some text => text = "" \/ loads text <> OtherError
  | None => True
  end.

(** The same of every stored document of the endpoint. *)
Definition documents_load (loads : string -> loads_outcome) (self : APIDatabase)
    (endpoint_id : Z) : Prop :=
  (forall row, In row (request_bodies self) ->
     request_body_endpoint_id row = endpoint_id ->
     loads_safely loads (request_body_schema row)
     /\ loads_safely loads (request_body_example row))
  /\ (forall row, In row (response_bodies self) ->
        response_body_endpoint_id row = endpoint_id ->
        loads_safely loads (response_body_schema row)
        /\ loads_safely loads (response_body_example row)).

(** A [json.loads] that knows the empty object only. *)
Definition loads_empty_object (text : string) : loads_outcome :=
  if String.eqb text "{}" then Loaded (JObject []) else DecodeError.

(** The finance catalog with the documents of the invoice by id: two
    request bodies (the second is never read) and a response. *)
Definition documented_catalog : APIDatabase :=
  {| endpoints := endpoints finance_catalog;
     parameters :=
       [{| parameter_id := 1; parameter_endpoint_id := 2; parameter_name := "id";
           parameter_location := "path"; parameter_required := Some true;
           parameter_type := Some "integer"; parameter_description := None |}];
     request_bodies :=
       [{| request_body_id := 1; request_body_endpoint_id := 1;
           request_body_schema := None; request_body_example := None |};
        {| request_body_id := 2; request_body_endpoint_id := 2;
           request_body_schema := Some "{}"; request_body_example := Some "" |};
        {| request_body_id := 3; request_body_endpoint_id := 2;
           request_body_schema := Some "not json"; request_body_example := None |}];
     response_bodies :=
       [{| response_body_id := 1; response_body_endpoint_id := 2;
           response_body_status_code := Some "200";
           response_body_description := None;
           response_body_schema := Some "{}"; response_body_example := None |}];
     search_vector_column := false;
     ranked_rows := ranked_rows finance_catalog;
     _known_segments_cache := ∅ |}.

(** A catalog with a report whose name starts with a year. *)
Definition yearly_report_catalog : APIDatabase :=
  catalog_only [endpoint 1 "/reports/2024summary" "get" None].

(** ** Notions for the further properties of the searches *)

(** No search vector to rank by: the column is missing, or it is [NULL]
    in every row. *)
Definition no_search_vectors (self : APIDatabase) : Prop :=
  search_vector_column self = false
  \/ forall e, In e (endpoints self) -> endpoint_search_vector e = None.

(** * Properties *)

(** Proves [Spec.ascii_text] of a string literal. *)
Ltac ascii_text_literal :=
  unfold Spec.ascii_text; simpl;
  repeat (constructor; [split; reflexivity|]); constructor.

(** ** The functions on the examples of their docstrings *)

Example normalize_inner_blank : _normalize_path "  /a b//c/// " = "/a b/c".
Proof. reflexivity. Qed.

Example split_words : Py.split_ws "  get  the tickets " = ["get"; "the"; "tickets"].
Proof. reflexivity. Qed.

Example keywords_kept :
  filter_keywords (Py.split_ws "show me all open service tickets by id")
  = ["open"; "service"; "tickets"].
Proof. reflexivity. Qed.

Example parameterize_ticket :
  fst (_convert_to_parameterized_path service_catalog "/service/tickets/123")
  = "/service/tickets/{id}".
Proof. reflexivity. Qed.

Example parameterize_contacts :
  fst (_convert_to_parameterized_path service_catalog "/company/companies/456/contacts/789")
  = "/company/companies/{id}/contacts/{id}".
Proof. reflexivity. Qed.

Example parameterize_uuid :
  fst (_convert_to_parameterized_path service_catalog
         "/system/callbacks/12345678-1234-1234-1234-123456789012")
  = "/system/callbacks/{id}".
Proof. reflexivity. Qed.

Example known_segments_are_cached :
  _known_segments_cache
    (snd (_convert_to_parameterized_path service_catalog "/service/tickets/123"))
  = {[ "service" := true; "tickets" := true; "123" := false ]}.
Proof. vm_compute. reflexivity. Qed.

Example genericize_contacts :
  _convert_to_generic_pattern "/company/companies/{companyId}/contacts/{id}"
  = "/company/companies/{param}/contacts/{param}".
Proof. reflexivity. Qed.

Example genericize_leaves_empty_braces :
  _convert_to_generic_pattern "/a/{}/{b" = "/a/{}/{b".
Proof. reflexivity. Qed.

Example genericize_adjacent_and_nested :
  _convert_to_generic_pattern "/a/{x}{y}/{{z}}" = "/a/{param}{param}/{param}}".
Proof. reflexivity. Qed.

Example numeric_id_before_final_line_feed :
  Re.numeric_id (String "7" (String Re.LF "")) = true
  /\ Re.numeric_id (String "7" (String Re.LF (String Re.LF ""))) = false.
Proof. split; reflexivity. Qed.

Example resolve_by_structure :
  fst (find_endpoint_by_path_method no_json service_catalog
         "/company/companies/456/contacts/789" "GET")
  = Ok (Some (EndpointDetails
                (endpoint 2 "/company/companies/{id}/contacts/{contactId}" "get" None)
                [] None [])).
Proof. reflexivity. Qed.

Example like_underscore_is_any_character :
  Sql.like_pattern "%time_entries%"
  = Ok (Sql.AnySeq :: (literals "time" ++ Sql.AnyOne :: literals "entries")
          ++ [Sql.AnySeq])%list
  /\ (pattern ← Sql.like_pattern "%time_entries%";
      Ok (Sql.matches pattern (Some "/time/entries"))) = Ok true.
Proof. split; reflexivity. Qed.

Example increment_absent_is_noop :
  increment_usage one_query_store 1700000060 7 = (Ok (), one_query_store).
Proof. reflexivity. Qed.

Example clear_all_counts :
  clear_all one_query_store
  = (Ok 1, {| saved_queries := ∅; saved_queries_id_seq := 1 |}).
Proof. reflexivity. Qed.

(** ** Strings *)

Lemma char_is_true d c : Py.char_is d c = true <-> c = d.
Proof. unfold Py.char_is. apply Ascii.eqb_eq. Qed.

Lemma char_is_false d c : Py.char_is d c = false <-> c <> d.
Proof. unfold Py.char_is. apply Ascii.eqb_neq. Qed.

Lemma is_empty_true s : Py.is_empty s = true <-> s = "".
Proof. destruct s; simpl; split; congruence. Qed.

Lemma is_empty_false s : Py.is_empty s = false <-> s <> "".
Proof. destruct s; simpl; split; congruence. Qed.

Lemma split_on_nonempty sep s : exists seg segs, Py.split_on sep s = seg :: segs.
Proof.
  induction s as [|c rest IH]; simpl.
  - eauto.
  - destruct (Py.char_is sep c); [eauto|].
    destruct IH as (seg & segs & ->). eauto.
Qed.

(** ** The path normalizer *)

Lemma collapse_startswith s :
  Py.startswith "/" (collapse_slashes s) = Py.startswith "/" s.
Proof.
  induction s as [|c rest IH]; simpl; [reflexivity|].
  destruct (Py.char_is "/" c) eqn:Hc; simpl; [|exact Hc].
  destruct (Py.startswith "/" rest) eqn:Hr; simpl; [|exact Hc].
  now rewrite IH.
Qed.

Lemma collapse_no_double_slash s : has_double_slash (collapse_slashes s) = false.
Proof.
  induction s as [|c rest IH]; simpl; [reflexivity|].
  destruct (Py.char_is "/" c) eqn:Hc.
  - destruct (Py.startswith "/" rest) eqn:Hr; [exact IH|].
    simpl. now rewrite Hc, collapse_startswith, Hr, IH.
  - simpl. now rewrite Hc, IH.
Qed.


Lemma segments_slash s : segments (String "/" s) = segments s.
Proof. reflexivity. Qed.

(** [collapse_slashes] keeps the first piece and the non-empty pieces
    after it. *)
Lemma split_collapse s :
  exists seg segs segs',
    Py.split_on "/" s = seg :: segs
    /\ Py.split_on "/" (collapse_slashes s) = seg :: segs'
    /\ List.filter nonempty_piece segs' = List.filter nonempty_piece segs.
Proof.
  induction s as [|c rest (seg & segs & segs' & Hs & Hc & Hf)]; simpl.
  - exists "", [], []. auto.
  - destruct (Py.char_is "/" c) eqn:Hch.
    + destruct (Py.startswith "/" rest) eqn:Hr.
      * destruct rest as [|d rest']; [discriminate|]. simpl in Hr, Hs.
        rewrite Hr in Hs. injection Hs as <- Hs'.
        exists "", ("" :: segs), segs'. rewrite Hc. simpl. rewrite Hr, Hs'. auto.
      * exists "", (seg :: segs), (seg :: segs'). simpl. rewrite Hch, Hc, Hs, Hf. auto.
    + exists (String c seg), segs, segs'. simpl. rewrite Hch, Hc, Hs. auto.
Qed.

Lemma segments_collapse s : segments (collapse_slashes s) = segments s.
Proof.
  destruct (split_collapse s) as (seg & segs & segs' & Hs & Hc & Hf).
  unfold segments. rewrite Hs, Hc. simpl. fold nonempty_piece. now rewrite Hf.
Qed.

(** [rstrip('/')] keeps the first piece and the non-empty pieces after
    it. *)
Lemma split_rstrip s :
  exists seg segs segs',
    Py.split_on "/" s = seg :: segs
    /\ Py.split_on "/" (Py.rstrip (Py.char_is "/") s) = seg :: segs'
    /\ List.filter nonempty_piece segs' = List.filter nonempty_piece segs.
Proof.
  induction s as [|c rest (seg & segs & segs' & Hs & Hc & Hf)]; simpl.
  - exists "", [], []. auto.
  - destruct (Py.rstrip (Py.char_is "/") rest) as [|d r] eqn:Hr.
    + simpl in Hc. injection Hc as <- <-. simpl in Hf.
      destruct (Py.char_is "/" c) eqn:Hch; simpl; rewrite ?Hch, Hs.
      * exists "", ("" :: segs), []. simpl. auto.
      * exists (String c ""), segs, []. auto.
    + destruct (Py.char_is "/" c) eqn:Hch.
      * exists "", (seg :: segs), (seg :: segs').
        change (Py.split_on "/" (String c (String d r)))
          with (if Py.char_is "/" c then "" :: Py.split_on "/" (String d r)
                else match Py.split_on "/" (String d r) with
                     | seg :: segs => String c seg :: segs
                     | [] => [String c ""]
                     end).
        rewrite Hch, Hc, Hs. simpl. rewrite Hf. auto.
      * exists (String c seg), segs, segs'.
        change (Py.split_on "/" (String c (String d r)))
          with (if Py.char_is "/" c then "" :: Py.split_on "/" (String d r)
                else match Py.split_on "/" (String d r) with
                     | seg :: segs => String c seg :: segs
                     | [] => [String c ""]
                     end).
        rewrite Hch, Hc, Hs. auto.
Qed.

Lemma segments_rstrip s : segments (Py.rstrip (Py.char_is "/") s) = segments s.
Proof.
  destruct (split_rstrip s) as (seg & segs & segs' & Hs & Hc & Hf).
  unfold segments. rewrite Hs, Hc. simpl. fold nonempty_piece. now rewrite Hf.
Qed.

Lemma rstrip_startswith p d s :
  Py.startswith d (Py.rstrip p s) = true -> Py.startswith d s = true.
Proof.
  destruct s as [|c rest]; simpl; [auto|].
  destruct (Py.rstrip p rest); [destruct (p c)|]; simpl; auto; discriminate.
Qed.

Lemma rstrip_no_double_slash s :
  has_double_slash s = false ->
  has_double_slash (Py.rstrip (Py.char_is "/") s) = false.
Proof.
  induction s as [|c rest IH]; simpl; [auto|].
  intros H. apply orb_false_iff in H as [Hc Hrest].
  specialize (IH Hrest).
  destruct (Py.rstrip (Py.char_is "/") rest) as [|d r] eqn:Hr.
  - destruct (Py.char_is "/" c); simpl; [reflexivity|]. now rewrite andb_false_r.
  - change (has_double_slash (String c (String d r)))
      with ((Py.char_is "/" c && Py.startswith "/" (String d r))
            || has_double_slash (String d r)).
    rewrite IH, orb_false_r.
    destruct (Py.char_is "/" c); [|reflexivity]. simpl in Hc |- *.
    destruct (Py.char_is "/" d) eqn:Hd; [|reflexivity].
    assert (Py.startswith "/" rest = true); [|congruence].
    apply (rstrip_startswith (Py.char_is "/")). now rewrite Hr.
Qed.

Lemma rstrip_not_endswith s :
  Py.endswith "/" (Py.rstrip (Py.char_is "/") s) = false.
Proof.
  induction s as [|c rest IH]; simpl; [reflexivity|].
  destruct (Py.rstrip (Py.char_is "/") rest) as [|d r] eqn:Hr.
  - destruct (Py.char_is "/" c) eqn:Hc; simpl; auto.
  - exact IH.
Qed.

(** A path with more than its leading slash and no doubled slash keeps
    the leading slash when its trailing slashes go. *)
Lemma rstrip_keeps_leading_slash s :
  Py.startswith "/" s = true -> has_double_slash s = false -> 1 < Py.len s ->
  Py.startswith "/" (Py.rstrip (Py.char_is "/") s) = true.
Proof.
  destruct s as [|c [|d rest]]; simpl; intros Hc Hdbl Hlen.
  - discriminate.
  - unfold Py.len in Hlen. simpl in Hlen. lia.
  - rewrite Hc in Hdbl. simpl in Hdbl.
    apply orb_false_iff in Hdbl as [Hd _].
    destruct (Py.rstrip (Py.char_is "/") rest); rewrite ?Hd; simpl; exact Hc.
Qed.

Lemma normalize_path_shape path :
  let r := _normalize_path path in
  Py.startswith "/" r = true
  /\ has_double_slash r = false
  /\ (r = "/" \/ Py.endswith "/" r = false)
  /\ segments r = segments (Py.strip path).
Proof.
  unfold _normalize_path.
  destruct (Py.is_empty path) eqn:He.
  - apply is_empty_true in He. subst. simpl. auto.
  - set (c := collapse_slashes (Py.strip path)).
    set (n := if negb (Py.startswith "/" c) then String "/" c else c).
    assert (Hstart : Py.startswith "/" n = true).
    { subst n. destruct (Py.startswith "/" c) eqn:Hc; simpl; auto. }
    assert (Hdbl : has_double_slash n = false).
    { subst n. pose proof (collapse_no_double_slash (Py.strip path)) as Hd. fold c in Hd.
      destruct (Py.startswith "/" c) eqn:Hc; simpl; [exact Hd|]. now rewrite Hc, Hd. }
    assert (Hseg : segments n = segments (Py.strip path)).
    { subst n. rewrite <- (segments_collapse (Py.strip path)). fold c.
      destruct (Py.startswith "/" c); simpl; [reflexivity|apply segments_slash]. }
    simpl.
    destruct ((1 <? Py.len n) && Py.endswith "/" n) eqn:Hcond.
    + apply andb_true_iff in Hcond as [Hlen Hend]. apply Z.ltb_lt in Hlen.
      repeat split.
      * now apply rstrip_keeps_leading_slash.
      * now apply rstrip_no_double_slash.
      * right. apply rstrip_not_endswith.
      * now rewrite segments_rstrip.
    + repeat split; auto.
      apply andb_false_iff in Hcond as [Hlen|Hend]; [|now right].
      left. apply Z.ltb_ge in Hlen.
      destruct n as [|a [|b n']]; [discriminate| |unfold Py.len in Hlen; simpl in Hlen; lia].
      simpl in Hstart. apply char_is_true in Hstart. now subst.
Qed.

(** C8.  [_normalize_path] returns, for every input string, a path that
    starts with a slash, has no two slashes in a row, ends in a slash only
    when it is the root path, and has the route components of the
    stripped input, in order; and it sends "//a//b/" to "/a/b", the empty
    string to "/" and "a" to "/a". *)
Theorem normalize_path_spec :
  (forall path,
      Py.startswith "/" (_normalize_path path) = true
      /\ has_double_slash (_normalize_path path) = false
      /\ (_normalize_path path = "/" \/ Py.endswith "/" (_normalize_path path) = false)
      /\ segments (_normalize_path path) = segments (Py.strip path))
  /\ _normalize_path "//a//b/" = "/a/b"
  /\ _normalize_path "" = "/"
  /\ _normalize_path "a" = "/a".
Proof.
  split; [intros path; apply normalize_path_shape|].
  repeat split; reflexivity.
Qed.

(** ** The saved-query store *)


Lemma same_path_method_true path method i q :
  same_path_method path method (i, q) = true
  <-> query_path q = path /\ query_method q = method.
Proof.
  unfold same_path_method. rewrite andb_true_iff, !String.eqb_eq. tauto.
Qed.

Lemma first_by_path_method_find self path method :
  first_by_path_method self path method
  = List.find (same_path_method path method) (map_to_list (saved_queries self)).
Proof. reflexivity. Qed.

Lemma first_by_path_method_Some self path method i q :
  first_by_path_method self path method = Some (i, q) ->
  saved_queries self !! i = Some q /\ query_path q = path /\ query_method q = method.
Proof.
  rewrite first_by_path_method_find. intros H.
  apply find_some in H as [Hin Hm].
  apply same_path_method_true in Hm.
  apply list_elem_of_In, elem_of_map_to_list in Hin. auto.
Qed.

Lemma first_by_path_method_None self path method :
  first_by_path_method self path method = None <->
  forall i q, saved_queries self !! i = Some q ->
              ~ (query_path q = path /\ query_method q = method).
Proof.
  rewrite first_by_path_method_find. split.
  - intros H i q Hl Hm.
    assert (Hin : In (i, q) (map_to_list (saved_queries self)))
      by now apply list_elem_of_In, elem_of_map_to_list.
    apply (find_none _ _ H) in Hin.
    apply (proj2 (same_path_method_true path method i q)) in Hm. congruence.
  - intros H.
    destruct (List.find _ _) as [[i q]|] eqn:Hf; [|reflexivity].
    apply find_some in Hf as [Hin Hm].
    apply same_path_method_true in Hm.
    apply list_elem_of_In, elem_of_map_to_list in Hin.
    now destruct (H i q Hin).
Qed.

(** The only row for a pair is the one a search by that pair finds. *)
Lemma first_by_path_method_only self path method i q :
  saved_queries self !! i = Some q ->
  query_path q = path -> query_method q = method ->
  (forall j q', saved_queries self !! j = Some q' ->
                query_path q' = path -> query_method q' = method -> j = i) ->
  first_by_path_method self path method = Some (i, q).
Proof.
  intros Hl Hp Hm Huniq.
  destruct (first_by_path_method self path method) as [[j q']|] eqn:Hf.
  - apply first_by_path_method_Some in Hf as (Hj & Hp' & Hm').
    assert (j = i) by eauto. subst j. congruence.
  - rewrite first_by_path_method_None in Hf. now destruct (Hf i q Hl).
Qed.

(** Keys drawn from the sequence keep it ahead of the table. *)
Lemma sequence_ahead_empty : sequence_ahead empty_store.
Proof. intros i q H. simpl in H. now rewrite lookup_empty in H. Qed.

Lemma sequence_ahead_after self call :
  sequence_ahead self -> sequence_ahead (store_after self call).
Proof.
  intros Hseq. destruct call; simpl; try exact Hseq.
  - unfold save_query.
    destruct (first_by_path_method self path method) as [[qid ex]|] eqn:Hf.
    + apply first_by_path_method_Some in Hf as (Hl & _).
      destruct (_ <=? integer_max); simpl; [|exact Hseq].
      intros i q. simpl. rewrite lookup_insert. case_decide.
      * intros _. subst. eauto.
      * eauto.
    + destruct (saved_queries self !! (saved_queries_id_seq self + 1)) eqn:Hn; simpl.
      * intros i q Hi. simpl in *. specialize (Hseq i q Hi). lia.
      * intros i q. simpl. rewrite lookup_insert. case_decide.
        -- intros _. lia.
        -- intros Hi. specialize (Hseq i q Hi). lia.
  - unfold increment_usage.
    destruct (saved_queries self !! query_id) eqn:Hl; simpl; [|exact Hseq].
    destruct (_ <=? integer_max); simpl; [|exact Hseq].
    intros i q. simpl. rewrite lookup_insert. case_decide.
    + intros _. subst. eauto.
    + eauto.
  - intros i q. simpl. rewrite lookup_delete. case_decide; [discriminate|]. eauto.
  - intros i q. simpl. now rewrite lookup_empty.
Qed.

(** C3.  From a store with no row for a pair (path, method), two calls of
    [save_query] with that pair, whatever their descriptions, params and
    data, both return the same id and leave exactly one row for the pair:
    its usage_count is 2 and its description, params and data are those
    of the second call. *)
Theorem save_query_twice self path method t1 d1 params1 data1 t2 d2 params2 data2 :
  sequence_ahead self ->
  (forall i q, saved_queries self !! i = Some q ->
               ~ (query_path q = path /\ query_method q = method)) ->
  exists query_id s1 s2,
    save_query self t1 d1 path method params1 data1 = (Ok query_id, s1)
    /\ save_query s1 t2 d2 path method params2 data2 = (Ok query_id, s2)
    /\ saved_queries s2 !! query_id
       = Some {| query_description := d2;
                 query_path := path;
                 query_method := method;
                 query_params := params2;
                 query_data := data2;
                 query_timestamp := t2;
                 query_usage_count := 2 |}
    /\ (forall j q, saved_queries s2 !! j = Some q ->
                    query_path q = path -> query_method q = method ->
                    j = query_id).
Proof.
  intros Hseq Hnone.
  set (query_id := saved_queries_id_seq self + 1).
  set (new := {| query_description := d1; query_path := path; query_method := method;
                 query_params := params1; query_data := data1;
                 query_timestamp := t1; query_usage_count := 1 |}).
  set (s1 := {| saved_queries := <[query_id := new]> (saved_queries self);
                saved_queries_id_seq := query_id |}).
  assert (Hfresh : saved_queries self !! query_id = None).
  { destruct (saved_queries self !! query_id) eqn:Hl; [|reflexivity].
    specialize (Hseq _ _ Hl). subst query_id. lia. }
  assert (Hfirst : save_query self t1 d1 path method params1 data1 = (Ok query_id, s1)).
  { unfold save_query.
    apply first_by_path_method_None in Hnone. rewrite Hnone.
    fold query_id. now rewrite Hfresh. }
  assert (Hfound : first_by_path_method s1 path method = Some (query_id, new)).
  { apply first_by_path_method_only; simpl; auto.
    - apply lookup_insert_eq.
    - intros j q'. rewrite lookup_insert. case_decide; [auto|].
      intros Hj Hp Hm. now destruct (Hnone j q' Hj). }
  eexists query_id, s1, _. split; [exact Hfirst|].
  split; [|split].
  - unfold save_query. rewrite Hfound. simpl. reflexivity.
  - simpl. rewrite lookup_insert_eq. reflexivity.
  - intros j q. simpl. rewrite !lookup_insert.
    destruct (decide (query_id = j)) as [Heq|Hne]; [auto|].
    intros Hj Hp Hm. now destruct (Hnone j q Hj).
Qed.

Lemma save_query_twice_witness :
  sequence_ahead empty_store
  /\ (forall i q, saved_queries empty_store !! i = Some q ->
                  ~ (query_path q = "/service/tickets" /\ query_method q = "GET"))
  /\ exists query_id s1 s2,
      save_query empty_store 1700000000 "Get all open tickets" "/service/tickets" "GET"
        (Some (JObject [("conditions", JString "status/name='Open'")])) None
      = (Ok query_id, s1)
      /\ save_query s1 1700000060 "Open tickets, newest first" "/service/tickets" "GET"
           (Some (JObject [("orderBy", JString "id desc")])) (Some JNull)
         = (Ok query_id, s2)
      /\ saved_queries s2 !! query_id
         = Some {| query_description := "Open tickets, newest first";
                   query_path := "/service/tickets";
                   query_method := "GET";
                   query_params := Some (JObject [("orderBy", JString "id desc")]);
                   query_data := Some JNull;
                   query_timestamp := 1700000060;
                   query_usage_count := 2 |}
      /\ (forall j q, saved_queries s2 !! j = Some q ->
                      query_path q = "/service/tickets" -> query_method q = "GET" ->
                      j = query_id).
Proof.
  assert (Hnone : forall i q, saved_queries empty_store !! i = Some q ->
                  ~ (query_path q = "/service/tickets" /\ query_method q = "GET")).
  { intros i q H. simpl in H. now rewrite lookup_empty in H. }
  split; [exact sequence_ahead_empty|]. split; [exact Hnone|].
  exact (save_query_twice empty_store "/service/tickets" "GET"
           1700000000 "Get all open tickets"
           (Some (JObject [("conditions", JString "status/name='Open'")])) None
           1700000060 "Open tickets, newest first"
           (Some (JObject [("orderBy", JString "id desc")])) (Some JNull)
           sequence_ahead_empty Hnone).
Defined.

(** C9.  Whatever the call on the store, a row that is there before and
    after it has a usage_count at least as large after as before. *)
Theorem usage_count_monotonic self call i q q' :
  saved_queries self !! i = Some q ->
  saved_queries (store_after self call) !! i = Some q' ->
  query_usage_count q <= query_usage_count q'.
Proof.
  intros Hq.
  assert (Hsame : saved_queries self !! i = Some q' ->
                  query_usage_count q <= query_usage_count q').
  { intros H. rewrite Hq in H. injection H as <-. lia. }
  destruct call; simpl; try exact Hsame.
  - unfold save_query.
    destruct (first_by_path_method self path method) as [[qid ex]|] eqn:Hf.
    + apply first_by_path_method_Some in Hf as (Hl & _).
      destruct (_ <=? integer_max); simpl; [|exact Hsame].
      rewrite lookup_insert. case_decide; [|exact Hsame].
      subst qid. intros H. injection H as <-. simpl.
      rewrite Hq in Hl. injection Hl as <-. lia.
    + destruct (saved_queries self !! (saved_queries_id_seq self + 1)) eqn:Hn; simpl;
        [exact Hsame|].
      rewrite lookup_insert. case_decide; [congruence|exact Hsame].
  - unfold increment_usage.
    destruct (saved_queries self !! query_id) as [ex|] eqn:Hl; simpl; [|exact Hsame].
    destruct (_ <=? integer_max); simpl; [|exact Hsame].
    rewrite lookup_insert. case_decide; [|exact Hsame].
    subst query_id. intros H. injection H as <-. simpl.
    rewrite Hq in Hl. injection Hl as <-. lia.
  - rewrite lookup_delete. case_decide; [discriminate|exact Hsame].
  - now rewrite lookup_empty.
Qed.


Lemma usage_count_monotonic_witness :
  saved_queries one_query_store !! 1 = Some tickets_query
  /\ saved_queries (store_after one_query_store (IncrementUsage 1700000060 1)) !! 1
     = Some {| query_description := "Get all open tickets";
               query_path := "/service/tickets";
               query_method := "GET";
               query_params := None;
               query_data := None;
               query_timestamp := 1700000060;
               query_usage_count := 2 |}
  /\ query_usage_count tickets_query <= 2.
Proof.
  split; [reflexivity|]. split; [reflexivity|].
  apply (usage_count_monotonic one_query_store (IncrementUsage 1700000060 1) 1
           tickets_query
           {| query_description := "Get all open tickets";
              query_path := "/service/tickets";
              query_method := "GET";
              query_params := None;
              query_data := None;
              query_timestamp := 1700000060;
              query_usage_count := 2 |});
    reflexivity.
Defined.

(** C2.  [delete_query] removes the row stored under the id and leaves
    every other row, but what it returns is [None] whether or not a row
    was there: on the store holding one row under id 1, deleting id 1
    removes the row and returns [None], which a caller's [if success:]
    reads as false. *)
Theorem delete_query_returns_None :
  (forall self query_id,
      fst (delete_query self query_id) = Ok PyNone
      /\ saved_queries (snd (delete_query self query_id)) !! query_id = None
      /\ forall j, j <> query_id ->
           saved_queries (snd (delete_query self query_id)) !! j
           = saved_queries self !! j)
  /\ saved_queries one_query_store !! 1 = Some tickets_query
  /\ fst (delete_query one_query_store 1) = Ok PyNone
  /\ saved_queries (snd (delete_query one_query_store 1)) !! 1 = None
  /\ truthy PyNone = false.
Proof.
  split.
  - intros self query_id. simpl. split; [reflexivity|]. split.
    + apply lookup_delete_eq.
    + intros j Hj. now apply lookup_delete_ne.
  - repeat split; reflexivity.
Qed.

(** ** The SQL fragments *)

Lemma limit_in_range {A} (n : Z) (rows : list A) :
  0 <= n <= 9223372036854775807 ->
  Sql.limit n rows = Ok (take (Z.to_nat n) rows).
Proof.
  intros [Hlo Hhi]. unfold Sql.limit.
  apply Z.leb_le in Hlo, Hhi. now rewrite Hlo, Hhi.
Qed.

Lemma limit_length {A} (n : Z) (rows limited : list A) :
  Sql.limit n rows = Ok limited -> Z.of_nat (length limited) <= n.
Proof.
  unfold Sql.limit.
  destruct (0 <=? n) eqn:Hlo; simpl; [|discriminate].
  destruct (n <=? 9223372036854775807); [|discriminate].
  intros H. injection H as <-. apply Z.leb_le in Hlo.
  rewrite length_take. lia.
Qed.

Lemma In_take {A} (n : nat) (l : list A) (x : A) : In x (take n l) -> In x l.
Proof.
  revert l. induction n as [|n IH]; intros [|y l]; simpl; try tauto.
  intros [H|H]; auto.
Qed.

Lemma limit_In {A} (n : Z) (rows limited : list A) (x : A) :
  Sql.limit n rows = Ok limited -> In x limited -> In x rows.
Proof.
  unfold Sql.limit. destruct (_ && _); [|discriminate].
  intros H. injection H as <-. apply In_take.
Qed.

(** ** The tiered search *)

Lemma ranked_statement_capped self statement query limit rows :
  results_or_pass (ranked_statement_rows self statement query limit) = Some rows ->
  Z.of_nat (length rows) <= limit.
Proof.
  unfold ranked_statement_rows, results_or_pass.
  destruct (ranked_rows self statement query) as [found|e]; simpl; [|discriminate].
  destruct (Sql.limit limit found) as [[|row limited]|e] eqn:Hl; try discriminate.
  intros H. injection H as <-. exact (limit_length _ _ _ Hl).
Qed.

(** C1.  The ranked statement of [search_endpoints] carries [LIMIT 50];
    its substring fallback carries no limit.  On the catalog of fifty-one
    report endpoints, without search vectors, the query "report" returns
    fifty-one rows. *)
Theorem search_endpoints_fallback_exceeds_cap :
  (forall self query,
      match results_or_pass (ranked_statement_rows self WebsearchRank query 50) with
      | Some rows => Z.of_nat (length rows) <= 50
      | None => True
      end)
  /\ has_fulltext_search report_catalog = false
  /\ exists rows,
      search_endpoints report_catalog "report" = Ok rows
      /\ length rows = 51%nat.
Proof.
  split; [|split].
  - intros self query.
    destruct (results_or_pass _) as [rows|] eqn:H; [|exact I].
    exact (ranked_statement_capped _ _ _ _ _ H).
  - reflexivity.
  - eexists. split; [vm_compute; reflexivity|reflexivity].
Qed.

(** ** [LIKE] patterns *)

Lemma append_empty s : "" ++ s = s.
Proof. reflexivity. Qed.

Lemma append_String c a b : String c a ++ b = String c (a ++ b).
Proof. reflexivity. Qed.

Lemma append_empty_r s : s ++ "" = s.
Proof. induction s as [|c s IH]; [reflexivity|]. now rewrite append_String, IH. Qed.

Lemma lower_app a b : Py.lower (a ++ b) = Py.lower a ++ Py.lower b.
Proof. induction a as [|c a IH]; simpl; [reflexivity|now rewrite IH]. Qed.

Lemma like_parse_cons c rest :
  Sql.like_parse (String c rest)
  = if Py.char_is "\" c then
      match rest with
      | "" => None
      | String d rest' => cons (Sql.Lit d) <$> Sql.like_parse rest'
      end
    else if Py.char_is "%" c then cons Sql.AnySeq <$> Sql.like_parse rest
    else if Py.char_is "_" c then cons Sql.AnyOne <$> Sql.like_parse rest
    else cons (Sql.Lit c) <$> Sql.like_parse rest.
Proof. reflexivity. Qed.

(** A pattern that ends in an unescaped or escaped [%] is well formed:
    the escape character, if it comes last but one, finds the [%] to
    quote. *)
Lemma like_parse_open s :
  (exists toks, Sql.like_parse (s ++ "%") = Some toks)
  /\ forall c, exists toks, Sql.like_parse (String c (s ++ "%")) = Some toks.
Proof.
  induction s as [|a s [IH1 IH2]].
  - split; [simpl; eauto|].
    intros c. simpl. destruct (Py.char_is "\" c); [eauto|].
    destruct (Py.char_is "%" c); [eauto|]. destruct (Py.char_is "_" c); eauto.
  - split; [exact (IH2 a)|].
    intros c. destruct (IH2 a) as [toks Htoks]. destruct IH1 as [toks1 Htoks1].
    change (String a s ++ "%") with (String a (s ++ "%")) in *.
    rewrite like_parse_cons.
    destruct (Py.char_is "\" c); [rewrite Htoks1; simpl; eauto|].
    rewrite Htoks.
    destruct (Py.char_is "%" c); [simpl; eauto|].
    destruct (Py.char_is "_" c); simpl; eauto.
Qed.

(** The pattern [%text%] of a substring condition is always accepted, and
    it starts with the wildcard. *)
Lemma substring_pattern_ok text :
  exists toks,
    Sql.like_parse (Py.lower text ++ "%") = Some toks
    /\ Sql.ilike_pattern ("%" ++ text ++ "%") = Ok (Sql.AnySeq :: toks).
Proof.
  destruct (proj1 (like_parse_open (Py.lower text))) as [toks Htoks].
  exists toks. split; [exact Htoks|].
  unfold Sql.ilike_pattern, Sql.like_pattern.
  rewrite !lower_app.
  change (Py.lower "%") with "%".
  change ("%" ++ Py.lower text ++ "%") with (String "%" (Py.lower text ++ "%")).
  rewrite like_parse_cons. change (Py.char_is "\" "%") with false.
  change (Py.char_is "%" "%") with true. cbn iota. now rewrite Htoks.
Qed.

Lemma like_toks_any p s :
  Sql.like_toks (Sql.AnySeq :: p) s
  = Sql.like_toks p s
    || match s with
       | String _ r => Sql.like_toks (Sql.AnySeq :: p) r
       | "" => false
       end.
Proof. destruct s; reflexivity. Qed.

(** [%] followed by [p] matches exactly the strings with a suffix that
    [p] matches. *)
Lemma like_toks_any_iff p s :
  Sql.like_toks (Sql.AnySeq :: p) s = true
  <-> exists pre post, s = pre ++ post /\ Sql.like_toks p post = true.
Proof.
  induction s as [|c s IH].
  - rewrite like_toks_any, orb_false_r. split.
    + intros H. exists "", "". auto.
    + intros (pre & post & Heq & H). destruct pre; [|discriminate].
      rewrite append_empty in Heq. now subst.
  - rewrite like_toks_any, orb_true_iff, IH. split.
    + intros [H|(pre & post & -> & H)].
      * exists "", (String c s). auto.
      * exists (String c pre), post. auto.
    + intros (pre & post & Heq & H). destruct pre as [|d pre].
      * left. rewrite append_empty in Heq. now subst.
      * right. rewrite append_String in Heq. injection Heq as -> ->. eauto.
Qed.

Lemma like_toks_literal_prefix t s :
  Sql.like_toks (literals t ++ [Sql.AnySeq]) s = true
  <-> exists post, s = t ++ post.
Proof.
  revert s. induction t as [|c t IH]; intros s.
  - change (literals "" ++ [Sql.AnySeq])%list with [Sql.AnySeq]. rewrite like_toks_any_iff.
    split; [eauto|]. intros _. exists s, "". split; [|reflexivity].
    now rewrite append_empty_r.
  - change (literals (String c t) ++ [Sql.AnySeq])%list
      with (Sql.Lit c :: (literals t ++ [Sql.AnySeq]))%list.
    destruct s as [|d s]; cbn [Sql.like_toks].
    + split; [discriminate|]. intros [post H]. discriminate.
    + rewrite andb_true_iff, Ascii.eqb_eq, IH. split.
      * intros [-> [post ->]]. eauto.
      * intros [post H]. rewrite append_String in H. injection H as -> ->. eauto.
Qed.

(** A text without [%], [_] and backslash is its own pattern. *)
Lemma like_parse_plain t k :
  Spec.wildcard_free t ->
  Sql.like_parse (t ++ k) = (fun toks => literals t ++ toks)%list <$> Sql.like_parse k.
Proof.
  unfold Spec.wildcard_free, Spec.all_in.
  induction t as [|c t IH]; intros H.
  - rewrite append_empty. now destruct (Sql.like_parse k).
  - change (Spec.chars (String c t)) with (c :: Spec.chars t) in H.
    apply Forall_cons in H as [Hc Ht].
    unfold Spec.plain_char in Hc. apply negb_true_iff in Hc.
    apply orb_false_iff in Hc as [Hc Hc3]. apply orb_false_iff in Hc as [Hc1 Hc2].
    change (String c t ++ k) with (String c (t ++ k)).
    rewrite like_parse_cons, Hc1, Hc2, Hc3, (IH Ht).
    now destruct (Sql.like_parse k).
Qed.

Lemma lower_char_plain c :
  Spec.plain_char c = true -> Spec.plain_char (Py.lower_char c) = true.
Proof.
  destruct c as [[] [] [] [] [] [] [] []]; vm_compute; congruence.
Qed.

Lemma lower_wildcard_free t : Spec.wildcard_free t -> Spec.wildcard_free (Py.lower t).
Proof.
  unfold Spec.wildcard_free, Spec.all_in.
  induction t as [|c t IH]; simpl; intros H; [constructor|].
  apply Forall_cons in H as [Hc Ht]. constructor; auto using lower_char_plain.
Qed.

(** For a wildcard-free text, matching the pattern [%text%] without
    regard to case is containing the text without regard to case. *)
Lemma substring_pattern_plain text toks column :
  Spec.wildcard_free text ->
  Sql.ilike_pattern ("%" ++ text ++ "%") = Ok toks ->
  Sql.imatches toks column = true ->
  Spec.contains column text.
Proof.
  intros Hplain Hpat Hmatch.
  destruct (substring_pattern_ok text) as (toks' & Hparse & Hpat').
  rewrite Hpat in Hpat'. injection Hpat' as ->.
  rewrite (like_parse_plain _ "%" (lower_wildcard_free _ Hplain)) in Hparse.
  simpl in Hparse. injection Hparse as <-.
  destruct column as [s|]; [|discriminate]. unfold Sql.imatches in Hmatch. simpl in Hmatch.
  change (Sql.like_toks (Sql.AnySeq :: literals (Py.lower text) ++ [Sql.AnySeq])%list
            (Py.lower s) = true) in Hmatch.
  apply like_toks_any_iff in Hmatch as (pre & post & Heq & Hm).
  apply like_toks_literal_prefix in Hm as [post' ->].
  exists s. split; [reflexivity|]. exists pre, post'. exact Heq.
Qed.

(** ** [ORDER BY] *)

Section OrderBy.

Context {A : Type} (leb : A -> A -> bool).

Lemma insert_by_In x y l : In y (Sql.insert_by leb x l) <-> y = x \/ In y l.
Proof.
  induction l as [|z l IH]; simpl; [intuition congruence|].
  destruct (leb x z); simpl; [intuition congruence|].
  rewrite IH. intuition congruence.
Qed.

Lemma order_by_In y l : In y (Sql.order_by leb l) <-> In y l.
Proof.
  induction l as [|x l IH]; simpl; [tauto|].
  rewrite insert_by_In, IH. intuition congruence.
Qed.

Lemma insert_by_length x l : length (Sql.insert_by leb x l) = S (length l).
Proof.
  induction l as [|z l IH]; simpl; [reflexivity|].
  destruct (leb x z); simpl; congruence.
Qed.

Lemma order_by_length l : length (Sql.order_by leb l) = length l.
Proof.
  induction l as [|x l IH]; simpl; [reflexivity|].
  now rewrite insert_by_length, IH.
Qed.

End OrderBy.

Section OrderByKey.

Context {A : Type} (key : A -> Z).

Lemma insert_by_key_sorted x l :
  StronglySorted (Sql.by_key_le key) l ->
  StronglySorted (Sql.by_key_le key) (Sql.insert_by (Sql.by_key_leb key) x l).
Proof.
  induction 1 as [|y l Hsorted IH Hall]; simpl.
  - repeat constructor.
  - unfold Sql.by_key_leb at 1. destruct (key x <=? key y) eqn:Hxy.
    + apply Z.leb_le in Hxy. constructor; [now constructor|].
      constructor; [exact Hxy|].
      eapply Forall_impl; [exact Hall|].
      unfold Sql.by_key_le. intros z Hz. simpl in *. lia.
    + apply Z.leb_gt in Hxy. constructor; [exact IH|].
      apply List.Forall_forall. intros z Hz. apply insert_by_In in Hz as [->|Hz].
      * unfold Sql.by_key_le. lia.
      * rewrite List.Forall_forall in Hall. now apply Hall.
Qed.

Lemma order_by_key_sorted l :
  StronglySorted (Sql.by_key_le key) (Sql.order_by (Sql.by_key_leb key) l).
Proof.
  induction l as [|x l IH]; simpl; [constructor|].
  now apply insert_by_key_sorted.
Qed.

Lemma take_sorted n l :
  StronglySorted (Sql.by_key_le key) l -> StronglySorted (Sql.by_key_le key) (take n l).
Proof.
  intros H. revert n. induction H as [|y l Hsorted IH Hall]; intros [|n]; simpl;
    try constructor.
  - apply IH.
  - apply List.Forall_forall. intros z Hz. apply In_take in Hz.
    rewrite List.Forall_forall in Hall. now apply Hall.
Qed.

End OrderByKey.

(** ** The keyword fallback *)

Lemma keyword_patterns_ok keywords :
  exists patterns,
    keyword_patterns keywords = Ok patterns
    /\ forall pattern, In pattern patterns ->
         exists token, In token keywords
                       /\ Sql.ilike_pattern ("%" ++ token ++ "%") = Ok pattern.
Proof.
  induction keywords as [|keyword rest (patterns & Hrest & Hin)]; simpl.
  - exists []. split; [reflexivity|]. intros pattern [].
  - destruct (substring_pattern_ok keyword) as (toks & _ & Hpat).
    rewrite Hpat. simpl. rewrite Hrest. simpl.
    eexists. split; [reflexivity|].
    intros pattern [<-|H]; [eauto|].
    destruct (Hin pattern H) as (token & Htoken & Hok). eauto.
Qed.

(** What the keyword statement selects, for a limit in range. *)
Lemma keyword_statement_rows self keywords first_keyword limit :
  0 <= limit <= 9223372036854775807 ->
  exists first_pattern rows,
    Sql.ilike_pattern ("%" ++ first_keyword ++ "%") = Ok first_pattern
    /\ keyword_statement self keywords first_keyword limit = Ok rows
    /\ Z.of_nat (length rows) <= limit
    /\ StronglySorted (Sql.by_key_le (field_priority first_pattern)) rows
    /\ forall e, In e rows ->
         In e (endpoints self)
         /\ exists token pattern,
              In token keywords
              /\ Sql.ilike_pattern ("%" ++ token ++ "%") = Ok pattern
              /\ any_column_ilike pattern e = true.
Proof.
  intros Hlimit. unfold keyword_statement.
  destruct (keyword_patterns_ok keywords) as (patterns & -> & Hpatterns).
  destruct (substring_pattern_ok first_keyword) as (toks & _ & Hfirst).
  rewrite Hfirst. simpl.
  rewrite (limit_in_range _ _ Hlimit).
  eexists _, _. split; [reflexivity|]. split; [reflexivity|].
  split; [|split].
  - rewrite length_take. lia.
  - apply take_sorted, order_by_key_sorted.
  - intros e He. apply In_take, order_by_In, filter_In in He as [Hin Hany].
    split; [exact Hin|].
    apply existsb_exists in Hany as (pattern & Hp & Hany).
    destruct (Hpatterns pattern Hp) as (token & Htoken & Hok). eauto.
Qed.



Lemma keyword_fallback_capped self query_lower limit :
  0 <= limit <= 9223372036854775807 ->
  exists rows,
    keyword_fallback self query_lower limit = Ok rows
    /\ Z.of_nat (length rows) <= limit.
Proof.
  intros Hlimit. unfold keyword_fallback.
  destruct (filter_keywords (Py.split_ws query_lower)) as [|first_keyword rest].
  - exists []. split; [reflexivity|]. simpl. lia.
  - destruct (keyword_statement_rows self (first_keyword :: rest) first_keyword limit Hlimit)
      as (first_pattern & rows & _ & -> & Hlen & _).
    exists rows. auto.
Qed.



Lemma substring_occurs t s : Spec.substring t s -> occurs t s = true.
Proof.
  intros (pre & post & ->). induction pre as [|c pre IH].
  - rewrite append_empty.
    assert (H : starts_with t (t ++ post) = true).
    { clear. induction t as [|a t IH]; [reflexivity|].
      rewrite append_String. simpl. now rewrite Ascii.eqb_refl, IH. }
    destruct (t ++ post); simpl; rewrite H; reflexivity.
  - rewrite append_String. simpl. rewrite IH. apply orb_true_r.
Qed.

(** A wildcard-free token that selected a row occurs, letter case aside,
    in one of the four columns. *)
Lemma any_column_ilike_plain token pattern e :
  Spec.wildcard_free token ->
  Sql.ilike_pattern ("%" ++ token ++ "%") = Ok pattern ->
  any_column_ilike pattern e = true ->
  Spec.token_in_columns e token.
Proof.
  intros Hplain Hpat Hany. unfold any_column_ilike in Hany.
  unfold Spec.token_in_columns.
  repeat (apply orb_true_iff in Hany as [Hany|Hany]);
    eauto 6 using substring_pattern_plain.
Qed.

(** The rows of the keyword fallback, in the terms of the code: the
    keywords [filter_keywords] keeps and the priority [field_priority]
    gives. *)
Lemma keyword_fallback_rows self query limit :
  0 <= limit <= 9223372036854775807 ->
  (has_fulltext_search self = true ->
   results_or_pass
     (ranked_statement_rows self WebsearchRankCd (Py.strip (Py.lower query)) limit) = None
   /\ results_or_pass
        (ranked_statement_rows self PlaintoRank (Py.strip (Py.lower query)) limit) = None) ->
  exists rows,
    search_by_natural_language self query limit = Ok rows
    /\ (filter_keywords (Py.split_ws (Py.strip (Py.lower query))) = [] -> rows = [])
    /\ (forall e, In e rows ->
          In e (endpoints self)
          /\ exists token pattern,
               In token (filter_keywords (Py.split_ws (Py.strip (Py.lower query))))
               /\ Sql.ilike_pattern ("%" ++ token ++ "%") = Ok pattern
               /\ any_column_ilike pattern e = true
               /\ (Spec.wildcard_free token -> Spec.token_in_columns e token))
    /\ (forall first_keyword rest,
          filter_keywords (Py.split_ws (Py.strip (Py.lower query))) = first_keyword :: rest ->
          exists first_pattern,
            Sql.ilike_pattern ("%" ++ first_keyword ++ "%") = Ok first_pattern
            /\ StronglySorted (Sql.by_key_le (field_priority first_pattern)) rows)
    /\ Z.of_nat (length rows) <= limit.
Proof.
  intros Hlimit Hranked. unfold search_by_natural_language.
  destruct (Py.is_empty (Py.strip (Py.lower query))) eqn:Hempty.
  { apply is_empty_true in Hempty. rewrite Hempty.
    exists []. split; [reflexivity|]. split; [reflexivity|].
    split; [intros e []|]. split; [|simpl; lia].
    intros first_keyword rest H. discriminate H. }
  set (query_lower := Py.strip (Py.lower query)) in *.
  assert (Hfall :
    (if has_fulltext_search self
     then match results_or_pass
                  (ranked_statement_rows self WebsearchRankCd query_lower limit) with
          | Some results => Some results
          | None => results_or_pass
                      (ranked_statement_rows self PlaintoRank query_lower limit)
          end
     else None) = None).
  { destruct (has_fulltext_search self); [|reflexivity].
    destruct (Hranked eq_refl) as [-> ->]. reflexivity. }
  rewrite Hfall. unfold keyword_fallback.
  destruct (filter_keywords (Py.split_ws query_lower)) as [|first_keyword rest] eqn:Hkw.
  - exists []. split; [reflexivity|]. split; [reflexivity|].
    split; [intros e []|]. split; [|simpl; lia].
    intros ? ? H. discriminate H.
  - destruct (keyword_statement_rows self (first_keyword :: rest) first_keyword limit Hlimit)
      as (first_pattern & rows & Hfirst & -> & Hlen & Hsorted & Hrows).
    exists rows. split; [reflexivity|]. split; [discriminate|].
    split; [|split; [|exact Hlen]].
    + intros e He. destruct (Hrows e He) as (Hin & token & pattern & Htoken & Hpat & Hany).
      split; [exact Hin|]. exists token, pattern.
      repeat split; auto. intros Hplain.
      exact (any_column_ilike_plain _ _ _ Hplain Hpat Hany).
    + intros k r H. injection H as <- <-. eauto.
Qed.

(** The claim C7 as worded fails: on the catalog with [/time/entries]
    only, the query "time_entries" has the one surviving token
    "time_entries", whose underscore stands for any character in the
    pattern; the row is returned although the token occurs in none of its
    columns. *)
Lemma keyword_fallback_wildcard_counterexample :
  filter_keywords (Py.split_ws (Py.strip (Py.lower "time_entries"))) = ["time_entries"]
  /\ exists e,
      search_by_natural_language time_entries_catalog "time_entries" 10 = Ok [e]
      /\ ~ Spec.token_in_columns e "time_entries".
Proof.
  split; [reflexivity|].
  exists (endpoint 1 "/time/entries" "get" None).
  split; [reflexivity|].
  unfold Spec.token_in_columns, Spec.contains.
  intros [H|[H|[H|H]]]; destruct H as (s & Hs & Hsub); try discriminate Hs.
  injection Hs as <-. apply substring_occurs in Hsub. discriminate Hsub.
Qed.

(** ** The segment heuristics *)

Lemma chars_String c s : Spec.chars (String c s) = c :: Spec.chars s.
Proof. reflexivity. Qed.



















(** ** The known-segment cache and the parameterizer *)

(** Looking a segment up does not change what any later lookup answers:
    the cache gains only answers the catalog gives. *)
Lemma is_known_stable self a b :
  fst (_is_known_path_segment (snd (_is_known_path_segment self a)) b)
  = fst (_is_known_path_segment self b)
  /\ endpoints (snd (_is_known_path_segment self a)) = endpoints self.
Proof.
  destruct (_is_known_path_segment self a) as [known_a self_a] eqn:Ha. simpl.
  unfold _is_known_path_segment in Ha.
  destruct (Py.is_empty a); [injection Ha as <- <-; auto|].
  destruct (_known_segments_cache self !! a) as [known|] eqn:Hcache;
    [injection Ha as <- <-; auto|].
  destruct (Sql.like_pattern ("%/" ++ a ++ "%")) as [pattern|e] eqn:Hpat;
    [|injection Ha as <- <-; auto].
  injection Ha as <- <-. split; [|reflexivity].
  unfold _is_known_path_segment.
  destruct (Py.is_empty b); [reflexivity|]. simpl.
  rewrite lookup_insert. case_decide as Hab.
  - subst b. rewrite Hcache, Hpat. reflexivity.
  - destruct (_known_segments_cache self !! b); [reflexivity|].
    now destruct (Sql.like_pattern ("%/" ++ b ++ "%")).
Qed.

Lemma convert_segment_self self segment :
  snd (_convert_segment_to_parameter self segment)
  = snd (_is_known_path_segment self segment).
Proof.
  unfold _convert_segment_to_parameter.
  destruct (Py.is_empty segment) eqn:He.
  - unfold _is_known_path_segment. now rewrite He.
  - destruct (_is_known_path_segment self segment) as [known self'].
    destruct known; [reflexivity|].
    repeat match goal with |- context [if ?b then _ else _] => destruct b end;
      reflexivity.
Qed.

(** A segment that is not a known literal is converted by the heuristics
    alone. *)
Lemma convert_segment_unknown self segment :
  fst (_is_known_path_segment self segment) = false ->
  fst (_convert_segment_to_parameter self segment)
  = if looks_like_parameter segment then "{id}" else segment.
Proof.
  unfold _convert_segment_to_parameter, looks_like_parameter.
  destruct (Py.is_empty segment) eqn:He.
  - apply is_empty_true in He. subst. reflexivity.
  - destruct (_is_known_path_segment self segment) as [known self'].
    simpl. intros ->.
    destruct (Re.numeric_id segment), (Re.uuid segment), (Re.prefixed_id segment);
      try reflexivity.
    simpl.
    destruct ((8 <=? Py.len segment) && Re.alnum_only segment
              && Re.has_digit segment && Re.has_letter segment); [reflexivity|].
    simpl. now destruct ((10 <=? Py.len segment) && Re.base64_like segment).
Qed.

(** A segment no heuristic fires on is never converted, known or not. *)
Lemma convert_segment_literal self segment :
  looks_like_parameter segment = false ->
  fst (_convert_segment_to_parameter self segment) = segment.
Proof.
  intros Hlooks.
  destruct (fst (_is_known_path_segment self segment)) eqn:Hknown.
  - unfold _convert_segment_to_parameter.
    destruct (Py.is_empty segment); [reflexivity|].
    destruct (_is_known_path_segment self segment) as [known self'].
    simpl in Hknown. now subst.
  - now rewrite (convert_segment_unknown _ _ Hknown), Hlooks.
Qed.

Lemma convert_segment_same_answers self self' segment :
  same_answers self self' ->
  fst (_convert_segment_to_parameter self' segment)
  = fst (_convert_segment_to_parameter self segment)
  /\ same_answers self (snd (_convert_segment_to_parameter self' segment)).
Proof.
  intros Hsame. split.
  - unfold _convert_segment_to_parameter.
    destruct (Py.is_empty segment); [reflexivity|].
    specialize (Hsame segment).
    destruct (_is_known_path_segment self segment) as [known s1].
    destruct (_is_known_path_segment self' segment) as [known' s1'].
    simpl in Hsame. subst known'. destruct known; [reflexivity|].
    repeat match goal with |- context [if ?b then _ else _] => destruct b end;
      reflexivity.
  - intros b. rewrite convert_segment_self.
    rewrite (proj1 (is_known_stable self' segment b)). apply Hsame.
Qed.

(** The loop converts each piece as the object it started from would. *)
Lemma convert_segments_pointwise self self' segs :
  same_answers self self' ->
  fst (convert_segments self' segs)
  = List.map (fun segment => fst (_convert_segment_to_parameter self segment)) segs.
Proof.
  revert self'. induction segs as [|segment rest IH]; intros self' Hsame; [reflexivity|].
  cbn [convert_segments List.map].
  destruct (convert_segment_same_answers self self' segment Hsame) as [Hfst Hsnd].
  assert (Hstep :
    (if Py.is_empty segment then (segment, self')
     else _convert_segment_to_parameter self' segment)
    = _convert_segment_to_parameter self' segment).
  { unfold _convert_segment_to_parameter. now destruct (Py.is_empty segment). }
  rewrite Hstep.
  destruct (_convert_segment_to_parameter self' segment) as [converted s1] eqn:Hc.
  simpl in Hfst, Hsnd. specialize (IH s1 Hsnd).
  destruct (convert_segments s1 rest) as [converted_rest s2].
  simpl in IH |- *. now rewrite Hfst, IH.
Qed.

Lemma parameterized_path_pointwise self path :
  Py.is_empty path || String.eqb path "/" = false ->
  fst (_convert_to_parameterized_path self path)
  = Py.join "/"
      (List.map (fun segment => fst (_convert_segment_to_parameter self segment))
         (Py.split_on "/"
            (let stripped := Py.rstrip (Py.char_is "/") path in
             if negb (Py.startswith "/" stripped) then String "/" stripped
             else stripped))).
Proof.
  intros Hroot. unfold _convert_to_parameterized_path. rewrite Hroot.
  cbv zeta.
  rewrite <- (convert_segments_pointwise self self); [|intros segment; reflexivity].
  now destruct (convert_segments self _).
Qed.


(** ** The resolver *)

Lemma filter_nothing {A} (f : A -> bool) (l : list A) :
  (forall x, In x l -> f x = false) -> List.filter f l = [].
Proof.
  induction l as [|x l IH]; intros H; simpl; [reflexivity|].
  rewrite (H x (or_introl eq_refl)). apply IH. intros y Hy. apply H. now right.
Qed.

Lemma fetchone_head {A} (c : Sql.cursor A) : fst (Sql.fetchone c) = head c.
Proof. now destruct c. Qed.

(** A pattern without the escape character matches its own text. *)
Lemma like_self s :
  Spec.no_backslash s ->
  exists toks, Sql.like_parse s = Some toks /\ Sql.like_toks toks s = true.
Proof.
  unfold Spec.no_backslash. induction s as [|c s IH].
  - exists []. auto.
  - rewrite chars_String, Forall_cons. intros [Hc Hs].
    destruct (IH Hs) as (toks & Hparse & Hmatch).
    apply char_is_false in Hc. rewrite like_parse_cons, Hc, Hparse.
    destruct (Py.char_is "%" c); [|destruct (Py.char_is "_" c)]; simpl fmap.
    + eexists. split; [reflexivity|].
      rewrite like_toks_any, (like_toks_any toks s), Hmatch. apply orb_true_r.
    + eexists. split; [reflexivity|]. exact Hmatch.
    + eexists. split; [reflexivity|]. simpl. now rewrite Ascii.eqb_refl.
Qed.

Lemma lower_char_no_backslash c : c <> "\"%char -> Py.lower_char c <> "\"%char.
Proof.
  destruct c as [[] [] [] [] [] [] [] []]; vm_compute; congruence.
Qed.

Lemma lower_no_backslash s : Spec.no_backslash s -> Spec.no_backslash (Py.lower s).
Proof.
  unfold Spec.no_backslash. induction s as [|c s IH]; simpl; [constructor|].
  rewrite !Forall_cons. intros [Hc Hs]. auto using lower_char_no_backslash.
Qed.

Lemma ilike_self path :
  Spec.no_backslash path ->
  exists toks,
    Sql.ilike_pattern path = Ok toks /\ Sql.imatches toks (Some path) = true.
Proof.
  intros H. destruct (like_self _ (lower_no_backslash _ H)) as (toks & Hparse & Hmatch).
  exists toks. unfold Sql.ilike_pattern, Sql.like_pattern. rewrite Hparse. auto.
Qed.

(** The row a primary key is stored under is the first, and only, row of
    the catalog with that key. *)
Lemma details_of_row json_loads self before row after :
  endpoints self = (before ++ row :: after)%list ->
  List.NoDup (List.map endpoint_id_ (endpoints self)) ->
  get_endpoint_details json_loads self (endpoint_id_ row)
  = EndpointDetails row
      (List.filter (fun p => parameter_endpoint_id p =? endpoint_id_ row)
         (parameters self))
      (request_body_dict json_loads
         <$> head (List.filter
                     (fun b => request_body_endpoint_id b =? endpoint_id_ row)
                     (request_bodies self)))
      (response_body_dict json_loads
         <$> List.filter (fun b => response_body_endpoint_id b =? endpoint_id_ row)
               (response_bodies self)).
Proof.
  intros Hrows Hkey. unfold get_endpoint_details.
  rewrite Hrows, List.map_app in Hkey. simpl in Hkey.
  apply List.NoDup_remove_2 in Hkey.
  rewrite Hrows, List.filter_app.
  rewrite (filter_nothing _ before).
  - simpl. rewrite Z.eqb_refl. simpl. now rewrite fetchone_head.
  - intros e He. apply Z.eqb_neq. intros Heq. apply Hkey.
    apply in_or_app. left. rewrite <- Heq. now apply in_map.
Qed.

(** C6.  [find_endpoint_by_path_method], called with the path and method
    of a catalog row, returns that row with its parameters, its request
    body and its response bodies, the stored schemas and examples parsed
    where they parse, provided that the row's path is in normal form and
    has no backslash, its method is in lower case, and no row before it
    in scan order has the same method and a path that the row's path
    matches as a case-insensitive pattern. *)
Theorem resolve_reflexive json_loads self before row after :
  endpoints self = (before ++ row :: after)%list ->
  List.NoDup (List.map endpoint_id_ (endpoints self)) ->
  _normalize_path (endpoint_path row) = endpoint_path row ->
  Py.lower (endpoint_method row) = endpoint_method row ->
  Spec.no_backslash (endpoint_path row) ->
  (forall e toks,
      In e before -> endpoint_method e = endpoint_method row ->
      Sql.ilike_pattern (endpoint_path row) = Ok toks ->
      Sql.imatches toks (Some (endpoint_path e)) = false) ->
  fst (find_endpoint_by_path_method json_loads self
         (endpoint_path row) (endpoint_method row))
  = Ok (Some
          (EndpointDetails row
             (List.filter (fun p => parameter_endpoint_id p =? endpoint_id_ row)
                (parameters self))
             (request_body_dict json_loads
                <$> head (List.filter
                            (fun b => request_body_endpoint_id b =? endpoint_id_ row)
                            (request_bodies self)))
             (response_body_dict json_loads
                <$> List.filter
                      (fun b => response_body_endpoint_id b =? endpoint_id_ row)
                      (response_bodies self)))).
Proof.
  intros Hrows Hkey Hnorm Hlower Hplain Hfirst.
  unfold find_endpoint_by_path_method. rewrite Hnorm, Hlower.
  destruct (ilike_self _ Hplain) as (toks & Hpat & Hself).
  unfold exact_match_statement. rewrite Hpat. simpl mbind.
  rewrite Hrows, List.filter_app, (filter_nothing _ before).
  - simpl. rewrite Hself, String.eqb_refl. simpl.
    now rewrite <- (details_of_row json_loads self before row after Hrows Hkey).
  - intros e He. apply andb_false_iff.
    destruct (String.eqb_spec (endpoint_method e) (endpoint_method row)) as [Hm|Hm];
      [left|now right].
    exact (Hfirst e toks He Hm Hpat).
Qed.

Lemma resolve_reflexive_witness :
  endpoints finance_catalog
  = ([endpoint 1 "/finance/invoices" "get" None]
       ++ endpoint 2 "/finance/invoices/{id}" "get" None :: [])%list
  /\ List.NoDup (List.map endpoint_id_ (endpoints finance_catalog))
  /\ _normalize_path "/finance/invoices/{id}" = "/finance/invoices/{id}"
  /\ Py.lower "get" = "get"
  /\ Spec.no_backslash "/finance/invoices/{id}"
  /\ (forall e toks,
         In e [endpoint 1 "/finance/invoices" "get" None] ->
         endpoint_method e = "get" ->
         Sql.ilike_pattern "/finance/invoices/{id}" = Ok toks ->
         Sql.imatches toks (Some (endpoint_path e)) = false)
  /\ fst (find_endpoint_by_path_method no_json finance_catalog
            "/finance/invoices/{id}" "get")
     = Ok (Some (EndpointDetails (endpoint 2 "/finance/invoices/{id}" "get" None)
                   [] None [])).
Proof.
  assert (Hkey : List.NoDup (List.map endpoint_id_ (endpoints finance_catalog))).
  { simpl. constructor; [intros [H|[]]; discriminate H|].
    constructor; [intros []|constructor]. }
  assert (Hplain : Spec.no_backslash "/finance/invoices/{id}").
  { unfold Spec.no_backslash. simpl. repeat (constructor; [discriminate|]). constructor. }
  assert (Hfirst : forall e toks,
             In e [endpoint 1 "/finance/invoices" "get" None] ->
             endpoint_method e = "get" ->
             Sql.ilike_pattern "/finance/invoices/{id}" = Ok toks ->
             Sql.imatches toks (Some (endpoint_path e)) = false).
  { intros e toks [<-|[]] _ Hpat. vm_compute in Hpat. injection Hpat as <-. reflexivity. }
  repeat (split; [first [reflexivity | assumption]|]).
  exact (resolve_reflexive no_json finance_catalog
           [endpoint 1 "/finance/invoices" "get" None]
           (endpoint 2 "/finance/invoices/{id}" "get" None) []
           eq_refl Hkey eq_refl eq_refl Hplain Hfirst).
Defined.

(** The claim C6 as worded fails: the catalog row with the path
    "/service/tickets/" is not found under its own path and method,
    because the caller's path loses its trailing slash before the exact
    match and the stored path keeps it. *)
Lemma resolve_trailing_slash_counterexample :
  In (endpoint 1 "/service/tickets/" "get" None) (endpoints trailing_slash_catalog)
  /\ fst (find_endpoint_by_path_method no_json trailing_slash_catalog
            "/service/tickets/" "get")
     = Ok None.
Proof. split; [now left|reflexivity]. Qed.

(** The other conditions of the reflexivity statement are needed as well:
    a row stored with an upper-case method is not found under its own
    pair, and a row that differs from an earlier one by letter case only
    is shadowed by it. *)
Example resolve_upper_case_method :
  fst (find_endpoint_by_path_method no_json
         (catalog_only [endpoint 1 "/service/tickets" "GET" None])
         "/service/tickets" "GET")
  = Ok None.
Proof. reflexivity. Qed.

Example resolve_shadowed_by_case_variant :
  fst (find_endpoint_by_path_method no_json
         (catalog_only [endpoint 1 "/Service/Tickets" "get" None;
                        endpoint 2 "/service/tickets" "get" None])
         "/service/tickets" "get")
  = Ok (Some (EndpointDetails (endpoint 1 "/Service/Tickets" "get" None) [] None [])).
Proof. reflexivity. Qed.

(** C10.  When the generic pattern of the caller's parameterized path is
    the parameterized path itself, [find_endpoint_by_path_method] answers
    from the exact match alone: the hydrated first row of the exact-match
    statement when it selects one, not-found when it selects none
    (whatever the same-method rows of the catalog are), and the wrapped
    error when the statement fails. *)
Theorem resolve_without_placeholder json_loads self path method :
  _convert_to_generic_pattern
    (fst (_convert_to_parameterized_path self (_normalize_path path)))
  = fst (_convert_to_parameterized_path self (_normalize_path path)) ->
  fst (find_endpoint_by_path_method json_loads self path method)
  = match exact_match_statement self (_normalize_path path) (Py.lower method) with
    | Ok (row :: _) => Ok (Some (get_endpoint_details json_loads self (endpoint_id_ row)))
    | Ok [] => Ok None
    | Raise e => except_SQLAlchemyError "Database error finding endpoint" (Raise e)
    end.
Proof.
  intros Hgeneric. unfold find_endpoint_by_path_method.
  destruct (exact_match_statement self (_normalize_path path) (Py.lower method))
    as [[|row rows]|e]; [|reflexivity|reflexivity].
  cbn [Sql.fetchone].
  destruct (_convert_to_parameterized_path self (_normalize_path path))
    as [parameterized_path self'].
  simpl in Hgeneric. rewrite Hgeneric, String.eqb_refl. reflexivity.
Qed.

Lemma resolve_without_placeholder_witness :
  _convert_to_generic_pattern
    (fst (_convert_to_parameterized_path finance_catalog
            (_normalize_path "/finance/payments/")))
  = fst (_convert_to_parameterized_path finance_catalog
           (_normalize_path "/finance/payments/"))
  /\ fst (find_endpoint_by_path_method no_json finance_catalog "/finance/payments/" "GET")
     = match exact_match_statement finance_catalog
               (_normalize_path "/finance/payments/") (Py.lower "GET") with
       | Ok (row :: _) =>
           Ok (Some (get_endpoint_details no_json finance_catalog (endpoint_id_ row)))
       | Ok [] => Ok None
       | Raise e => except_SQLAlchemyError "Database error finding endpoint" (Raise e)
       end.
Proof.
  split; [reflexivity|].
  apply (resolve_without_placeholder no_json finance_catalog "/finance/payments/" "GET").
  reflexivity.
Defined.

(** * Further properties of the modelled code *)

(** ** Sorting *)

Section OrderByPermutation.

Context {A : Type} (leb : A -> A -> bool).

Lemma insert_by_Permutation x l : Permutation (Sql.insert_by leb x l) (x :: l).
Proof.
  induction l as [|y l IH]; simpl; [reflexivity|].
  destruct (leb x y); [reflexivity|].
  rewrite IH. apply perm_swap.
Qed.

Lemma order_by_Permutation l : Permutation (Sql.order_by leb l) l.
Proof.
  induction l as [|x l IH]; simpl; [reflexivity|].
  rewrite insert_by_Permutation. now constructor.
Qed.

End OrderByPermutation.

Section OrderByTotal.

Context {A : Type} (leb : A -> A -> bool) (R : A -> A -> Prop).
Hypothesis leb_true : forall x y, leb x y = true -> R x y.
Hypothesis leb_false : forall x y, leb x y = false -> R y x.
Hypothesis R_trans : forall x y z, R x y -> R y z -> R x z.

Lemma insert_by_total_sorted x l :
  StronglySorted R l -> StronglySorted R (Sql.insert_by leb x l).
Proof.
  induction 1 as [|y l Hsorted IH Hall]; simpl.
  - repeat constructor.
  - destruct (leb x y) eqn:Hxy.
    + constructor; [now constructor|].
      constructor; [now apply leb_true|].
      eapply Forall_impl; [exact Hall|]. intros z Hz. simpl in *.
      eapply R_trans; [apply leb_true, Hxy|exact Hz].
    + constructor; [exact IH|].
      apply List.Forall_forall. intros z Hz. apply insert_by_In in Hz as [->|Hz].
      * now apply leb_false.
      * rewrite List.Forall_forall in Hall. now apply Hall.
Qed.

Lemma order_by_total_sorted l : StronglySorted R (Sql.order_by leb l).
Proof.
  induction l as [|x l IH]; simpl; [constructor|].
  now apply insert_by_total_sorted.
Qed.

End OrderByTotal.

(** ** The saved-query store: invariants *)

Lemma unique_pairs_insert_same self i q q' :
  unique_pairs self ->
  saved_queries self !! i = Some q ->
  query_path q' = query_path q -> query_method q' = query_method q ->
  forall seq,
    unique_pairs {| saved_queries := <[i := q']> (saved_queries self);
                    saved_queries_id_seq := seq |}.
Proof.
  intros Huniq Hi Hp Hm seq a b qa qb. simpl.
  rewrite !lookup_insert.
  destruct (decide (i = a)) as [<-|Ha], (decide (i = b)) as [<-|Hb]; auto.
  - intros Hqa Hqb. injection Hqa as <-. rewrite Hp, Hm. intros. eapply Huniq; eauto.
  - intros Hqa Hqb. injection Hqb as <-. rewrite Hp, Hm. intros. eapply Huniq; eauto.
  - intros. eapply Huniq; eauto.
Qed.

(** X1.  Every call on the store keeps its invariants: the id sequence
    stays ahead of the keys, no two rows share a pair (path, method), and
    every usage_count stays between 1 and the largest [Integer]. *)
Theorem store_invariants_kept self call :
  store_ok self -> store_ok (store_after self call).
Proof.
  intros (Hseq & Huniq & Hrange).
  split; [now apply sequence_ahead_after|].
  destruct call; simpl; try (split; assumption).
  - unfold save_query.
    destruct (first_by_path_method self path method) as [[qid ex]|] eqn:Hf.
    + apply first_by_path_method_Some in Hf as (Hl & Hp & Hm).
      destruct (query_usage_count ex + 1 <=? integer_max) eqn:Hmax; simpl;
        [|split; assumption].
      split; [now apply (unique_pairs_insert_same self qid ex)|].
      intros i q. simpl. rewrite lookup_insert. case_decide; [|apply Hrange].
      intros Hq. injection Hq as <-. simpl.
      apply Z.leb_le in Hmax. specialize (Hrange _ _ Hl). lia.
    + rewrite first_by_path_method_None in Hf.
      destruct (saved_queries self !! (saved_queries_id_seq self + 1)) eqn:Hn; simpl;
        [split; assumption|].
      split.
      * intros a b qa qb. simpl. rewrite !lookup_insert.
        destruct (decide (saved_queries_id_seq self + 1 = a)) as [<-|Ha],
                 (decide (saved_queries_id_seq self + 1 = b)) as [<-|Hb]; auto.
        -- intros Hqa Hqb Hp Hm. injection Hqa as <-. simpl in *.
           now destruct (Hf b qb Hqb).
        -- intros Hqa Hqb Hp Hm. injection Hqb as <-. simpl in *.
           now destruct (Hf a qa Hqa).
        -- intros. eapply Huniq; eauto.
      * intros i q. simpl. rewrite lookup_insert. case_decide; [|apply Hrange].
        intros Hq. injection Hq as <-. simpl. unfold integer_max. lia.
  - unfold increment_usage.
    destruct (saved_queries self !! query_id) as [ex|] eqn:Hl; simpl; [|split; assumption].
    destruct (query_usage_count ex + 1 <=? integer_max) eqn:Hmax; simpl;
      [|split; assumption].
    split; [now apply (unique_pairs_insert_same self query_id ex)|].
    intros i q. simpl. rewrite lookup_insert. case_decide; [|apply Hrange].
    intros Hq. injection Hq as <-. simpl.
    apply Z.leb_le in Hmax. specialize (Hrange _ _ Hl). lia.
  - split.
    + intros a b qa qb. simpl. rewrite !lookup_delete.
      repeat case_decide; try discriminate. apply Huniq.
    + intros i q. simpl. rewrite lookup_delete. case_decide; [discriminate|apply Hrange].
  - split.
    + intros a b qa qb. simpl. now rewrite lookup_empty.
    + intros i q. simpl. now rewrite lookup_empty.
Qed.

Lemma store_ok_empty : store_ok empty_store.
Proof.
  split; [exact sequence_ahead_empty|].
  split; intros ? ?; simpl; intros; rewrite lookup_empty in *; discriminate.
Qed.

Lemma store_invariants_kept_witness :
  store_ok empty_store
  /\ store_ok (store_after empty_store
                 (SaveQuery 1700000000 "Get all open tickets" "/service/tickets" "GET"
                    None None)).
Proof.
  split; [exact store_ok_empty|].
  apply (store_invariants_kept empty_store
           (SaveQuery 1700000000 "Get all open tickets" "/service/tickets" "GET"
              None None)).
  exact store_ok_empty.
Defined.

(** ** The saved-query store: round trips *)

(** X2.  A successful [save_query] can be read back: [find_query] on the
    same pair returns the row under the returned id, with the
    description, params, data and timestamp of the call; its usage_count
    is 1 for a new row and one more than before for an existing one. *)
Theorem save_then_find self now description path method params data query_id self' :
  unique_pairs self ->
  save_query self now description path method params data = (Ok query_id, self') ->
  exists q,
    find_query self' path method = (Ok (Some (query_id, q)), self')
    /\ saved_queries self' !! query_id = Some q
    /\ query_description q = description
    /\ query_path q = path /\ query_method q = method
    /\ query_params q = params /\ query_data q = data
    /\ query_timestamp q = now
    /\ match saved_queries self !! query_id with
       | Some old => query_usage_count q = query_usage_count old + 1
       | None => query_usage_count q = 1
       end.
Proof.
  intros Huniq Hsave. unfold save_query in Hsave. unfold find_query.
  destruct (first_by_path_method self path method) as [[qid ex]|] eqn:Hf.
  - apply first_by_path_method_Some in Hf as (Hl & Hp & Hm).
    destruct (query_usage_count ex + 1 <=? integer_max); [|discriminate].
    injection Hsave as <- <-. eexists. split; [|split; [apply lookup_insert_eq|]].
    + f_equal. f_equal. apply first_by_path_method_only; simpl; auto.
      * apply lookup_insert_eq.
      * intros j q'. rewrite lookup_insert. case_decide; [auto|].
        intros Hj Hp' Hm'. apply (Huniq j qid q' ex); congruence.
    + simpl. rewrite Hl. repeat split; auto.
  - rewrite first_by_path_method_None in Hf.
    destruct (saved_queries self !! (saved_queries_id_seq self + 1)) eqn:Hn;
      [discriminate|].
    injection Hsave as <- <-. eexists. split; [|split; [apply lookup_insert_eq|]].
    + f_equal. f_equal. apply first_by_path_method_only; simpl; auto.
      * apply lookup_insert_eq.
      * intros j q'. rewrite lookup_insert. case_decide; [auto|].
        intros Hj Hp' Hm'. now destruct (Hf j q' Hj).
    + simpl. rewrite Hn. repeat split; auto.
Qed.

Lemma unique_pairs_one_query : unique_pairs one_query_store.
Proof.
  intros i j q q'. simpl. rewrite !lookup_singleton.
  repeat case_decide; try discriminate. congruence.
Qed.

Lemma save_then_find_witness :
  unique_pairs one_query_store
  /\ save_query one_query_store 1700000060 "Open tickets" "/service/tickets" "GET"
       None (Some JNull)
     = (Ok 1,
        {| saved_queries :=
             {[ 1 := {| query_description := "Open tickets";
                        query_path := "/service/tickets";
                        query_method := "GET";
                        query_params := None;
                        query_data := Some JNull;
                        query_timestamp := 1700000060;
                        query_usage_count := 2 |} ]};
           saved_queries_id_seq := 1 |})
  /\ exists q,
      find_query
        {| saved_queries :=
             {[ 1 := {| query_description := "Open tickets";
                        query_path := "/service/tickets";
                        query_method := "GET";
                        query_params := None;
                        query_data := Some JNull;
                        query_timestamp := 1700000060;
                        query_usage_count := 2 |} ]};
           saved_queries_id_seq := 1 |}
        "/service/tickets" "GET"
      = (Ok (Some (1, q)),
         {| saved_queries :=
              {[ 1 := {| query_description := "Open tickets";
                         query_path := "/service/tickets";
                         query_method := "GET";
                         query_params := None;
                         query_data := Some JNull;
                         query_timestamp := 1700000060;
                         query_usage_count := 2 |} ]};
            saved_queries_id_seq := 1 |})
      /\ saved_queries
           {| saved_queries :=
                {[ 1 := {| query_description := "Open tickets";
                           query_path := "/service/tickets";
                           query_method := "GET";
                           query_params := None;
                           query_data := Some JNull;
                           query_timestamp := 1700000060;
                           query_usage_count := 2 |} ]};
              saved_queries_id_seq := 1 |} !! 1 = Some q
      /\ query_description q = "Open tickets"
      /\ query_path q = "/service/tickets" /\ query_method q = "GET"
      /\ query_params q = None /\ query_data q = Some JNull
      /\ query_timestamp q = 1700000060
      /\ match saved_queries one_query_store !! 1 with
         | Some old => query_usage_count q = query_usage_count old + 1
         | None => query_usage_count q = 1
         end.
Proof.
  assert (Hsave :
    save_query one_query_store 1700000060 "Open tickets" "/service/tickets" "GET"
      None (Some JNull)
    = (Ok 1,
       {| saved_queries :=
            {[ 1 := {| query_description := "Open tickets";
                       query_path := "/service/tickets";
                       query_method := "GET";
                       query_params := None;
                       query_data := Some JNull;
                       query_timestamp := 1700000060;
                       query_usage_count := 2 |} ]};
          saved_queries_id_seq := 1 |})) by (vm_compute; reflexivity).
  split; [exact unique_pairs_one_query|]. split; [exact Hsave|].
  exact (save_then_find one_query_store 1700000060 "Open tickets" "/service/tickets"
           "GET" None (Some JNull) 1 _ unique_pairs_one_query Hsave).
Defined.

(** X3.  After [delete_query] on the id of a stored row, [find_query] on
    that row's pair finds nothing, every other row is still found under
    its own pair, and the id sequence is where it was. *)
Theorem delete_then_find self query_id q :
  unique_pairs self ->
  saved_queries self !! query_id = Some q ->
  fst (find_query (snd (delete_query self query_id)) (query_path q) (query_method q))
  = Ok None
  /\ (forall j q', j <> query_id -> saved_queries self !! j = Some q' ->
        fst (find_query (snd (delete_query self query_id))
               (query_path q') (query_method q'))
        = Ok (Some (j, q')))
  /\ saved_queries_id_seq (snd (delete_query self query_id)) = saved_queries_id_seq self.
Proof.
  intros Huniq Hq. unfold find_query, delete_query. simpl. split; [|split; [|reflexivity]].
  - f_equal. apply first_by_path_method_None. intros i q'. simpl.
    rewrite lookup_delete. case_decide as Hi; [discriminate|].
    intros Hi' [Hp Hm]. apply Hi. symmetry. apply (Huniq i query_id q' q); auto.
  - intros j q' Hj Hq'. f_equal. f_equal. apply first_by_path_method_only; simpl; auto.
    + now rewrite lookup_delete_ne.
    + intros k q''. rewrite lookup_delete. case_decide; [discriminate|].
      intros Hk Hp Hm. apply (Huniq k j q'' q'); auto.
Qed.

Lemma delete_then_find_witness :
  unique_pairs one_query_store
  /\ saved_queries one_query_store !! 1 = Some tickets_query
  /\ fst (find_query (snd (delete_query one_query_store 1))
            (query_path tickets_query) (query_method tickets_query))
     = Ok None
  /\ (forall j q', j <> 1 -> saved_queries one_query_store !! j = Some q' ->
        fst (find_query (snd (delete_query one_query_store 1))
               (query_path q') (query_method q'))
        = Ok (Some (j, q')))
  /\ saved_queries_id_seq (snd (delete_query one_query_store 1))
     = saved_queries_id_seq one_query_store.
Proof.
  split; [exact unique_pairs_one_query|]. split; [reflexivity|].
  apply (delete_then_find one_query_store 1 tickets_query);
    [exact unique_pairs_one_query|reflexivity].
Defined.

(** X4.  An id that is not in the table makes [delete_query] and
    [increment_usage] do nothing: no error, and the store is the one
    before. *)
Theorem absent_id_changes_nothing self now query_id :
  saved_queries self !! query_id = None ->
  delete_query self query_id = (Ok PyNone, self)
  /\ increment_usage self now query_id = (Ok (), self).
Proof.
  intros Habsent. unfold delete_query, increment_usage. rewrite Habsent.
  split; [|reflexivity].
  rewrite (delete_id _ _ Habsent). now destruct self.
Qed.

Lemma absent_id_changes_nothing_witness :
  saved_queries one_query_store !! 7 = None
  /\ delete_query one_query_store 7 = (Ok PyNone, one_query_store)
  /\ increment_usage one_query_store 1700000060 7 = (Ok (), one_query_store).
Proof.
  split; [reflexivity|].
  apply (absent_id_changes_nothing one_query_store 1700000060 7). reflexivity.
Defined.

(** X5.  [get_all_queries] lists every row of the table exactly once,
    under its id, most used first and, among equally used rows, most
    recent first; it leaves the store as it is. *)
Theorem get_all_queries_lists_table self :
  exists listed,
    get_all_queries self = (Ok listed, self)
    /\ Permutation listed (table_entries self)
    /\ StronglySorted usage_then_recency_le listed
    /\ List.NoDup (List.map fst listed)
    /\ forall query_id q,
         In (query_id, q) listed <-> saved_queries self !! query_id = Some q.
Proof.
  eexists. split; [reflexivity|].
  assert (Hperm : Permutation
            (Sql.order_by usage_then_recency_leb (map_to_list (saved_queries self)))
            (table_entries self)) by apply order_by_Permutation.
  split; [exact Hperm|]. split; [|split].
  - apply order_by_total_sorted.
    + intros x y. unfold usage_then_recency_leb, usage_then_recency_le.
      destruct (_ =? _) eqn:He; [apply Z.eqb_eq in He|apply Z.eqb_neq in He];
        intros H; apply Z.leb_le in H; lia.
    + intros x y. unfold usage_then_recency_leb, usage_then_recency_le.
      destruct (_ =? _) eqn:He; [apply Z.eqb_eq in He|apply Z.eqb_neq in He];
        intros H; apply Z.leb_gt in H; lia.
    + intros x y z. unfold usage_then_recency_le. lia.
  - apply NoDup_ListNoDup. rewrite Hperm. apply NoDup_fst_map_to_list.
  - intros query_id q. rewrite order_by_In, <- list_elem_of_In.
    apply elem_of_map_to_list.
Qed.

(** X6.  [clear_all] returns the number of rows [get_all_queries] listed
    just before it, and afterwards [get_all_queries] lists nothing and
    [find_query] finds nothing; the id sequence is not reset. *)
Theorem clear_all_counts_and_empties self :
  (exists listed,
      fst (get_all_queries self) = Ok listed
      /\ fst (clear_all self) = Ok (Z.of_nat (length listed)))
  /\ fst (get_all_queries (snd (clear_all self))) = Ok []
  /\ (forall path method, fst (find_query (snd (clear_all self)) path method) = Ok None)
  /\ saved_queries_id_seq (snd (clear_all self)) = saved_queries_id_seq self.
Proof.
  split; [|split; [|split]].
  - eexists. split; [reflexivity|]. simpl.
    rewrite order_by_length. do 2 f_equal. symmetry. apply length_map_to_list.
  - simpl. now rewrite map_to_list_empty.
  - intros path method. reflexivity.
  - reflexivity.
Qed.

(** ** The saved-query store: search *)

(** For a text without [%], [_] and backslash, the pattern [%text%]
    selects exactly the strings that contain the text, letter case
    aside. *)
Lemma substring_pattern_plain_iff text toks s :
  Spec.wildcard_free text ->
  Sql.ilike_pattern ("%" ++ text ++ "%") = Ok toks ->
  Sql.imatches toks (Some s) = true <-> Spec.substring (Py.lower text) (Py.lower s).
Proof.
  intros Hplain Hpat.
  destruct (substring_pattern_ok text) as (toks' & Hparse & Hpat').
  rewrite Hpat in Hpat'. injection Hpat' as ->.
  rewrite (like_parse_plain _ "%" (lower_wildcard_free _ Hplain)) in Hparse.
  simpl in Hparse. injection Hparse as <-.
  unfold Sql.imatches. simpl.
  change (Sql.like_toks (Sql.AnySeq :: literals (Py.lower text) ++ [Sql.AnySeq])%list
            (Py.lower s) = true
          <-> Spec.substring (Py.lower text) (Py.lower s)).
  rewrite like_toks_any_iff. unfold Spec.substring. split.
  - intros (pre & post & Heq & Hm).
    apply like_toks_literal_prefix in Hm as [post' ->]. eauto.
  - intros (pre & post & Heq). exists pre, (Py.lower text ++ post).
    split; [exact Heq|]. apply like_toks_literal_prefix. eauto.
Qed.

Lemma like_toks_any_all s : Sql.like_toks [Sql.AnySeq] s = true.
Proof.
  induction s as [|c s IH]; [reflexivity|].
  rewrite like_toks_any, IH. apply orb_true_r.
Qed.

Lemma imatches_everything s : Sql.imatches [Sql.AnySeq; Sql.AnySeq] (Some s) = true.
Proof.
  change (Sql.like_toks [Sql.AnySeq; Sql.AnySeq] (Py.lower s) = true).
  now rewrite like_toks_any, like_toks_any_all.
Qed.

Lemma filter_everything {A} (f : A -> bool) (l : list A) :
  (forall x, In x l -> f x = true) -> List.filter f l = l.
Proof.
  induction l as [|x l IH]; intros H; simpl; [reflexivity|].
  rewrite (H x (or_introl eq_refl)). f_equal. apply IH. intros y Hy. apply H. now right.
Qed.

Lemma usage_then_recency_sorted (l : list SavedQueryDict) :
  StronglySorted usage_then_recency_le (Sql.order_by usage_then_recency_leb l).
Proof.
  apply order_by_total_sorted.
  - intros x y. unfold usage_then_recency_leb, usage_then_recency_le.
    destruct (_ =? _) eqn:He; [apply Z.eqb_eq in He|apply Z.eqb_neq in He];
      intros H; apply Z.leb_le in H; lia.
  - intros x y. unfold usage_then_recency_leb, usage_then_recency_le.
    destruct (_ =? _) eqn:He; [apply Z.eqb_eq in He|apply Z.eqb_neq in He];
      intros H; apply Z.leb_gt in H; lia.
  - intros x y z. unfold usage_then_recency_le. lia.
Qed.

(** X7.  For a search term of ASCII characters without NUL,
    [search_queries] does not fail and leaves the store as it is.  It
    returns rows of the table, each at most once, most used first and
    then most recent first; with the empty term it returns what
    [get_all_queries] returns; and with a term free of [%], [_] and
    backslash it returns exactly the rows whose description or path
    contains the term, letter case aside. *)
Theorem search_queries_spec self search_term :
  Spec.ascii_text search_term ->
  exists found,
    search_queries self search_term = (Ok found, self)
    /\ StronglySorted usage_then_recency_le found
    /\ List.NoDup (List.map fst found)
    /\ (forall entry, In entry found -> In entry (table_entries self))
    /\ (search_term = "" -> get_all_queries self = (Ok found, self))
    /\ (Spec.wildcard_free search_term ->
        forall query_id q,
          In (query_id, q) found
          <-> saved_queries self !! query_id = Some q
              /\ (Spec.substring (Py.lower search_term) (Py.lower (query_description q))
                  \/ Spec.substring (Py.lower search_term) (Py.lower (query_path q)))).
Proof.
  intros _. unfold search_queries.
  destruct (substring_pattern_ok search_term) as (toks & Hparse & Hpat).
  rewrite Hpat. simpl mbind.
  set (selected := fun entry : Z * SavedQuery =>
         let '(_, q) := entry in
         Sql.imatches (Sql.AnySeq :: toks) (Some (query_description q))
         || Sql.imatches (Sql.AnySeq :: toks) (Some (query_path q))).
  eexists. split; [reflexivity|].
  split; [apply usage_then_recency_sorted|].
  split; [|split; [|split]].
  - apply NoDup_ListNoDup.
    rewrite (order_by_Permutation usage_then_recency_leb).
    apply (NoDup_fmap_2_strong fst).
    + intros [i q] [j q'] Hi Hj Heq. simpl in Heq. subst j.
      apply list_elem_of_In, filter_In in Hi as [Hi _].
      apply list_elem_of_In, filter_In in Hj as [Hj _].
      apply list_elem_of_In, elem_of_map_to_list in Hi, Hj. congruence.
    + apply NoDup_ListNoDup, List.NoDup_filter, NoDup_ListNoDup, NoDup_map_to_list.
  - intros entry He. apply order_by_In, filter_In in He as [He _]. exact He.
  - intros ->. unfold get_all_queries. do 2 f_equal. f_equal.
    symmetry. apply filter_everything. intros [i q] _.
    vm_compute in Hpat. injection Hpat as <-.
    simpl. now rewrite !imatches_everything.
  - intros Hplain query_id q.
    rewrite order_by_In, filter_In, <- list_elem_of_In, elem_of_map_to_list.
    unfold selected. cbn beta iota. rewrite orb_true_iff.
    rewrite !(substring_pattern_plain_iff search_term _ _ Hplain Hpat).
    reflexivity.
Qed.

Lemma search_queries_spec_witness :
  Spec.ascii_text "TICKET"
  /\ exists found,
       search_queries one_query_store "TICKET" = (Ok found, one_query_store)
       /\ (forall query_id q,
             In (query_id, q) found
             <-> saved_queries one_query_store !! query_id = Some q
                 /\ (Spec.substring (Py.lower "TICKET") (Py.lower (query_description q))
                     \/ Spec.substring (Py.lower "TICKET") (Py.lower (query_path q)))).
Proof.
  assert (Hascii : Spec.ascii_text "TICKET") by ascii_text_literal.
  split; [exact Hascii|].
  destruct (search_queries_spec one_query_store "TICKET" Hascii)
    as (found & Hfound & _ & _ & _ & _ & Hexact).
  exists found. split; [exact Hfound|]. apply Hexact.
  unfold Spec.wildcard_free, Spec.all_in. simpl. repeat constructor.
Defined.

(** ** The path normalizer: fixed points *)

Lemma rstrip_keeps p s :
  Forall (fun c => p c = false) (Spec.chars s) -> Py.rstrip p s = s.
Proof.
  induction s as [|c s IH]; [reflexivity|].
  rewrite chars_String, Forall_cons. intros [Hc Hs]. simpl.
  rewrite (IH Hs). destruct s; [now rewrite Hc|reflexivity].
Qed.

Lemma lstrip_keeps p s :
  Forall (fun c => p c = false) (Spec.chars s) -> Py.lstrip p s = s.
Proof.
  destruct s as [|c s]; [reflexivity|].
  rewrite chars_String, Forall_cons. intros [Hc _]. simpl. now rewrite Hc.
Qed.

Lemma rstrip_endswith d s :
  Py.endswith d s = false -> Py.rstrip (Py.char_is d) s = s.
Proof.
  induction s as [|c s IH]; [reflexivity|]. simpl.
  destruct s as [|c' s'].
  - intros ->. reflexivity.
  - intros H. rewrite (IH H). reflexivity.
Qed.

Lemma collapse_keeps s : has_double_slash s = false -> collapse_slashes s = s.
Proof.
  induction s as [|c s IH]; [reflexivity|]. simpl.
  intros H. apply orb_false_iff in H as [Hc Hs]. rewrite (IH Hs).
  destruct (Py.char_is "/" c); [|reflexivity].
  simpl in Hc. now rewrite Hc.
Qed.

Lemma normal_form_kept path :
  Py.startswith "/" path = true ->
  has_double_slash path = false ->
  path = "/" \/ Py.endswith "/" path = false ->
  Py.strip path = path ->
  _normalize_path path = path.
Proof.
  intros Hstart Hdouble Hend Hstrip. unfold _normalize_path.
  destruct path as [|c rest]; [discriminate|]. cbn [Py.is_empty].
  rewrite Hstrip, (collapse_keeps _ Hdouble), Hstart. cbn [negb].
  destruct Hend as [Hroot|Hend].
  - injection Hroot as -> ->. reflexivity.
  - rewrite Hend, andb_false_r. reflexivity.
Qed.

(** X8.  A path in normal form is a fixed point of [_normalize_path]: a
    string that starts with a slash, has no two slashes in a row, ends in
    a slash only when it is the root, and has no white space at its ends
    is returned unchanged. *)
Theorem normalize_path_fixed_point path :
  Py.startswith "/" path = true ->
  has_double_slash path = false ->
  path = "/" \/ Py.endswith "/" path = false ->
  Py.strip path = path ->
  _normalize_path path = path.
Proof. apply normal_form_kept. Qed.

Lemma normalize_path_fixed_point_witness :
  Py.startswith "/" "/service/tickets" = true
  /\ has_double_slash "/service/tickets" = false
  /\ ("/service/tickets" = "/" \/ Py.endswith "/" "/service/tickets" = false)
  /\ Py.strip "/service/tickets" = "/service/tickets"
  /\ _normalize_path "/service/tickets" = "/service/tickets".
Proof.
  repeat (split; [first [reflexivity | right; reflexivity]|]).
  apply (normalize_path_fixed_point "/service/tickets");
    first [reflexivity | right; reflexivity].
Defined.

(** The normalizer adds no character but the slash: what holds of the
    slash and of every character of the path holds of every character of
    the result. *)
Section CharactersKept.

Variable P : ascii -> Prop.

Lemma chars_lstrip p s :
  Forall P (Spec.chars s) -> Forall P (Spec.chars (Py.lstrip p s)).
Proof.
  induction s as [|c s IH]; [auto|].
  simpl Py.lstrip. destruct (p c); [|auto].
  rewrite chars_String, Forall_cons. intros [_ Hs]. auto.
Qed.

Lemma chars_rstrip p s :
  Forall P (Spec.chars s) -> Forall P (Spec.chars (Py.rstrip p s)).
Proof.
  induction s as [|c s IH]; [auto|].
  rewrite chars_String, Forall_cons. intros [Hc Hs]. simpl.
  specialize (IH Hs). destruct (Py.rstrip p s).
  - destruct (p c); [constructor|]. rewrite chars_String. now repeat constructor.
  - rewrite chars_String. now constructor.
Qed.

Lemma chars_collapse s :
  Forall P (Spec.chars s) -> Forall P (Spec.chars (collapse_slashes s)).
Proof.
  induction s as [|c s IH]; [auto|].
  rewrite chars_String, Forall_cons. intros [Hc Hs]. simpl.
  specialize (IH Hs).
  destruct (Py.char_is "/" c); [destruct (Py.startswith "/" s)|];
    rewrite ?chars_String; auto.
Qed.

Lemma chars_normalize path :
  P "/"%char ->
  Forall P (Spec.chars path) -> Forall P (Spec.chars (_normalize_path path)).
Proof.
  intros Hslash H. unfold _normalize_path.
  destruct (Py.is_empty path); [repeat constructor; exact Hslash|].
  assert (Hc : Forall P (Spec.chars (collapse_slashes (Py.strip path)))).
  { apply chars_collapse. unfold Py.strip.
    now apply chars_rstrip, chars_lstrip. }
  set (c := collapse_slashes (Py.strip path)) in *.
  assert (Hn : Forall P (Spec.chars
                 (if negb (Py.startswith "/" c) then String "/" c else c))).
  { destruct (negb _); [|exact Hc]. rewrite chars_String. now constructor. }
  destruct (_ && _); [now apply chars_rstrip|exact Hn].
Qed.

End CharactersKept.

Lemma no_space_normalize path : no_space path -> no_space (_normalize_path path).
Proof. apply chars_normalize. reflexivity. Qed.

Lemma strip_keeps s : no_space s -> Py.strip s = s.
Proof.
  intros H. unfold Py.strip. rewrite (lstrip_keeps _ _ H). now apply rstrip_keeps.
Qed.

(** X9.  On a path without white space [_normalize_path] is idempotent:
    normalizing a normalized path changes nothing. *)
Theorem normalize_path_idempotent path :
  no_space path ->
  _normalize_path (_normalize_path path) = _normalize_path path.
Proof.
  intros Hspace.
  destruct (normalize_path_shape path) as (Hstart & Hdouble & Hend & _).
  apply normal_form_kept; auto.
  apply strip_keeps. now apply no_space_normalize.
Qed.

Lemma normalize_path_idempotent_witness :
  no_space "service//tickets/"
  /\ _normalize_path (_normalize_path "service//tickets/")
     = _normalize_path "service//tickets/".
Proof.
  assert (H : no_space "service//tickets/").
  { unfold no_space. simpl. repeat (constructor; [reflexivity|]). constructor. }
  split; [exact H|].
  apply (normalize_path_idempotent "service//tickets/"). exact H.
Defined.

(** White space inside the path is what breaks idempotence. *)
Example normalize_path_twice_differs :
  _normalize_path "/a /" = "/a " /\ _normalize_path "/a " = "/a".
Proof. split; reflexivity. Qed.

(** ** The generic pattern of a path template *)

Lemma generic_pattern_sub path :
  _convert_to_generic_pattern path = sub_placeholders 0 path.
Proof. now destruct path. Qed.

Lemma length_append (a b : string) :
  String.length (a ++ b) = (String.length a + String.length b)%nat.
Proof. induction a as [|c a IH]; [reflexivity|]. rewrite append_String. simpl. now rewrite IH. Qed.

Lemma append_assoc (a b c : string) : (a ++ b) ++ c = a ++ b ++ c.
Proof.
  induction a as [|x a IH]; [now rewrite !append_empty|].
  now rewrite !append_String, IH.
Qed.

Lemma sub_placeholders_skip a rest :
  sub_placeholders (String.length a) (a ++ rest) = sub_placeholders 0 rest.
Proof.
  induction a as [|c a IH]; [now rewrite append_empty|].
  rewrite append_String. simpl. exact IH.
Qed.

Lemma until_rbrace_found name rest :
  lacks "}" name -> until_rbrace (name ++ "}" ++ rest) = Some name.
Proof.
  unfold lacks. induction name as [|c name IH].
  - intros _. rewrite append_empty, append_String. reflexivity.
  - rewrite chars_String, Forall_cons. intros [Hc Hname].
    rewrite append_String. simpl.
    rewrite (proj2 (char_is_false _ _) Hc), (IH Hname). reflexivity.
Qed.

Lemma until_rbrace_Some s name :
  until_rbrace s = Some name ->
  exists rest, s = name ++ "}" ++ rest /\ lacks "}" name.
Proof.
  revert name. induction s as [|c s IH]; [discriminate|]. simpl. intros name.
  destruct (Py.char_is "}" c) eqn:Hc.
  - intros [= <-]. apply char_is_true in Hc as ->. exists s.
    split; [now rewrite append_empty, append_String, append_empty|constructor].
  - destruct (until_rbrace s) as [name'|]; [|discriminate]. intros [= <-].
    destruct (IH name' eq_refl) as (rest & -> & Hname). exists rest.
    split; [now rewrite append_String|].
    unfold lacks. rewrite chars_String. constructor; [|exact Hname].
    now apply char_is_false.
Qed.

Lemma sub_placeholders_literal text rest :
  lacks "{" text ->
  sub_placeholders 0 (text ++ rest) = text ++ sub_placeholders 0 rest.
Proof.
  unfold lacks. induction text as [|c text IH].
  - intros _. now rewrite !append_empty.
  - rewrite chars_String, Forall_cons. intros [Hc Htext].
    rewrite !append_String. simpl.
    rewrite (proj2 (char_is_false _ _) Hc), (IH Htext). reflexivity.
Qed.

Lemma sub_placeholders_placeholder name rest :
  name <> "" -> lacks "}" name ->
  sub_placeholders 0 ("{" ++ name ++ "}" ++ rest)
  = "{param}" ++ sub_placeholders 0 rest.
Proof.
  intros Hne Hname. rewrite append_String, append_empty.
  cbn [sub_placeholders]. change (Py.char_is "{" "{") with true. cbn iota.
  rewrite (until_rbrace_found _ _ Hname).
  destruct name as [|c name]; [congruence|].
  f_equal.
  replace (S (String.length (String c name)))
    with (String.length (String c name ++ "}")).
  - rewrite <- (append_assoc (String c name) "}" rest).
    apply sub_placeholders_skip.
  - rewrite length_append. simpl. lia.
Qed.

Lemma sub_placeholders_no_rbrace s :
  until_rbrace s = None -> sub_placeholders 0 s = s.
Proof.
  induction s as [|c s IH]; [reflexivity|]. simpl.
  destruct (Py.char_is "}" c); [discriminate|].
  destruct (until_rbrace s); [discriminate|]. intros _.
  rewrite (IH eq_refl). now destruct (Py.char_is "{" c).
Qed.

Lemma sub_placeholders_twice n :
  forall s, (String.length s <= n)%nat ->
    sub_placeholders 0 (sub_placeholders 0 s) = sub_placeholders 0 s.
Proof.
  induction n as [n IH] using lt_wf_ind. intros [|c s] Hlen; [reflexivity|].
  simpl in Hlen.
  assert (Hrest : forall r, (String.length r <= String.length s)%nat ->
            sub_placeholders 0 (sub_placeholders 0 r) = sub_placeholders 0 r).
  { intros r Hr. apply (IH (String.length s)); lia. }
  cbn [sub_placeholders]. destruct (Py.char_is "{" c) eqn:Hc.
  - apply char_is_true in Hc as ->.
    destruct (until_rbrace s) as [[|d name]|] eqn:Hs.
    + destruct (until_rbrace_Some _ _ Hs) as (rest & -> & _).
      rewrite append_empty, append_String, append_empty.
      cbn [sub_placeholders]. change (Py.char_is "{" "}") with false. cbn iota.
      cbn [sub_placeholders until_rbrace].
      change (Py.char_is "{" "{") with true.
      change (Py.char_is "}" "}") with true.
      change (Py.char_is "{" "}") with false. cbn iota.
      do 2 f_equal. apply Hrest.
      rewrite append_empty, append_String, append_empty. simpl. lia.
    + destruct (until_rbrace_Some _ _ Hs) as (rest & -> & Hname).
      rewrite <- (append_assoc (String d name) "}" rest).
      replace (S (String.length (String d name)))
        with (String.length (String d name ++ "}"))
        by (rewrite length_append; simpl; lia).
      rewrite sub_placeholders_skip.
      transitivity ("{param}" ++ sub_placeholders 0 (sub_placeholders 0 rest)).
      { apply (sub_placeholders_placeholder "param"); [discriminate|].
        unfold lacks. simpl. repeat (constructor; [discriminate|]). constructor. }
      apply (f_equal (String.append "{param}")). apply Hrest.
      rewrite !length_append. lia.
    + rewrite (sub_placeholders_no_rbrace _ Hs).
      cbn [sub_placeholders]. change (Py.char_is "{" "{") with true. cbn iota.
      rewrite Hs, (sub_placeholders_no_rbrace _ Hs). reflexivity.
  - cbn [sub_placeholders]. rewrite Hc. f_equal. now apply Hrest.
Qed.

(** X10.  [_convert_to_generic_pattern] is idempotent on every string:
    the generic pattern of a generic pattern is itself. *)
Theorem generic_pattern_idempotent path :
  _convert_to_generic_pattern (_convert_to_generic_pattern path)
  = _convert_to_generic_pattern path.
Proof. rewrite !generic_pattern_sub. exact (sub_placeholders_twice _ _ (le_n _)). Qed.

Lemma sub_placeholders_render pieces :
  Forall well_formed_piece pieces ->
  sub_placeholders 0 (render pieces) = render (List.map generic_piece pieces).
Proof.
  induction 1 as [|p pieces Hp _ IH]; [reflexivity|].
  cbn [render List.map]. destruct p as [text|name]; cbn [render_piece generic_piece].
  - rewrite (sub_placeholders_literal _ _ Hp), IH. reflexivity.
  - destruct Hp as [Hne Hname].
    rewrite !append_assoc, (sub_placeholders_placeholder _ _ Hne Hname), IH.
    reflexivity.
Qed.

(** X11.  On a path template made of literal text without opening brace
    and of placeholders with a non-empty name without closing brace,
    [_convert_to_generic_pattern] renames every placeholder to [{param}]
    and keeps the literal text; so two templates that differ in the names
    of their placeholders only have the same generic pattern. *)
Theorem generic_pattern_of_template pieces :
  Forall well_formed_piece pieces ->
  _convert_to_generic_pattern (render pieces)
  = render (List.map generic_piece pieces)
  /\ forall pieces',
       Forall well_formed_piece pieces' ->
       List.map generic_piece pieces' = List.map generic_piece pieces ->
       _convert_to_generic_pattern (render pieces')
       = _convert_to_generic_pattern (render pieces).
Proof.
  intros Hpieces. rewrite generic_pattern_sub, (sub_placeholders_render _ Hpieces).
  split; [reflexivity|]. intros pieces' Hpieces' Hsame.
  rewrite generic_pattern_sub, (sub_placeholders_render _ Hpieces'). now f_equal.
Qed.

Lemma generic_pattern_of_template_witness :
  Forall well_formed_piece
    [Literal "/service/tickets/"; Placeholder "parentId"; Literal "/activities"]
  /\ _convert_to_generic_pattern "/service/tickets/{parentId}/activities"
     = "/service/tickets/{param}/activities".
Proof.
  assert (H : Forall well_formed_piece
    [Literal "/service/tickets/"; Placeholder "parentId"; Literal "/activities"]).
  { repeat constructor; try discriminate. }
  split; [exact H|].
  exact (proj1 (generic_pattern_of_template _ H)).
Defined.

(** ** Splitting a path and joining its pieces *)

Lemma join_cons sep x y l :
  Py.join sep (x :: y :: l) = x ++ sep ++ Py.join sep (y :: l).
Proof. reflexivity. Qed.

Lemma join_split sep s : Py.join (String sep "") (Py.split_on sep s) = s.
Proof.
  induction s as [|c s IH]; [reflexivity|]. cbn [Py.split_on].
  destruct (split_on_nonempty sep s) as (seg & segs & Hs). rewrite Hs in *.
  destruct (Py.char_is sep c) eqn:Hc.
  - apply char_is_true in Hc as ->.
    rewrite join_cons, IH, append_empty, append_String, append_empty. reflexivity.
  - destruct segs as [|y l].
    + change (Py.join (String sep "") [seg]) with seg in IH.
      change (Py.join (String sep "") [String c seg]) with (String c seg).
      now rewrite IH.
    + rewrite join_cons in IH |- *. rewrite append_String, IH. reflexivity.
Qed.

Lemma split_on_lacks sep a : lacks sep a -> Py.split_on sep a = [a].
Proof.
  unfold lacks. induction a as [|c a IH]; [reflexivity|].
  rewrite chars_String, Forall_cons. intros [Hc Ha]. cbn [Py.split_on].
  rewrite (proj2 (char_is_false _ _) Hc), (IH Ha). reflexivity.
Qed.

Lemma split_on_app sep a rest :
  lacks sep a ->
  Py.split_on sep (a ++ String sep rest) = a :: Py.split_on sep rest.
Proof.
  unfold lacks. induction a as [|c a IH].
  - intros _. rewrite append_empty. cbn [Py.split_on].
    now rewrite (proj2 (char_is_true sep sep) eq_refl).
  - rewrite chars_String, Forall_cons. intros [Hc Ha].
    rewrite append_String. cbn [Py.split_on].
    rewrite (proj2 (char_is_false _ _) Hc), (IH Ha). reflexivity.
Qed.

Lemma split_join sep seg segs :
  Forall (lacks sep) (seg :: segs) ->
  Py.split_on sep (Py.join (String sep "") (seg :: segs)) = seg :: segs.
Proof.
  revert seg. induction segs as [|y l IH]; intros seg H.
  - apply split_on_lacks. now inversion H.
  - apply Forall_cons in H as [Hseg Hrest].
    rewrite join_cons, append_String, append_empty, (split_on_app _ _ _ Hseg), (IH _ Hrest).
    reflexivity.
Qed.

Lemma split_on_pieces sep s : Forall (lacks sep) (Py.split_on sep s).
Proof.
  induction s as [|c s IH]; [repeat constructor|]. cbn [Py.split_on].
  destruct (Py.char_is sep c) eqn:Hc; [constructor; [constructor|exact IH]|].
  apply char_is_false in Hc.
  destruct (Py.split_on sep s) as [|seg segs].
  - repeat constructor. exact Hc.
  - apply Forall_cons in IH as [Hseg Hsegs]. constructor; [|exact Hsegs].
    unfold lacks. rewrite chars_String. now constructor.
Qed.

(** ** The parameterizer, piece by piece *)

Lemma convert_segment_known self segment :
  fst (_is_known_path_segment self segment) = true ->
  fst (_convert_segment_to_parameter self segment) = segment.
Proof.
  intros Hknown. unfold _convert_segment_to_parameter.
  destruct (Py.is_empty segment); [reflexivity|].
  destruct (_is_known_path_segment self segment) as [known self'].
  simpl in Hknown. now subst.
Qed.

Lemma convert_segment_cases self segment :
  fst (_convert_segment_to_parameter self segment) = segment
  \/ (fst (_convert_segment_to_parameter self segment) = "{id}"
      /\ fst (_is_known_path_segment self segment) = false
      /\ looks_like_parameter segment = true).
Proof.
  destruct (fst (_is_known_path_segment self segment)) eqn:Hknown.
  - left. now apply convert_segment_known.
  - rewrite (convert_segment_unknown _ _ Hknown).
    destruct (looks_like_parameter segment); auto.
Qed.

Lemma parameterized_path_split self path :
  Py.is_empty path || String.eqb path "/" = false ->
  Py.split_on "/" (fst (_convert_to_parameterized_path self path))
  = List.map (fun segment => fst (_convert_segment_to_parameter self segment))
      (Py.split_on "/" (split_form path)).
Proof.
  intros Hroot. rewrite (parameterized_path_pointwise _ _ Hroot).
  change (let stripped := Py.rstrip (Py.char_is "/") path in
          if negb (Py.startswith "/" stripped) then String "/" stripped else stripped)
    with (split_form path).
  pose proof (split_on_pieces "/" (split_form path)) as Hpieces.
  destruct (split_on_nonempty "/" (split_form path)) as (seg & segs & Hs).
  rewrite Hs in *. cbn [List.map]. apply split_join.
  change (Forall (lacks "/")
            (List.map (fun segment => fst (_convert_segment_to_parameter self segment))
               (seg :: segs))).
  apply List.Forall_forall. intros converted Hin.
  apply in_map_iff in Hin as (segment & <- & Hin).
  destruct (convert_segment_cases self segment) as [-> | (-> & _)].
  - exact (proj1 (List.Forall_forall _ _) Hpieces _ Hin).
  - repeat constructor; discriminate.
Qed.

(** X12.  [_convert_to_parameterized_path] works piece by piece: the
    pieces of its result between slashes are, one for one, those of the
    path (trailing slashes removed, a leading slash added); each is kept
    as it is or replaced by [{id}], and is replaced only when it is not
    a known segment and looks like a parameter value. *)
Theorem parameterized_path_pieces self path :
  Py.is_empty path || String.eqb path "/" = false ->
  Forall2
    (fun segment converted =>
       converted = segment
       \/ (converted = "{id}"
           /\ fst (_is_known_path_segment self segment) = false
           /\ looks_like_parameter segment = true))
    (Py.split_on "/" (split_form path))
    (Py.split_on "/" (fst (_convert_to_parameterized_path self path))).
Proof.
  intros Hroot. rewrite (parameterized_path_split _ _ Hroot).
  induction (Py.split_on "/" (split_form path)) as [|segment rest IH];
    cbn [List.map]; constructor; [|exact IH].
  destruct (convert_segment_cases self segment) as [H|H]; rewrite (proj1 H) || rewrite H; auto.
  right. tauto.
Qed.

Lemma parameterized_path_pieces_witness :
  Py.is_empty "/service/tickets/12345/" || String.eqb "/service/tickets/12345/" "/" = false
  /\ Forall2
       (fun segment converted =>
          converted = segment
          \/ (converted = "{id}"
              /\ fst (_is_known_path_segment service_catalog segment) = false
              /\ looks_like_parameter segment = true))
       (Py.split_on "/" (split_form "/service/tickets/12345/"))
       (Py.split_on "/"
          (fst (_convert_to_parameterized_path service_catalog "/service/tickets/12345/"))).
Proof.
  split; [reflexivity|].
  apply (parameterized_path_pieces service_catalog "/service/tickets/12345/").
  reflexivity.
Defined.

(** X13.  A path whose pieces are all known segments or do not look like
    parameter values comes back from [_convert_to_parameterized_path]
    with its trailing slashes removed and a leading slash, and otherwise
    unchanged. *)
Theorem parameterized_path_literal self path :
  Py.is_empty path || String.eqb path "/" = false ->
  (forall segment,
     In segment (Py.split_on "/" (split_form path)) ->
     fst (_is_known_path_segment self segment) = true
     \/ looks_like_parameter segment = false) ->
  fst (_convert_to_parameterized_path self path) = split_form path.
Proof.
  intros Hroot Hliteral. rewrite (parameterized_path_pointwise _ _ Hroot).
  change (let stripped := Py.rstrip (Py.char_is "/") path in
          if negb (Py.startswith "/" stripped) then String "/" stripped else stripped)
    with (split_form path).
  rewrite <- (join_split "/" (split_form path)) at 2. f_equal.
  rewrite <- (map_id (Py.split_on "/" (split_form path))) at 2.
  apply map_ext_in. intros segment Hin.
  destruct (Hliteral _ Hin) as [H|H].
  - now apply convert_segment_known.
  - now apply convert_segment_literal.
Qed.

Lemma parameterized_path_literal_witness :
  Py.is_empty "service/tickets/search/" || String.eqb "service/tickets/search/" "/" = false
  /\ (forall segment,
        In segment (Py.split_on "/" (split_form "service/tickets/search/")) ->
        fst (_is_known_path_segment service_catalog segment) = true
        \/ looks_like_parameter segment = false)
  /\ fst (_convert_to_parameterized_path service_catalog "service/tickets/search/")
     = "/service/tickets/search".
Proof.
  assert (H : forall segment,
            In segment (Py.split_on "/" (split_form "service/tickets/search/")) ->
            fst (_is_known_path_segment service_catalog segment) = true
            \/ looks_like_parameter segment = false).
  { intros segment Hin. right. simpl in Hin.
    repeat (destruct Hin as [<-|Hin]; [vm_compute; reflexivity|]). destruct Hin. }
  split; [reflexivity|]. split; [exact H|].
  apply (parameterized_path_literal service_catalog "service/tickets/search/");
    [reflexivity|exact H].
Defined.

(** ** The segment cache *)

Lemma same_tables_refl self : same_tables self self.
Proof. repeat split. Qed.

Lemma same_tables_trans a b c : same_tables a b -> same_tables b c -> same_tables a c.
Proof.
  unfold same_tables. intros (?&?&?&?&?&?) (?&?&?&?&?&?).
  repeat split; congruence.
Qed.

Lemma known_segment_catalog self segment :
  cache_consistent self ->
  fst (_is_known_path_segment self segment)
  = negb (Py.is_empty segment) && catalog_has_segment (endpoints self) segment.
Proof.
  intros Hcache. unfold _is_known_path_segment, catalog_has_segment.
  destruct (Py.is_empty segment); [reflexivity|].
  destruct (_known_segments_cache self !! segment) as [known|] eqn:Hlookup.
  - apply (Hcache _ _ Hlookup).
  - now destruct (Sql.like_pattern ("%/" ++ segment ++ "%")).
Qed.

Lemma known_segment_keeps self segment :
  cache_consistent self ->
  cache_consistent (snd (_is_known_path_segment self segment))
  /\ same_tables self (snd (_is_known_path_segment self segment)).
Proof.
  intros Hcache. unfold _is_known_path_segment.
  destruct (Py.is_empty segment); [split; [exact Hcache|apply same_tables_refl]|].
  destruct (_known_segments_cache self !! segment) as [known|] eqn:Hlookup;
    [split; [exact Hcache|apply same_tables_refl]|].
  destruct (Sql.like_pattern ("%/" ++ segment ++ "%")) as [segment_pattern|e] eqn:Hpat;
    [|split; [exact Hcache|apply same_tables_refl]].
  split; [|repeat split].
  intros other known. cbn [snd with_cache _known_segments_cache endpoints].
  rewrite lookup_insert. case_decide as Heq.
  - subst other. intros [= <-]. unfold catalog_has_segment. now rewrite Hpat.
  - apply Hcache.
Qed.

Lemma consistent_same_answers self self' :
  cache_consistent self -> cache_consistent self' -> same_tables self self' ->
  same_answers self self'.
Proof.
  intros Hc Hc' (He & _) segment.
  now rewrite (known_segment_catalog _ _ Hc), (known_segment_catalog _ _ Hc'), He.
Qed.

Lemma convert_segments_keeps self segs :
  cache_consistent self ->
  cache_consistent (snd (convert_segments self segs))
  /\ same_tables self (snd (convert_segments self segs)).
Proof.
  revert self. induction segs as [|segment rest IH]; intros self Hcache;
    [split; [exact Hcache|apply same_tables_refl]|].
  cbn [convert_segments].
  assert (Hstep :
    (if Py.is_empty segment then (segment, self)
     else _convert_segment_to_parameter self segment)
    = _convert_segment_to_parameter self segment).
  { unfold _convert_segment_to_parameter. now destruct (Py.is_empty segment). }
  rewrite Hstep. clear Hstep.
  pose proof (convert_segment_self self segment) as Hself.
  destruct (known_segment_keeps self segment Hcache) as [Hc1 Ht1].
  rewrite <- Hself in Hc1, Ht1.
  destruct (_convert_segment_to_parameter self segment) as [converted self1].
  cbn [snd] in Hc1, Ht1.
  destruct (IH self1 Hc1) as [Hc2 Ht2].
  destruct (convert_segments self1 rest) as [converted_segments self2].
  cbn [snd] in *. split; [exact Hc2|]. exact (same_tables_trans _ _ _ Ht1 Ht2).
Qed.

Lemma parameterized_path_keeps self path :
  cache_consistent self ->
  cache_consistent (snd (_convert_to_parameterized_path self path))
  /\ same_tables self (snd (_convert_to_parameterized_path self path)).
Proof.
  intros Hcache. unfold _convert_to_parameterized_path.
  destruct (Py.is_empty path || String.eqb path "/");
    [split; [exact Hcache|apply same_tables_refl]|].
  cbv zeta.
  match goal with |- context [convert_segments self ?segs] =>
    pose proof (convert_segments_keeps self segs Hcache) as H;
    destruct (convert_segments self segs) as [converted self']
  end.
  exact H.
Qed.

Lemma parameterized_path_same_answers self self' path :
  same_answers self self' ->
  fst (_convert_to_parameterized_path self' path)
  = fst (_convert_to_parameterized_path self path).
Proof.
  intros Hsame.
  destruct (Py.is_empty path || String.eqb path "/") eqn:Hroot.
  - unfold _convert_to_parameterized_path. now rewrite Hroot.
  - rewrite !(parameterized_path_pointwise _ _ Hroot). f_equal.
    apply map_ext. intros segment.
    apply (convert_segment_same_answers self self' segment Hsame).
Qed.

(** X14.  The segment cache is transparent.  While every cached answer
    is the catalog's, [_is_known_path_segment] answers what the catalog
    statement answers (and [False] for the empty segment), whatever the
    cache holds; the cache stays consistent, and the tables are not
    touched. *)
Theorem known_segment_cache_transparent self segment :
  cache_consistent self ->
  fst (_is_known_path_segment self segment)
  = negb (Py.is_empty segment) && catalog_has_segment (endpoints self) segment
  /\ cache_consistent (snd (_is_known_path_segment self segment))
  /\ same_tables self (snd (_is_known_path_segment self segment))
  /\ fst (_is_known_path_segment (snd (_is_known_path_segment self segment)) segment)
     = fst (_is_known_path_segment self segment).
Proof.
  intros Hcache. split; [now apply known_segment_catalog|].
  split; [now apply known_segment_keeps|].
  split; [now apply known_segment_keeps|].
  apply is_known_stable.
Qed.

Lemma cache_consistent_empty rows : cache_consistent (catalog_only rows).
Proof. intros segment known H. cbn in H. now rewrite lookup_empty in H. Qed.

Lemma known_segment_cache_transparent_witness :
  cache_consistent service_catalog
  /\ fst (_is_known_path_segment service_catalog "tickets") = true.
Proof.
  split; [apply cache_consistent_empty|].
  exact (proj1 (known_segment_cache_transparent service_catalog "tickets"
                  (cache_consistent_empty _))).
Defined.

Lemma like_substring_pattern text :
  Spec.wildcard_free text ->
  Sql.like_pattern ("%" ++ text ++ "%")
  = Ok (Sql.AnySeq :: literals text ++ [Sql.AnySeq])%list.
Proof.
  intros Hplain. unfold Sql.like_pattern.
  rewrite append_String, append_empty, like_parse_cons.
  change (Py.char_is "\" "%") with false. change (Py.char_is "%" "%") with true.
  cbn iota. rewrite (like_parse_plain _ "%" Hplain). reflexivity.
Qed.

Lemma like_toks_substring text s :
  Sql.like_toks (Sql.AnySeq :: literals text ++ [Sql.AnySeq])%list s = true
  <-> Spec.substring text s.
Proof.
  rewrite like_toks_any_iff. unfold Spec.substring. split.
  - intros (pre & post & -> & H). apply like_toks_literal_prefix in H as [post' ->].
    eauto.
  - intros (pre & post & ->). exists pre, (text ++ post). split; [reflexivity|].
    apply like_toks_literal_prefix. eauto.
Qed.

Lemma wildcard_free_slash segment :
  Spec.wildcard_free segment -> Spec.wildcard_free ("/" ++ segment).
Proof.
  unfold Spec.wildcard_free, Spec.all_in. intros H.
  rewrite append_String, append_empty, chars_String. now constructor.
Qed.

(** X15.  What a known segment is.  For a segment without [%], [_] and
    backslash, and with a consistent cache, [_is_known_path_segment]
    answers [True] exactly when some path of the catalog contains a slash
    followed by the text of the segment, in the same letter case; the
    text need not be a whole piece of that path. *)
Theorem known_segment_meaning self segment :
  cache_consistent self ->
  Spec.wildcard_free segment ->
  segment <> "" ->
  fst (_is_known_path_segment self segment) = true
  <-> exists e, In e (endpoints self)
                /\ Spec.substring ("/" ++ segment) (endpoint_path e).
Proof.
  intros Hcache Hplain Hne.
  rewrite (known_segment_catalog _ _ Hcache).
  rewrite (proj2 (is_empty_false segment) Hne). cbn [negb andb].
  unfold catalog_has_segment.
  change ("%/" ++ segment ++ "%") with ("%" ++ ("/" ++ segment) ++ "%").
  rewrite (like_substring_pattern _ (wildcard_free_slash _ Hplain)).
  cbn [Sql.matches].
  set (f := fun e => Sql.like_toks _ (endpoint_path e)).
  split.
  - intros H. apply Nat.ltb_lt in H.
    destruct (List.filter f (endpoints self)) as [|e l] eqn:Hf; [simpl in H; lia|].
    assert (Hin : In e (List.filter f (endpoints self))) by (rewrite Hf; now left).
    apply filter_In in Hin as [Hin He]. exists e. split; [exact Hin|].
    now apply like_toks_substring.
  - intros (e & Hin & Hsub). apply Nat.ltb_lt.
    assert (Hin' : In e (List.filter f (endpoints self))).
    { apply filter_In. split; [exact Hin|]. now apply like_toks_substring. }
    destruct (List.filter f (endpoints self)); [destruct Hin'|simpl; lia].
Qed.

Lemma known_segment_meaning_witness :
  cache_consistent service_catalog
  /\ Spec.wildcard_free "tick"
  /\ "tick" <> ""
  /\ (fst (_is_known_path_segment service_catalog "tick") = true
      <-> exists e, In e (endpoints service_catalog)
                    /\ Spec.substring ("/" ++ "tick") (endpoint_path e)).
Proof.
  assert (Hplain : Spec.wildcard_free "tick").
  { unfold Spec.wildcard_free, Spec.all_in. simpl. repeat constructor. }
  assert (Hne : "tick" <> "") by discriminate.
  split; [apply cache_consistent_empty|]. split; [exact Hplain|]. split; [exact Hne|].
  apply (known_segment_meaning service_catalog "tick" (cache_consistent_empty _) Hplain Hne).
Defined.

(** ** The resolver and the segment cache *)

Lemma known_segment_tables self segment :
  same_tables self (snd (_is_known_path_segment self segment)).
Proof.
  unfold _is_known_path_segment.
  destruct (Py.is_empty segment); [apply same_tables_refl|].
  destruct (_known_segments_cache self !! segment); [apply same_tables_refl|].
  destruct (Sql.like_pattern ("%/" ++ segment ++ "%")); [|apply same_tables_refl].
  repeat split.
Qed.

Lemma convert_segments_tables self segs :
  same_tables self (snd (convert_segments self segs)).
Proof.
  revert self. induction segs as [|segment rest IH]; intros self;
    [apply same_tables_refl|].
  cbn [convert_segments].
  assert (Hstep :
    (if Py.is_empty segment then (segment, self)
     else _convert_segment_to_parameter self segment)
    = _convert_segment_to_parameter self segment).
  { unfold _convert_segment_to_parameter. now destruct (Py.is_empty segment). }
  rewrite Hstep. clear Hstep.
  pose proof (known_segment_tables self segment) as Ht1.
  rewrite <- (convert_segment_self self segment) in Ht1.
  destruct (_convert_segment_to_parameter self segment) as [converted self1].
  cbn [snd] in Ht1. specialize (IH self1).
  destruct (convert_segments self1 rest) as [converted_segments self2].
  cbn [snd] in *. exact (same_tables_trans _ _ _ Ht1 IH).
Qed.

Lemma parameterized_path_tables self path :
  same_tables self (snd (_convert_to_parameterized_path self path)).
Proof.
  unfold _convert_to_parameterized_path.
  destruct (Py.is_empty path || String.eqb path "/"); [apply same_tables_refl|].
  cbv zeta.
  match goal with |- context [convert_segments self ?segs] =>
    pose proof (convert_segments_tables self segs) as H;
    destruct (convert_segments self segs) as [converted self']
  end.
  exact H.
Qed.

Lemma details_same_tables json_loads self self' endpoint_id :
  same_tables self self' ->
  get_endpoint_details json_loads self' endpoint_id
  = get_endpoint_details json_loads self endpoint_id.
Proof.
  intros (He & Hp & Hq & Hr & _). unfold get_endpoint_details.
  now rewrite He, Hp, Hq, Hr.
Qed.

(** The answer of the resolver, with the cursors and the threading of
    the cache resolved. *)
Lemma find_endpoint_cases json_loads self path method :
  fst (find_endpoint_by_path_method json_loads self path method)
  = match exact_match_statement self (_normalize_path path) (Py.lower method) with
    | Raise e => except_SQLAlchemyError "Database error finding endpoint" (Raise e)
    | Ok (row :: _) =>
        Ok (Some (get_endpoint_details json_loads self (endpoint_id_ row)))
    | Ok [] =>
        let parameterized_path :=
          fst (_convert_to_parameterized_path self (_normalize_path path)) in
        let generic_pattern := _convert_to_generic_pattern parameterized_path in
        if negb (String.eqb generic_pattern parameterized_path) then
          match List.find
                  (fun row =>
                     String.eqb (_convert_to_generic_pattern (endpoint_path row))
                       generic_pattern)
                  (same_method_statement self (Py.lower method)) with
          | Some row =>
              Ok (Some (get_endpoint_details json_loads self (endpoint_id_ row)))
          | None => Ok None
          end
        else Ok None
    end.
Proof.
  unfold find_endpoint_by_path_method.
  destruct (exact_match_statement self (_normalize_path path) (Py.lower method))
    as [[|row rows]|e]; [|reflexivity|reflexivity].
  cbn [Sql.fetchone].
  pose proof (parameterized_path_tables self (_normalize_path path)) as Htables.
  destruct (_convert_to_parameterized_path self (_normalize_path path))
    as [parameterized_path self'].
  cbn [fst snd] in *. cbv zeta.
  destruct (negb (String.eqb (_convert_to_generic_pattern parameterized_path)
                    parameterized_path)); [|reflexivity].
  unfold same_method_statement. rewrite (proj1 Htables). cbn [Sql.fetchall].
  destruct (List.find _ _) as [row|]; [|reflexivity].
  cbn [fst]. now rewrite (details_same_tables _ _ _ _ Htables).
Qed.

Lemma find_endpoint_keeps json_loads self path method :
  cache_consistent self ->
  cache_consistent (snd (find_endpoint_by_path_method json_loads self path method))
  /\ same_tables self (snd (find_endpoint_by_path_method json_loads self path method)).
Proof.
  intros Hcache. unfold find_endpoint_by_path_method.
  destruct (exact_match_statement self (_normalize_path path) (Py.lower method))
    as [[|row rows]|e];
    [|split; [exact Hcache|apply same_tables_refl]..].
  cbn [Sql.fetchone].
  pose proof (parameterized_path_keeps self (_normalize_path path) Hcache) as Hkeeps.
  destruct (_convert_to_parameterized_path self (_normalize_path path))
    as [parameterized_path self'].
  cbn [snd] in Hkeeps. cbv zeta.
  destruct (negb _).
  - cbn [Sql.fetchall]. destruct (List.find _ _); exact Hkeeps.
  - exact Hkeeps.
Qed.

(** X16.  The segment cache never changes what the resolver answers.
    Two states of the object with the same tables and caches that agree
    with the catalog (an empty cache does) give the same answer to
    [find_endpoint_by_path_method]; the call leaves a cache that still
    agrees with the catalog, and the tables as they were. *)
Theorem resolver_cache_transparent json_loads self self' path method :
  cache_consistent self -> cache_consistent self' -> same_tables self self' ->
  fst (find_endpoint_by_path_method json_loads self' path method)
  = fst (find_endpoint_by_path_method json_loads self path method)
  /\ cache_consistent (snd (find_endpoint_by_path_method json_loads self path method))
  /\ same_tables self (snd (find_endpoint_by_path_method json_loads self path method)).
Proof.
  intros Hc Hc' Htables. split; [|now apply find_endpoint_keeps].
  rewrite !find_endpoint_cases.
  unfold exact_match_statement, same_method_statement.
  rewrite (proj1 Htables).
  rewrite (parameterized_path_same_answers self self' _
             (consistent_same_answers _ _ Hc Hc' Htables)).
  destruct (Sql.ilike_pattern (_normalize_path path)) as [pattern|e]; [|reflexivity].
  simpl mbind.
  destruct (List.filter _ (endpoints self)) as [|row rows].
  - cbv zeta. destruct (negb _); [|reflexivity].
    destruct (List.find _ _) as [row|]; [|reflexivity].
    now rewrite (details_same_tables _ _ _ _ Htables).
  - now rewrite (details_same_tables _ _ _ _ Htables).
Qed.

Lemma resolver_cache_transparent_witness :
  cache_consistent service_catalog
  /\ cache_consistent (snd (_is_known_path_segment service_catalog "tickets"))
  /\ same_tables service_catalog (snd (_is_known_path_segment service_catalog "tickets"))
  /\ fst (find_endpoint_by_path_method no_json
            (snd (_is_known_path_segment service_catalog "tickets"))
            "/system/callbacks/42" "GET")
     = fst (find_endpoint_by_path_method no_json service_catalog
              "/system/callbacks/42" "GET").
Proof.
  pose proof (cache_consistent_empty (endpoints service_catalog)) as Hc.
  destruct (known_segment_keeps service_catalog "tickets" Hc) as [Hc' Ht].
  split; [exact Hc|]. split; [exact Hc'|]. split; [exact Ht|].
  exact (proj1 (resolver_cache_transparent no_json service_catalog _
                  "/system/callbacks/42" "GET" Hc Hc' Ht)).
Defined.

(** ** What the resolver returns *)

Lemma details_of_member json_loads self row :
  In row (endpoints self) ->
  exists e parameters_ request_body response_bodies_,
    get_endpoint_details json_loads self (endpoint_id_ row)
    = EndpointDetails e parameters_ request_body response_bodies_
    /\ In e (endpoints self) /\ endpoint_id_ e = endpoint_id_ row.
Proof.
  intros Hin. unfold get_endpoint_details.
  set (f := fun e => endpoint_id_ e =? endpoint_id_ row).
  assert (Hrow : In row (List.filter f (endpoints self))).
  { apply filter_In. split; [exact Hin|]. unfold f. apply Z.eqb_refl. }
  destruct (List.filter f (endpoints self)) as [|e rest] eqn:Hf; [destruct Hrow|].
  cbn [Sql.fetchone fst]. do 4 eexists. split; [reflexivity|].
  assert (He : In e (List.filter f (endpoints self))) by (rewrite Hf; now left).
  apply filter_In in He as [He Hid]. split; [exact He|].
  now apply Z.eqb_eq in Hid.
Qed.

(** X17.  The resolver is sound.  When [find_endpoint_by_path_method]
    returns an endpoint, it is the hydration of a row of the catalog
    whose method is the lower-cased method asked for, and whose path
    either matches the normalized path as a case-insensitive pattern, or
    has the generic pattern of the parameterized path, which then has a
    placeholder.  The dictionary is never the empty one: it holds a
    catalog row with that id. *)
Theorem resolver_sound json_loads self path method found :
  fst (find_endpoint_by_path_method json_loads self path method) = Ok (Some found) ->
  exists row,
    In row (endpoints self)
    /\ endpoint_method row = Py.lower method
    /\ found = get_endpoint_details json_loads self (endpoint_id_ row)
    /\ (exists e parameters_ request_body response_bodies_,
          found = EndpointDetails e parameters_ request_body response_bodies_
          /\ In e (endpoints self) /\ endpoint_id_ e = endpoint_id_ row)
    /\ ((exists pattern,
           Sql.ilike_pattern (_normalize_path path) = Ok pattern
           /\ Sql.imatches pattern (Some (endpoint_path row)) = true)
        \/ (let parameterized_path :=
              fst (_convert_to_parameterized_path self (_normalize_path path)) in
            _convert_to_generic_pattern (endpoint_path row)
            = _convert_to_generic_pattern parameterized_path
            /\ _convert_to_generic_pattern parameterized_path <> parameterized_path)).
Proof.
  rewrite find_endpoint_cases. unfold exact_match_statement, same_method_statement.
  destruct (Sql.ilike_pattern (_normalize_path path)) as [pattern|e] eqn:Hpat;
    [|simpl; destruct (is_SQLAlchemyError e); discriminate].
  simpl mbind.
  destruct (List.filter _ (endpoints self)) as [|row rows] eqn:Hf.
  - cbv zeta. destruct (negb _) eqn:Hgeneric; [|discriminate].
    destruct (List.find _ _) as [row|] eqn:Hfind; [|discriminate].
    intros [= <-]. apply find_some in Hfind as [Hin Hsame].
    apply filter_In in Hin as [Hin Hmethod].
    apply String.eqb_eq in Hmethod, Hsame. apply negb_true_iff in Hgeneric.
    exists row. split; [exact Hin|]. split; [exact Hmethod|]. split; [reflexivity|].
    split; [now apply details_of_member|]. right. split; [exact Hsame|].
    intros Heq. rewrite Heq, String.eqb_refl in Hgeneric. discriminate.
  - intros [= <-].
    assert (Hrow : In row (List.filter
              (fun e => Sql.imatches pattern (Some (endpoint_path e))
                        && String.eqb (endpoint_method e) (Py.lower method))
              (endpoints self))) by (rewrite Hf; now left).
    apply filter_In in Hrow as [Hin Hrow]. apply andb_true_iff in Hrow as [Hmatch Hmethod].
    apply String.eqb_eq in Hmethod.
    exists row. split; [exact Hin|]. split; [exact Hmethod|]. split; [reflexivity|].
    split; [now apply details_of_member|]. left. eauto.
Qed.

Lemma resolver_sound_witness :
  fst (find_endpoint_by_path_method no_json service_catalog
         "company/companies/123/contacts/456/" "GET")
  = Ok (Some (get_endpoint_details no_json service_catalog 2))
  /\ exists row,
       In row (endpoints service_catalog)
       /\ endpoint_method row = Py.lower "GET"
       /\ get_endpoint_details no_json service_catalog 2
          = get_endpoint_details no_json service_catalog (endpoint_id_ row).
Proof.
  assert (H : fst (find_endpoint_by_path_method no_json service_catalog
                     "company/companies/123/contacts/456/" "GET")
              = Ok (Some (get_endpoint_details no_json service_catalog 2)))
    by (vm_compute; reflexivity).
  split; [exact H|].
  destruct (resolver_sound no_json service_catalog _ _ _ H)
    as (row & Hin & Hmethod & Hfound & _).
  exists row. auto.
Defined.

(** The not-found answer, in the terms of the statements of the
    resolver. *)
Lemma resolver_not_found_cases json_loads self path method :
  let parameterized_path :=
    fst (_convert_to_parameterized_path self (_normalize_path path)) in
  fst (find_endpoint_by_path_method json_loads self path method) = Ok None
  <-> (exists pattern,
         Sql.ilike_pattern (_normalize_path path) = Ok pattern
         /\ forall row, In row (endpoints self) ->
              endpoint_method row = Py.lower method ->
              Sql.imatches pattern (Some (endpoint_path row)) = false)
      /\ (_convert_to_generic_pattern parameterized_path = parameterized_path
          \/ forall row, In row (endpoints self) ->
               endpoint_method row = Py.lower method ->
               _convert_to_generic_pattern (endpoint_path row)
               <> _convert_to_generic_pattern parameterized_path).
Proof.
  cbv zeta. rewrite find_endpoint_cases.
  unfold exact_match_statement, same_method_statement.
  set (parameterized_path :=
         fst (_convert_to_parameterized_path self (_normalize_path path))).
  destruct (Sql.ilike_pattern (_normalize_path path)) as [pattern|e] eqn:Hpat.
  - simpl mbind.
    set (exact := fun e => Sql.imatches pattern (Some (endpoint_path e))
                           && String.eqb (endpoint_method e) (Py.lower method)).
    assert (Hexact : List.filter exact (endpoints self) = []
                     <-> forall row, In row (endpoints self) ->
                           endpoint_method row = Py.lower method ->
                           Sql.imatches pattern (Some (endpoint_path row)) = false).
    { split.
      - intros Hnil row Hin Hmethod.
        destruct (Sql.imatches pattern (Some (endpoint_path row))) eqn:Hm; [|reflexivity].
        assert (Hrow : In row (List.filter exact (endpoints self))).
        { apply filter_In. split; [exact Hin|]. unfold exact.
          now rewrite Hm, Hmethod, String.eqb_refl. }
        rewrite Hnil in Hrow. destruct Hrow.
      - intros Hnone. apply filter_nothing. intros row Hin. unfold exact.
        destruct (String.eqb_spec (endpoint_method row) (Py.lower method)) as [Hm|Hm];
          [|apply andb_false_r].
        now rewrite (Hnone row Hin Hm). }
    destruct (List.filter exact (endpoints self)) as [|row rows].
    + cbv zeta.
      destruct (String.eqb_spec (_convert_to_generic_pattern parameterized_path)
                  parameterized_path) as [Hsame|Hdiff]; cbn [negb].
      * split; [|reflexivity]. intros _. split; [|now left].
        exists pattern. split; [reflexivity|]. now apply Hexact.
      * destruct (List.find _ _) as [row|] eqn:Hfind.
        -- split; [discriminate|]. intros [_ [Hsame|Hnone]]; [contradiction|].
           apply find_some in Hfind as [Hin Hsame].
           apply filter_In in Hin as [Hin Hmethod].
           apply String.eqb_eq in Hmethod, Hsame.
           now destruct (Hnone row Hin Hmethod).
        -- split; [|reflexivity]. intros _. split.
           ++ exists pattern. split; [reflexivity|]. now apply Hexact.
           ++ right. intros row Hin Hmethod Hsame.
              pose proof (find_none _ _ Hfind row) as Hrow.
              cbv beta in Hrow. rewrite Hsame, String.eqb_refl in Hrow.
              assert (true = false); [|discriminate]. apply Hrow.
              apply filter_In. split; [exact Hin|]. now apply String.eqb_eq.
    + split; [discriminate|]. intros [(pattern' & [= <-] & Hnone) _].
      assert (Hnil : row :: rows = []) by now apply Hexact.
      discriminate.
  - simpl. split.
    + destruct (is_SQLAlchemyError e); discriminate.
    + intros [(pattern & Hok & _) _]. discriminate.
Qed.

Lemma normalize_no_backslash path :
  Spec.no_backslash path -> Spec.no_backslash (_normalize_path path).
Proof. intros H. apply chars_normalize; [discriminate|exact H]. Qed.

(** X18.  When the resolver finds nothing.  For a path of ASCII
    characters without NUL and backslash and a method of ASCII
    characters without NUL, the normalized path is a well-formed
    pattern, and [find_endpoint_by_path_method] returns [None] exactly
    when no catalog path with the lower-cased method matches that
    pattern without regard to case, and the parameterized path has no
    placeholder or no catalog path with that method has its generic
    pattern. *)
Theorem resolver_not_found json_loads self path method :
  Spec.ascii_text path -> Spec.no_backslash path -> Spec.ascii_text method ->
  exists pattern,
    Sql.ilike_pattern (_normalize_path path) = Ok pattern
    /\ let parameterized_path :=
         fst (_convert_to_parameterized_path self (_normalize_path path)) in
       fst (find_endpoint_by_path_method json_loads self path method) = Ok None
       <-> (forall row, In row (endpoints self) ->
              endpoint_method row = Py.lower method ->
              Sql.imatches pattern (Some (endpoint_path row)) = false)
           /\ (_convert_to_generic_pattern parameterized_path = parameterized_path
               \/ forall row, In row (endpoints self) ->
                    endpoint_method row = Py.lower method ->
                    _convert_to_generic_pattern (endpoint_path row)
                    <> _convert_to_generic_pattern parameterized_path).
Proof.
  intros _ Hplain _.
  destruct (ilike_self _ (normalize_no_backslash _ Hplain)) as (pattern & Hpat & _).
  exists pattern. split; [exact Hpat|]. cbv zeta.
  pose proof (resolver_not_found_cases json_loads self path method) as Hcases.
  cbv zeta in Hcases. rewrite Hcases. split.
  - intros [(pattern' & Hpat' & Hnone) Hgeneric].
    rewrite Hpat in Hpat'. injection Hpat' as <-. auto.
  - intros [Hnone Hgeneric]. split; [|exact Hgeneric]. eauto.
Qed.

Lemma resolver_not_found_witness :
  Spec.ascii_text "/service/boards/"
  /\ Spec.no_backslash "/service/boards/"
  /\ Spec.ascii_text "GET"
  /\ fst (find_endpoint_by_path_method no_json service_catalog "/service/boards/" "GET")
     = Ok None
  /\ exists pattern,
       Sql.ilike_pattern (_normalize_path "/service/boards/") = Ok pattern
       /\ forall row, In row (endpoints service_catalog) ->
            endpoint_method row = Py.lower "GET" ->
            Sql.imatches pattern (Some (endpoint_path row)) = false.
Proof.
  assert (Hpath : Spec.ascii_text "/service/boards/") by ascii_text_literal.
  assert (Hplain : Spec.no_backslash "/service/boards/").
  { unfold Spec.no_backslash. simpl. repeat (constructor; [discriminate|]). constructor. }
  assert (Hmethod : Spec.ascii_text "GET") by ascii_text_literal.
  split; [exact Hpath|]. split; [exact Hplain|]. split; [exact Hmethod|].
  split; [reflexivity|].
  destruct (resolver_not_found no_json service_catalog "/service/boards/" "GET"
              Hpath Hplain Hmethod) as (pattern & Hpat & Hiff).
  exists pattern. split; [exact Hpat|].
  cbv zeta in Hiff. apply Hiff. reflexivity.
Defined.

Lemma loads_empty_object_safe column : loads_safely loads_empty_object column.
Proof.
  destruct column as [text|]; [|exact I]. right. unfold loads_empty_object.
  destruct (String.eqb text "{}"); discriminate.
Qed.

Lemma documented_catalog_loads endpoint_id :
  documents_load loads_empty_object documented_catalog endpoint_id.
Proof. split; intros row _ _; split; apply loads_empty_object_safe. Qed.

(** X19.  When the resolver does not fail.  For a path of ASCII
    characters without NUL and backslash, a method of ASCII characters
    without NUL, and a catalog on whose stored documents [json.loads]
    raises nothing but [JSONDecodeError], [find_endpoint_by_path_method]
    returns: an endpoint or [None]. *)
Theorem resolver_does_not_fail loads self path method :
  Spec.ascii_text path -> Spec.no_backslash path -> Spec.ascii_text method ->
  (forall endpoint_id, documents_load loads self endpoint_id) ->
  exists answer,
    fst (find_endpoint_by_path_method (decoded loads) self path method) = Ok answer.
Proof.
  intros _ Hplain _ _.
  rewrite find_endpoint_cases. unfold exact_match_statement.
  destruct (ilike_self _ (normalize_no_backslash _ Hplain)) as (toks & -> & _).
  simpl mbind.
  destruct (List.filter _ (endpoints self)) as [|row rows]; [|eauto].
  cbv zeta. destruct (negb _); [|eauto]. destruct (List.find _ _); eauto.
Qed.

Lemma resolver_does_not_fail_witness :
  Spec.ascii_text "finance/invoices/7"
  /\ Spec.no_backslash "finance/invoices/7"
  /\ Spec.ascii_text "Get"
  /\ (forall endpoint_id,
        documents_load loads_empty_object documented_catalog endpoint_id)
  /\ exists answer,
       fst (find_endpoint_by_path_method (decoded loads_empty_object)
              documented_catalog "finance/invoices/7" "Get")
       = Ok answer.
Proof.
  assert (Hpath : Spec.ascii_text "finance/invoices/7") by ascii_text_literal.
  assert (Hplain : Spec.no_backslash "finance/invoices/7").
  { unfold Spec.no_backslash. simpl. repeat (constructor; [discriminate|]). constructor. }
  assert (Hmethod : Spec.ascii_text "Get") by ascii_text_literal.
  split; [exact Hpath|]. split; [exact Hplain|]. split; [exact Hmethod|].
  split; [exact documented_catalog_loads|].
  apply (resolver_does_not_fail loads_empty_object documented_catalog
           "finance/invoices/7" "Get" Hpath Hplain Hmethod documented_catalog_loads).
Defined.

(** ** Hydration and the catalog listings *)

Lemma head_filter_find {A} (f : A -> bool) (l : list A) :
  head (List.filter f l) = List.find f l.
Proof. induction l as [|x l IH]; [reflexivity|]. simpl. now destruct (f x). Qed.

Lemma find_filter {A} (f g : A -> bool) (l : list A) :
  List.find g (List.filter f l) = List.find (fun x => f x && g x) l.
Proof.
  induction l as [|x l IH]; [reflexivity|]. simpl.
  destruct (f x); simpl; [destruct (g x)|]; auto.
Qed.

Lemma text_eqb_eq a b : Sql.text_eqb a b = true <-> a = b.
Proof.
  destruct a as [x|], b as [y|]; simpl; try (split; congruence).
  rewrite String.eqb_eq. split; congruence.
Qed.

Lemma find_first {A} (f : A -> bool) (l : list A) x :
  List.find f l = Some x ->
  exists before after,
    l = (before ++ x :: after)%list /\ f x = true
    /\ forall y, In y before -> f y = false.
Proof.
  induction l as [|a l IH]; [discriminate|]. simpl.
  destruct (f a) eqn:Ha.
  - intros [= <-]. exists [], l. split; [reflexivity|]. split; [exact Ha|]. intros y [].
  - intros Hfind. destruct (IH Hfind) as (before & after & -> & Hx & Hbefore).
    exists (a :: before), after. split; [reflexivity|]. split; [exact Hx|].
    intros y [<-|Hy]; auto.
Qed.

(** X20.  What [get_endpoint_details] holds, for an endpoint on whose
    stored documents [json.loads] raises nothing but [JSONDecodeError].
    The result is the empty dictionary exactly when no endpoint has the
    id.  Otherwise it holds the first catalog row with that id, the
    parameter rows that refer to the id, in table order, the first
    request-body row that refers to it (the key is absent exactly when
    there is none), and one entry for each response row that refers to
    it, in table order. *)
Theorem endpoint_details_spec loads self endpoint_id :
  documents_load loads self endpoint_id ->
  match get_endpoint_details (decoded loads) self endpoint_id with
  | EmptyDict => forall e, In e (endpoints self) -> endpoint_id_ e <> endpoint_id
  | EndpointDetails e parameters_ request_body response_bodies_ =>
      (exists before after,
         endpoints self = (before ++ e :: after)%list
         /\ endpoint_id_ e = endpoint_id
         /\ forall earlier, In earlier before -> endpoint_id_ earlier <> endpoint_id)
      /\ parameters_
         = List.filter (fun p => parameter_endpoint_id p =? endpoint_id)
             (parameters self)
      /\ (forall p, In p parameters_
                    <-> In p (parameters self) /\ parameter_endpoint_id p = endpoint_id)
      /\ match request_body with
         | Some body =>
             exists before row after,
               request_bodies self = (before ++ row :: after)%list
               /\ request_body_endpoint_id row = endpoint_id
               /\ (forall earlier, In earlier before ->
                     request_body_endpoint_id earlier <> endpoint_id)
               /\ body = request_body_dict (decoded loads) row
         | None =>
             forall row, In row (request_bodies self) ->
                         request_body_endpoint_id row <> endpoint_id
         end
      /\ response_bodies_
         = List.map (response_body_dict (decoded loads))
             (List.filter (fun row => response_body_endpoint_id row =? endpoint_id)
                (response_bodies self))
      /\ Forall (fun body => resp_endpoint_id body = endpoint_id) response_bodies_
  end.
Proof.
  intros _. unfold get_endpoint_details. rewrite fetchone_head, head_filter_find.
  destruct (List.find _ (endpoints self)) as [e|] eqn:Hfind.
  - apply find_first in Hfind as (before & after & Hrows & Hid & Hbefore).
    apply Z.eqb_eq in Hid.
    split; [|split; [reflexivity|split; [|split; [|split]]]].
    + exists before, after. split; [exact Hrows|]. split; [exact Hid|].
      intros earlier Hin. apply Z.eqb_neq. now apply Hbefore.
    + intros p. cbn [Sql.fetchall fst]. rewrite filter_In, Z.eqb_eq. reflexivity.
    + rewrite fetchone_head, head_filter_find.
      destruct (List.find _ (request_bodies self)) as [row|] eqn:Hrow;
        cbn [fmap option_fmap option_map].
      * apply find_first in Hrow as (rbefore & rafter & Hbodies & Hrid & Hrbefore).
        apply Z.eqb_eq in Hrid.
        exists rbefore, row, rafter. split; [exact Hbodies|]. split; [exact Hrid|].
        split; [|reflexivity].
        intros earlier Hin. apply Z.eqb_neq. now apply Hrbefore.
      * intros row Hin' Hrid. pose proof (find_none _ _ Hrow row Hin') as Hno.
        cbv beta in Hno. rewrite Hrid, Z.eqb_refl in Hno. discriminate.
    + reflexivity.
    + cbn [Sql.fetchall fst].
      change (Forall (fun body => resp_endpoint_id body = endpoint_id)
                (List.map (response_body_dict (decoded loads))
                   (List.filter (fun row => response_body_endpoint_id row =? endpoint_id)
                      (response_bodies self)))).
      apply List.Forall_forall. intros body Hbody.
      apply in_map_iff in Hbody as (row & <- & Hrow).
      apply filter_In in Hrow as [_ Hrid]. now apply Z.eqb_eq in Hrid.
  - intros e Hin Hid. pose proof (find_none _ _ Hfind e Hin) as Hno.
    cbv beta in Hno. rewrite Hid, Z.eqb_refl in Hno. discriminate.
Qed.

Lemma endpoint_details_spec_witness :
  documents_load loads_empty_object documented_catalog 2
  /\ match get_endpoint_details (decoded loads_empty_object) documented_catalog 2 with
     | EmptyDict => False
     | EndpointDetails e parameters_ request_body response_bodies_ =>
         e = endpoint 2 "/finance/invoices/{id}" "get" None
         /\ length parameters_ = 1%nat
         /\ request_body
            = Some {| rb_id := 2; rb_endpoint_id := 2;
                      rb_schema := Parsed (JObject []);
                      rb_example := Stored (Some "") |}
         /\ Forall (fun body => resp_endpoint_id body = 2) response_bodies_
     end.
Proof.
  pose proof (documented_catalog_loads 2) as Hloads.
  split; [exact Hloads|].
  pose proof (endpoint_details_spec loads_empty_object documented_catalog 2 Hloads)
    as Hspec.
  destruct (get_endpoint_details (decoded loads_empty_object) documented_catalog 2)
    as [|e parameters_ request_body response_bodies_] eqn:Hdetails.
  - discriminate Hdetails.
  - destruct Hspec as (_ & _ & _ & _ & _ & Hresponses).
    injection Hdetails as <- <- <- <-.
    split; [reflexivity|]. split; [reflexivity|]. split; [reflexivity|].
    exact Hresponses.
Defined.

Lemma distinct_In v values : In v (distinct values) <-> In v values.
Proof.
  induction values as [|x rest IH]; [reflexivity|]. cbn [distinct].
  destruct (existsb (Sql.text_eqb x) rest) eqn:Hx.
  - rewrite IH. split; [now right|]. intros [<-|H]; [|exact H].
    apply existsb_exists in Hx as (y & Hy & Heq). apply text_eqb_eq in Heq.
    now subst.
  - simpl. now rewrite IH.
Qed.

Lemma distinct_NoDup values : List.NoDup (distinct values).
Proof.
  induction values as [|x rest IH]; [constructor|]. cbn [distinct].
  destruct (existsb (Sql.text_eqb x) rest) eqn:Hx; [exact IH|].
  constructor; [|exact IH]. rewrite distinct_In. intros Hin.
  assert (existsb (Sql.text_eqb x) rest = true); [|congruence].
  apply existsb_exists. exists x. split; [exact Hin|]. now apply text_eqb_eq.
Qed.

Lemma categories_listed self :
  List.NoDup (get_categories self)
  /\ forall category,
       In category (get_categories self)
       <-> exists e, In e (endpoints self) /\ endpoint_category e = category.
Proof.
  unfold get_categories. cbn [Sql.fetchall fst]. split.
  - eapply Permutation.Permutation_NoDup;
      [symmetry; apply order_by_Permutation|apply distinct_NoDup].
  - intros category. rewrite order_by_In, distinct_In, in_map_iff.
    split; intros (e & H1 & H2); eauto.
Qed.

(** X21.  [get_categories] lists every category value of the catalog
    once: no value twice, and a value is listed exactly when some
    endpoint carries it ([None] for endpoints without category). *)
Theorem get_categories_spec self :
  List.NoDup (get_categories self)
  /\ forall category,
       In category (get_categories self)
       <-> exists e, In e (endpoints self) /\ endpoint_category e = category.
Proof. apply categories_listed. Qed.

(** X22.  [get_endpoints_by_category] returns the endpoints whose
    category is the one asked for, each as often as the catalog holds
    it, and no other; it is non-empty exactly for the categories
    [get_categories] lists. *)
Theorem get_endpoints_by_category_spec self category :
  Permutation (get_endpoints_by_category self category)
    (List.filter (fun e => Sql.text_eqb (endpoint_category e) (Some category))
       (endpoints self))
  /\ (forall e, In e (get_endpoints_by_category self category)
                <-> In e (endpoints self) /\ endpoint_category e = Some category)
  /\ (get_endpoints_by_category self category <> []
      <-> In (Some category) (get_categories self)).
Proof.
  assert (Hin : forall e, In e (get_endpoints_by_category self category)
                <-> In e (endpoints self) /\ endpoint_category e = Some category).
  { intros e. unfold get_endpoints_by_category. cbn [Sql.fetchall fst].
    now rewrite order_by_In, filter_In, text_eqb_eq. }
  split; [|split; [exact Hin|]].
  - unfold get_endpoints_by_category. cbn [Sql.fetchall fst].
    apply order_by_Permutation.
  - rewrite (proj2 (categories_listed self) (Some category)). split.
    + destruct (get_endpoints_by_category self category) as [|e l] eqn:He;
        [congruence|].
      intros _. exists e. apply Hin. now left.
    + intros (e & He). apply Hin in He. intros Hnil. rewrite Hnil in He. destruct He.
Qed.

(** X23.  [get_parameter_details] returns a parameter row of the
    endpoint with the name asked for, and [None] exactly when the
    endpoint has no parameter of that name; it is the first parameter of
    that name in what [get_endpoint_details] lists for the endpoint. *)
Theorem get_parameter_details_spec json_loads self endpoint_id param_name :
  match get_parameter_details self endpoint_id param_name with
  | Some p =>
      In p (parameters self) /\ parameter_endpoint_id p = endpoint_id
      /\ parameter_name p = param_name
  | None =>
      forall p, In p (parameters self) -> parameter_endpoint_id p = endpoint_id ->
                parameter_name p <> param_name
  end
  /\ forall e parameters_ request_body response_bodies_,
       get_endpoint_details json_loads self endpoint_id
       = EndpointDetails e parameters_ request_body response_bodies_ ->
       get_parameter_details self endpoint_id param_name
       = List.find (fun p => String.eqb (parameter_name p) param_name) parameters_.
Proof.
  unfold get_parameter_details. rewrite fetchone_head, head_filter_find. split.
  - destruct (List.find _ (parameters self)) as [p|] eqn:Hfind.
    + apply find_some in Hfind as [Hin Hp]. apply andb_true_iff in Hp as [Hid Hname].
      apply Z.eqb_eq in Hid. apply String.eqb_eq in Hname. auto.
    + intros p Hin Hid Hname. pose proof (find_none _ _ Hfind p Hin) as Hno.
      cbv beta in Hno. rewrite Hid, Hname, Z.eqb_refl, String.eqb_refl in Hno.
      discriminate.
  - intros e parameters_ request_body response_bodies_. unfold get_endpoint_details.
    destruct (fst (Sql.fetchone _)); [|discriminate]. intros [= _ <- _ _].
    cbn [Sql.fetchall fst]. now rewrite find_filter.
Qed.

(** ** The tools of the server *)

(** X24.  [check_cached_queries] answers with the row as it was before
    the call.  On a table with unique (path, method) pairs: when
    [find_query] finds nothing, the answer is [None], the flag is reset
    and the store is unchanged; when it finds a row whose usage_count
    can still grow, the answer is that row with its old usage_count and
    timestamp, the flag is set, and in the store the row now has the
    count plus one and the time of the call, which is what the next
    [find_query] returns; no other row changes. *)
Theorem check_cached_queries_spec cached_queries_db now flag path method :
  unique_pairs cached_queries_db ->
  match fst (find_query cached_queries_db path method) with
  | Ok (Some (query_id, q)) =>
      query_usage_count q < integer_max ->
      exists db',
        check_cached_queries cached_queries_db now flag path method
        = (Ok (Some (query_id, q)), true, db')
        /\ find_query db' path method
           = (Ok (Some (query_id,
                        {| query_description := query_description q;
                           query_path := query_path q;
                           query_method := query_method q;
                           query_params := query_params q;
                           query_data := query_data q;
                           query_timestamp := now;
                           query_usage_count := query_usage_count q + 1 |})),
              db')
        /\ forall other, other <> query_id ->
             saved_queries db' !! other = saved_queries cached_queries_db !! other
  | _ =>
      check_cached_queries cached_queries_db now flag path method
      = (Ok None, false, cached_queries_db)
  end.
Proof.
  intros Huniq. unfold check_cached_queries, find_query. cbn [fst].
  destruct (first_by_path_method cached_queries_db path method) as [[query_id q]|] eqn:Hf;
    [|reflexivity].
  intros Hroom. apply first_by_path_method_Some in Hf as (Hl & Hp & Hm).
  cbn [fst]. unfold increment_usage. rewrite Hl.
  assert (Hle : (query_usage_count q + 1 <=? integer_max) = true)
    by (apply Z.leb_le; lia).
  rewrite Hle. eexists. split; [reflexivity|]. split.
  - f_equal. f_equal. apply first_by_path_method_only; simpl; auto.
    + apply lookup_insert_eq.
    + intros j q'. rewrite lookup_insert. case_decide; [auto|].
      intros Hj Hp' Hm'. apply (Huniq j query_id q' q); congruence.
  - intros other Hother. simpl. rewrite lookup_insert. case_decide; congruence.
Qed.

Lemma check_cached_queries_spec_witness :
  unique_pairs one_query_store
  /\ exists db',
       check_cached_queries one_query_store 1700000060 false "/service/tickets" "GET"
       = (Ok (Some (1, tickets_query)), true, db')
       /\ fst (find_query db' "/service/tickets" "GET")
          = Ok (Some (1, {| query_description := "Get all open tickets";
                            query_path := "/service/tickets";
                            query_method := "GET";
                            query_params := None;
                            query_data := None;
                            query_timestamp := 1700000060;
                            query_usage_count := 2 |})).
Proof.
  split; [exact unique_pairs_one_query|].
  pose proof (check_cached_queries_spec one_query_store 1700000060 false
                "/service/tickets" "GET" unique_pairs_one_query) as H.
  change (fst (find_query one_query_store "/service/tickets" "GET"))
    with (Ok (Some (1, tickets_query)) : result (option SavedQueryDict)) in H.
  cbv iota beta in H.
  destruct H as (db' & Hcheck & Hfind & _); [reflexivity|].
  exists db'. split; [exact Hcheck|]. now rewrite Hfind.
Defined.

(** X25.  The delete tool never reports success.  Whatever the store
    and the id, [delete_from_cached_queries] answers that no query was
    found with that id, also when it has just deleted the row: after the
    call the id is absent, and every other row is as before. *)
Theorem delete_tool_reports_not_found cached_queries_db query_id :
  fst (delete_from_cached_queries cached_queries_db query_id)
  = "No query found with ID " ++ str_int query_id ++ "."
  /\ saved_queries (snd (delete_from_cached_queries cached_queries_db query_id))
       !! query_id = None
  /\ forall other, other <> query_id ->
       saved_queries (snd (delete_from_cached_queries cached_queries_db query_id)) !! other
       = saved_queries cached_queries_db !! other.
Proof.
  unfold delete_from_cached_queries, delete_query. cbn [fst snd truthy saved_queries].
  split; [reflexivity|]. split.
  - apply lookup_delete_eq.
  - intros other Hother. rewrite lookup_delete. case_decide; congruence.
Qed.

Lemma natural_language_capped self query limit :
  0 <= limit <= 9223372036854775807 ->
  exists rows,
    search_by_natural_language self query limit = Ok rows
    /\ Z.of_nat (length rows) <= limit.
Proof.
  intros Hlimit. unfold search_by_natural_language.
  destruct (Py.is_empty (Py.strip (Py.lower query))).
  { exists []. split; [reflexivity|]. simpl. lia. }
  destruct (has_fulltext_search self); [|now apply keyword_fallback_capped].
  destruct (results_or_pass
              (ranked_statement_rows self WebsearchRankCd _ limit)) as [rows|] eqn:H1.
  { exists rows. split; [reflexivity|]. exact (ranked_statement_capped _ _ _ _ _ H1). }
  destruct (results_or_pass
              (ranked_statement_rows self PlaintoRank _ limit)) as [rows|] eqn:H2.
  { exists rows. split; [reflexivity|]. exact (ranked_statement_capped _ _ _ _ _ H2). }
  now apply keyword_fallback_capped.
Qed.

Lemma checked_max_results_range max_results :
  1 <= checked_max_results max_results <= 50
  /\ (1 <= max_results <= 50 -> checked_max_results max_results = max_results).
Proof.
  unfold checked_max_results.
  destruct (max_results <? 1) eqn:Hlo, (20 <? max_results) eqn:Hhi; cbn [orb];
    try apply Z.ltb_lt in Hlo; try apply Z.ltb_ge in Hlo;
    try apply Z.ltb_lt in Hhi; try apply Z.ltb_ge in Hhi; lia.
Qed.

Lemma length_formatted_results results :
  forall i, length (formatted_results i results) = length results.
Proof. induction results as [|e rest IH]; intros i; simpl; [reflexivity|]. now rewrite IH. Qed.

(** X26.  The limit of the natural-language tool.  Whatever
    [max_results] is, [natural_language_api_search] searches with a
    limit between 1 and 50, and with [max_results] itself when that lies
    between 1 and 50 (the documented bound of 20 is not enforced).  For
    a query of ASCII characters without NUL that is not blank and has at
    most 500 characters after stripping, the search does not fail, finds
    at most that many rows, and the reply lists one entry for each row
    found, or says that nothing was found; for a query that is blank or
    longer after stripping the reply is one of the three validation
    messages. *)
Theorem natural_language_tool_spec api_db query max_results :
  let limit_val := checked_max_results max_results in
  1 <= limit_val <= 50
  /\ (1 <= max_results <= 50 -> limit_val = max_results)
  /\ (Spec.ascii_text query ->
      Py.strip query <> "" -> Py.len (Py.strip query) <= 500 ->
      exists results,
        search_by_natural_language api_db (Py.strip query) limit_val = Ok results
        /\ Z.of_nat (length results) <= limit_val
        /\ length (formatted_results 1 results) = length results
        /\ natural_language_api_search api_db query max_results
           = match results with
             | [] => "No API endpoints found matching your query."
             | _ =>
                 "Based on your query, here are the most relevant API endpoints:"
                 ++ newline ++ newline
                 ++ Py.join (newline ++ newline) (formatted_results 1 results)
                 ++ newline ++ newline
                 ++ "To get more details about a specific endpoint, use get_api_endpoint_details with the path and method."
             end)
  /\ (Py.strip query = "" \/ 500 < Py.len (Py.strip query) ->
      In (natural_language_api_search api_db query max_results)
        ["Error: Please provide a valid search query.";
         "Error: Search query cannot be empty.";
         "Error: Search query too long. Please keep it under 500 characters."]).
Proof.
  cbv zeta. destruct (checked_max_results_range max_results) as [Hrange Hsame].
  split; [exact Hrange|]. split; [exact Hsame|]. split.
  - intros _ Hne Hlen.
    destruct (natural_language_capped api_db (Py.strip query)
                (checked_max_results max_results)) as (results & Hsearch & Hcap); [lia|].
    exists results. split; [exact Hsearch|]. split; [exact Hcap|].
    split; [apply length_formatted_results|].
    unfold natural_language_api_search.
    destruct (Py.is_empty query) eqn:He.
    { apply is_empty_true in He. subst query. now destruct Hne. }
    rewrite (proj2 (is_empty_false _) Hne).
    rewrite (proj2 (Z.ltb_ge _ _) Hlen), Hsearch.
    now destruct results.
  - intros Hbad. unfold natural_language_api_search.
    destruct (Py.is_empty query); [now left|].
    destruct (Py.is_empty (Py.strip query)) eqn:He; [right; now left|].
    apply is_empty_false in He.
    destruct Hbad as [Hblank|Hlong]; [contradiction|].
    rewrite (proj2 (Z.ltb_lt _ _) Hlong). right. right. now left.
Qed.

(** ** The searches without search vectors *)

Lemma no_search_vectors_probe self :
  no_search_vectors self -> has_fulltext_search self = false.
Proof.
  unfold has_fulltext_search. intros [Hcolumn|Hnull].
  - now rewrite Hcolumn.
  - destruct (search_vector_column self); [|reflexivity]. cbn [negb].
    rewrite filter_nothing; [apply andb_false_r|].
    intros e He. rewrite (Hnull e He). apply bool_decide_eq_false.
    intros [v Hv]. discriminate.
Qed.

Lemma substring_pattern_column text toks column :
  Spec.wildcard_free text ->
  Sql.ilike_pattern ("%" ++ text ++ "%") = Ok toks ->
  Sql.imatches toks column = true <-> Spec.contains column text.
Proof.
  intros Hplain Hpat. destruct column as [s|].
  - rewrite (substring_pattern_plain_iff _ _ _ Hplain Hpat). unfold Spec.contains.
    split; [eauto|]. now intros (s' & [= <-] & H).
  - unfold Spec.contains. split; [discriminate|]. now intros (s & Hs & _).
Qed.

(** X27.  [search_endpoints] without search vectors.  When the
    search_vector column is missing or empty, [search_endpoints] does
    not fail for a query of ASCII characters without NUL, and returns
    the rows of the pattern statement, each as often as the catalog
    holds it and without a cap: all rows for the empty query, and for a
    query without [%], [_] and backslash exactly the rows with the query
    in the path, description, tags or summary, letter case aside. *)
Theorem search_endpoints_without_vectors self query :
  Spec.ascii_text query ->
  no_search_vectors self ->
  exists search_pattern rows,
    Sql.ilike_pattern ("%" ++ query ++ "%") = Ok search_pattern
    /\ search_endpoints self query = Ok rows
    /\ Permutation rows (List.filter (any_column_ilike search_pattern) (endpoints self))
    /\ (query = "" -> Permutation rows (endpoints self))
    /\ (Spec.wildcard_free query ->
        forall e, In e rows <-> In e (endpoints self) /\ Spec.token_in_columns e query).
Proof.
  intros _ Hnone. unfold search_endpoints.
  rewrite (no_search_vectors_probe _ Hnone).
  destruct (substring_pattern_ok query) as (toks & _ & Hpat).
  rewrite Hpat. simpl mbind. cbn [except_SQLAlchemyError].
  do 2 eexists. split; [reflexivity|]. split; [reflexivity|].
  split; [apply order_by_Permutation|]. split.
  - intros ->. rewrite order_by_Permutation.
    rewrite filter_everything; [reflexivity|].
    intros e _. unfold any_column_ilike.
    change "%%" with ("%" ++ "" ++ "%") in Hpat.
    injection Hpat as <-.
    now rewrite imatches_everything.
  - intros Hplain e. rewrite order_by_In, filter_In.
    unfold any_column_ilike, Spec.token_in_columns.
    rewrite !orb_true_iff, !(substring_pattern_column _ _ _ Hplain Hpat). tauto.
Qed.

Lemma search_endpoints_without_vectors_witness :
  Spec.ascii_text "CALLBACK"
  /\ no_search_vectors service_catalog
  /\ search_endpoints service_catalog "CALLBACK"
     = Ok [endpoint 3 "/system/callbacks/{id}" "get" None].
Proof.
  assert (Hascii : Spec.ascii_text "CALLBACK") by ascii_text_literal.
  assert (H : no_search_vectors service_catalog) by (left; reflexivity).
  split; [exact Hascii|]. split; [exact H|].
  destruct (search_endpoints_without_vectors service_catalog "CALLBACK" Hascii H)
    as (search_pattern & rows & _ & Hrows & _).
  rewrite Hrows. f_equal.
  assert (Hsame : Ok rows = Ok [endpoint 3 "/system/callbacks/{id}" "get" None])
    by (rewrite <- Hrows; vm_compute; reflexivity).
  now injection Hsame.
Defined.

(** X28.  A query of stop words finds nothing.  Without search vectors,
    [search_by_natural_language] returns the empty list, whatever the
    limit, for a query whose words are all stop words or shorter than
    three characters: no statement is run. *)
Theorem stopword_query_finds_nothing self query limit :
  no_search_vectors self ->
  (forall word, In word (Py.split_ws (Py.strip (Py.lower query))) ->
                In word stopwords \/ Py.len word < 3) ->
  search_by_natural_language self query limit = Ok [].
Proof.
  intros Hnone Hwords. unfold search_by_natural_language.
  destruct (Py.is_empty (Py.strip (Py.lower query))); [reflexivity|].
  rewrite (no_search_vectors_probe _ Hnone). unfold keyword_fallback, filter_keywords.
  rewrite filter_nothing; [reflexivity|].
  intros word Hword. destruct (Hwords word Hword) as [Hstop|Hshort].
  - apply andb_false_iff. left. apply negb_false_iff, existsb_exists.
    exists word. split; [exact Hstop|apply String.eqb_refl].
  - apply andb_false_iff. right. apply Z.leb_gt. exact Hshort.
Qed.

Lemma stopword_query_finds_nothing_witness :
  no_search_vectors service_catalog
  /\ (forall word, In word (Py.split_ws (Py.strip (Py.lower "Show me all of it"))) ->
                   In word stopwords \/ Py.len word < 3)
  /\ search_by_natural_language service_catalog "Show me all of it" (-1) = Ok [].
Proof.
  assert (H : no_search_vectors service_catalog) by (left; reflexivity).
  assert (Hwords : forall word,
            In word (Py.split_ws (Py.strip (Py.lower "Show me all of it"))) ->
            In word stopwords \/ Py.len word < 3).
  { intros word Hin. vm_compute in Hin.
    repeat (destruct Hin as [<-|Hin];
            [first [right; reflexivity | left; unfold stopwords; simpl; tauto]|]).
    destruct Hin. }
  split; [exact H|]. split; [exact Hwords|].
  apply (stopword_query_finds_nothing service_catalog "Show me all of it" (-1) H Hwords).
Defined.

Lemma sorted_app_le {A} (R : A -> A -> Prop) (l1 l2 : list A) :
  StronglySorted R (l1 ++ l2)%list ->
  forall x y, In x l1 -> In y l2 -> R x y.
Proof.
  induction l1 as [|a l1 IH]; intros Hsorted x y Hx Hy; [destruct Hx|].
  simpl in Hsorted. apply StronglySorted_inv in Hsorted as [Hrest Hall].
  destruct Hx as [<-|Hx]; [|now apply IH].
  rewrite List.Forall_forall in Hall. apply Hall, in_or_app. now right.
Qed.

(** X29.  The keyword fallback keeps the best rows.  Without search
    vectors, for a limit PostgreSQL accepts and a query with a surviving
    keyword, [search_by_natural_language] returns the first [limit] of
    the rows that some keyword pattern selects: together with the rows
    it leaves out these are all the selected rows of the catalog,
    nothing is left out while the limit is not reached, and no row left
    out has a better field priority for the first keyword than a row
    returned. *)
Theorem keyword_search_keeps_best self query limit first_keyword rest :
  no_search_vectors self ->
  0 <= limit <= 9223372036854775807 ->
  filter_keywords (Py.split_ws (Py.strip (Py.lower query))) = first_keyword :: rest ->
  exists search_params first_pattern rows omitted,
    keyword_patterns (first_keyword :: rest) = Ok search_params
    /\ Sql.ilike_pattern ("%" ++ first_keyword ++ "%") = Ok first_pattern
    /\ search_by_natural_language self query limit = Ok rows
    /\ Permutation (rows ++ omitted)
         (List.filter
            (fun e => existsb (fun pattern => any_column_ilike pattern e) search_params)
            (endpoints self))
    /\ length rows = Nat.min (Z.to_nat limit) (length (rows ++ omitted))
    /\ forall e e', In e rows -> In e' omitted ->
         field_priority first_pattern e <= field_priority first_pattern e'.
Proof.
  intros Hnone Hlimit Hkeywords. unfold search_by_natural_language.
  destruct (Py.is_empty (Py.strip (Py.lower query))) eqn:Hempty.
  { apply is_empty_true in Hempty. rewrite Hempty in Hkeywords. discriminate. }
  rewrite (no_search_vectors_probe _ Hnone). unfold keyword_fallback.
  rewrite Hkeywords. unfold keyword_statement.
  destruct (keyword_patterns_ok (first_keyword :: rest)) as (search_params & Hparams & _).
  destruct (substring_pattern_ok first_keyword) as (toks & _ & Hfirst).
  rewrite Hparams, Hfirst. simpl mbind.
  rewrite (limit_in_range _ _ Hlimit). cbn [except_SQLAlchemyError].
  set (selected := List.filter _ (endpoints self)).
  set (ordered := Sql.order_by
                    (Sql.by_key_leb (field_priority (Sql.AnySeq :: toks))) selected).
  exists search_params, (Sql.AnySeq :: toks),
    (take (Z.to_nat limit) ordered), (drop (Z.to_nat limit) ordered).
  split; [reflexivity|]. split; [reflexivity|]. split; [reflexivity|].
  rewrite take_drop. split; [apply order_by_Permutation|].
  split; [apply length_take|].
  intros e e' He He'.
  apply (sorted_app_le (Sql.by_key_le (field_priority (Sql.AnySeq :: toks)))
           (take (Z.to_nat limit) ordered) (drop (Z.to_nat limit) ordered));
    [|exact He|exact He'].
  rewrite take_drop. apply order_by_key_sorted.
Qed.

Lemma keyword_search_keeps_best_witness :
  no_search_vectors service_catalog
  /\ 0 <= 1 <= 9223372036854775807
  /\ filter_keywords (Py.split_ws (Py.strip (Py.lower "Tickets and contacts")))
     = "tickets" :: ["contacts"]
  /\ exists rows omitted,
       search_by_natural_language service_catalog "Tickets and contacts" 1 = Ok rows
       /\ length rows = Nat.min (Z.to_nat 1) (length (rows ++ omitted)).
Proof.
  assert (H : no_search_vectors service_catalog) by (left; reflexivity).
  assert (Hlimit : 0 <= 1 <= 9223372036854775807) by lia.
  assert (Hkeywords :
            filter_keywords (Py.split_ws (Py.strip (Py.lower "Tickets and contacts")))
            = "tickets" :: ["contacts"]) by (vm_compute; reflexivity).
  split; [exact H|]. split; [exact Hlimit|]. split; [exact Hkeywords|].
  destruct (keyword_search_keeps_best service_catalog "Tickets and contacts" 1
              "tickets" ["contacts"] H Hlimit Hkeywords)
    as (search_params & first_pattern & rows & omitted & _ & _ & Hrows & _ & Hlen & _).
  exists rows, omitted. auto.
Defined.

(** * The worded claims about the keyword fallback and the segment rules *)

(** ** The keyword fallback in the words of the specification *)

Lemma filter_keywords_surviving words :
  Spec.surviving words (filter_keywords words).
Proof.
  unfold filter_keywords. induction words as [|word words IH]; [constructor|].
  cbn [List.filter].
  destruct (existsb (String.eqb word) stopwords) eqn:Hstop; cbn [negb andb].
  - apply Spec.surviving_drop; [|exact IH]. intros [Hnot _]. apply Hnot.
    apply existsb_exists in Hstop as (stopword & Hin & Heq).
    apply String.eqb_eq in Heq. now subst.
  - assert (Hnot : ~ In word stopwords).
    { intros Hin.
      assert (existsb (String.eqb word) stopwords = true); [|congruence].
      apply existsb_exists. exists word. split; [exact Hin|apply String.eqb_refl]. }
    destruct (3 <=? Py.len word) eqn:Hlen.
    + apply Z.leb_le in Hlen. apply Spec.surviving_keep; [split; assumption|exact IH].
    + apply Z.leb_gt in Hlen. apply Spec.surviving_drop; [|exact IH].
      intros [_ Hlong]. lia.
Qed.

Lemma field_priority_rank pattern e :
  Spec.field_rank (fun column => Sql.imatches pattern column = true) e
    (field_priority pattern e).
Proof.
  unfold Spec.field_rank, field_priority.
  destruct (Sql.imatches pattern (endpoint_summary e)); [now left|].
  destruct (Sql.imatches pattern (endpoint_description e));
    [right; left; repeat split; congruence|].
  destruct (Sql.imatches pattern (Some (endpoint_path e)));
    [right; right; left; repeat split; congruence|].
  destruct (Sql.imatches pattern (endpoint_tags e));
    [right; right; right; left; repeat split; congruence|].
  right; right; right; right. repeat split; congruence.
Qed.

Lemma field_rank_ext (selects selects' : option string -> Prop) e rank :
  (forall column, selects column <-> selects' column) ->
  Spec.field_rank selects e rank -> Spec.field_rank selects' e rank.
Proof.
  intros Hsame. unfold Spec.field_rank. rewrite !Hsame. tauto.
Qed.

Lemma sorted_weaken {A} (R R' : A -> A -> Prop) (l : list A) :
  (forall a b, R a b -> R' a b) -> StronglySorted R l -> StronglySorted R' l.
Proof.
  intros Himpl. induction 1 as [|a l _ IH Hall]; constructor; [exact IH|].
  eapply List.Forall_impl; [|exact Hall]. intros b. apply Himpl.
Qed.

Lemma priority_sorted_ranked pattern rows :
  StronglySorted (Sql.by_key_le (field_priority pattern)) rows ->
  StronglySorted
    (Spec.ranked_before (fun column => Sql.imatches pattern column = true)) rows.
Proof.
  apply sorted_weaken. intros a b Hle.
  exists (field_priority pattern a), (field_priority pattern b).
  split; [apply field_priority_rank|]. split; [apply field_priority_rank|exact Hle].
Qed.

(** C7.  For a query of ASCII characters without NUL and a limit that
    PostgreSQL accepts, when the ranked tiers return no rows,
    [search_by_natural_language] returns the rows of the keyword
    fallback.  Its tokens are the words of the lower-cased, stripped
    query that are no stopword and have three characters or more, in the
    order of the query.  There is no row when no token survives;
    otherwise every row is a catalog row which some surviving token
    selects in path, description, tags or summary, as the pattern
    %token% matched without regard to case; the rows are in the order
    summary match, description match, path match, tag match, none, of
    the first surviving token; and there are at most [limit] of them.
    For a token without %, _ and backslash, to select a column is to
    occur in it, letter case aside. *)
Theorem keyword_fallback_spec self query limit :
  Spec.ascii_text query ->
  0 <= limit <= 9223372036854775807 ->
  (has_fulltext_search self = true ->
   results_or_pass
     (ranked_statement_rows self WebsearchRankCd (Py.strip (Py.lower query)) limit) = None
   /\ results_or_pass
        (ranked_statement_rows self PlaintoRank (Py.strip (Py.lower query)) limit) = None) ->
  exists tokens rows,
    Spec.surviving (Py.split_ws (Py.strip (Py.lower query))) tokens
    /\ search_by_natural_language self query limit = Ok rows
    /\ (tokens = [] -> rows = [])
    /\ (forall e, In e rows ->
          In e (endpoints self)
          /\ exists token pattern,
               In token tokens
               /\ Sql.ilike_pattern ("%" ++ token ++ "%") = Ok pattern
               /\ Spec.selected_by
                    (fun column => Sql.imatches pattern column = true) e
               /\ (Spec.wildcard_free token -> Spec.token_in_columns e token))
    /\ (forall first_token rest,
          tokens = first_token :: rest ->
          exists first_pattern,
            Sql.ilike_pattern ("%" ++ first_token ++ "%") = Ok first_pattern
            /\ StronglySorted
                 (Spec.ranked_before
                    (fun column => Sql.imatches first_pattern column = true)) rows
            /\ (Spec.wildcard_free first_token ->
                StronglySorted
                  (Spec.ranked_before
                     (fun column => Spec.contains column first_token)) rows))
    /\ Z.of_nat (length rows) <= limit.
Proof.
  intros _ Hlimit Hranked.
  destruct (keyword_fallback_rows self query limit Hlimit Hranked)
    as (rows & Hsearch & Hnone & Hrows & Hsorted & Hlen).
  exists (filter_keywords (Py.split_ws (Py.strip (Py.lower query)))), rows.
  split; [apply filter_keywords_surviving|]. split; [exact Hsearch|].
  split; [exact Hnone|]. split; [|split; [|exact Hlen]].
  - intros e He.
    destruct (Hrows e He) as (Hin & token & pattern & Htoken & Hpat & Hany & Hplain).
    split; [exact Hin|]. exists token, pattern.
    split; [exact Htoken|]. split; [exact Hpat|]. split; [|exact Hplain].
    unfold any_column_ilike in Hany. unfold Spec.selected_by.
    rewrite !orb_true_iff in Hany. tauto.
  - intros first_token rest Htokens.
    destruct (Hsorted first_token rest Htokens) as (first_pattern & Hpat & Hordered).
    exists first_pattern. split; [exact Hpat|].
    pose proof (priority_sorted_ranked _ _ Hordered) as Hranks.
    split; [exact Hranks|]. intros Hplain.
    eapply sorted_weaken; [|exact Hranks].
    intros a b (rank_a & rank_b & Ha & Hb & Hle). exists rank_a, rank_b.
    split; [|split; [|exact Hle]];
      (eapply field_rank_ext; [|eassumption]);
      intros column; apply (substring_pattern_column _ _ _ Hplain Hpat).
Qed.

Lemma keyword_fallback_spec_witness :
  Spec.ascii_text "Find service TICKETS"
  /\ 0 <= 1 <= 9223372036854775807
  /\ (has_fulltext_search silent_ranked_db = true ->
      results_or_pass
        (ranked_statement_rows silent_ranked_db WebsearchRankCd
           (Py.strip (Py.lower "Find service TICKETS")) 1) = None
      /\ results_or_pass
           (ranked_statement_rows silent_ranked_db PlaintoRank
              (Py.strip (Py.lower "Find service TICKETS")) 1) = None)
  /\ exists tokens rows,
      Spec.surviving (Py.split_ws (Py.strip (Py.lower "Find service TICKETS"))) tokens
      /\ search_by_natural_language silent_ranked_db "Find service TICKETS" 1 = Ok rows
      /\ (tokens = [] -> rows = [])
      /\ (forall e, In e rows ->
            In e (endpoints silent_ranked_db)
            /\ exists token pattern,
                 In token tokens
                 /\ Sql.ilike_pattern ("%" ++ token ++ "%") = Ok pattern
                 /\ Spec.selected_by
                      (fun column => Sql.imatches pattern column = true) e
                 /\ (Spec.wildcard_free token -> Spec.token_in_columns e token))
      /\ (forall first_token rest,
            tokens = first_token :: rest ->
            exists first_pattern,
              Sql.ilike_pattern ("%" ++ first_token ++ "%") = Ok first_pattern
              /\ StronglySorted
                   (Spec.ranked_before
                      (fun column => Sql.imatches first_pattern column = true)) rows
              /\ (Spec.wildcard_free first_token ->
                  StronglySorted
                    (Spec.ranked_before
                       (fun column => Spec.contains column first_token)) rows))
      /\ Z.of_nat (length rows) <= 1.
Proof.
  assert (Hascii : Spec.ascii_text "Find service TICKETS") by ascii_text_literal.
  assert (Hranked :
    has_fulltext_search silent_ranked_db = true ->
    results_or_pass
      (ranked_statement_rows silent_ranked_db WebsearchRankCd
         (Py.strip (Py.lower "Find service TICKETS")) 1) = None
    /\ results_or_pass
         (ranked_statement_rows silent_ranked_db PlaintoRank
            (Py.strip (Py.lower "Find service TICKETS")) 1) = None).
  { intros _. split; reflexivity. }
  split; [exact Hascii|]. split; [lia|]. split; [exact Hranked|].
  apply (keyword_fallback_spec silent_ranked_db "Find service TICKETS" 1);
    [exact Hascii|lia|exact Hranked].
Defined.

(** The tokens and the order of the fallback on an example: "find" is a
    stopword and "of" is short; the row that has the first token in its
    summary comes before the row that has it in its path only. *)
Example keyword_fallback_tokens_and_order :
  Spec.surviving (Py.split_ws (Py.strip (Py.lower "Find LIST of Tickets")))
    ["tickets"]
  /\ search_by_natural_language
       (catalog_only [endpoint 1 "/service/tickets" "get" None;
                      endpoint 2 "/service/boards" "get" (Some "Boards of tickets")])
       "Find LIST of Tickets" 10
     = Ok [endpoint 2 "/service/boards" "get" (Some "Boards of tickets");
           endpoint 1 "/service/tickets" "get" None].
Proof.
  split; [|reflexivity].
  change (Py.split_ws (Py.strip (Py.lower "Find LIST of Tickets")))
    with ["find"; "list"; "of"; "tickets"].
  apply Spec.surviving_drop; [intros [H _]; apply H; unfold stopwords; simpl; tauto|].
  apply Spec.surviving_drop; [intros [H _]; apply H; unfold stopwords; simpl; tauto|].
  apply Spec.surviving_drop; [intros [_ H]; vm_compute in H; now apply H|].
  apply Spec.surviving_keep; [|constructor].
  split; [|vm_compute; discriminate].
  unfold stopwords. simpl. intros H.
  repeat (destruct H as [H|H]; [discriminate H|]). exact H.
Qed.

(** ** The segment rules in the words of the specification *)












(** What "known" means: "2024" is pure digits and no component of a
    catalog path, but the path /reports/2024summary has it after a
    slash; it is known, and kept. *)
Example convert_segment_start_of_component :
  Spec.pure_digits "2024"
  /\ ~ In "2024" (segments "/reports/2024summary")
  /\ Spec.known_segment (endpoints yearly_report_catalog) "2024"
  /\ fst (_convert_segment_to_parameter yearly_report_catalog "2024") = "2024".
Proof.
  split; [|split; [|split; [|reflexivity]]].
  - split; [discriminate|]. unfold Spec.all_in. simpl. repeat constructor.
  - simpl. intros [H|[H|H]]; [discriminate H|discriminate H|exact H].
  - exists (endpoint 1 "/reports/2024summary" "get" None), "/reports", "2024", "summary".
    split; [now left|]. split; [reflexivity|].
    unfold Spec.agrees. simpl. repeat constructor; now right.
Qed.
